(** * Discord bot messenger (app.py): a shallow embedding and its properties

    The program is a Streamlit script: helper functions that call the
    Discord REST API through [requests], a JSON settings file, and view
    functions that draw widgets.  The embedding follows the script:

    - JSON data is a [value]; a Python [dict] with string keys is a
      [gmap string value].  JSON numbers are integers here; numbers with a
      fractional part are outside the model.
    - A Python [str] is a Rocq [string] holding its UTF-8 bytes, so the
      literals below are the literals of the script.
    - A Python exception is an [exn]; code that may raise returns an
      [outcome].  Code that also touches the outside world (the settings
      file, the network, the page being drawn, the query parameters, the
      session state) is a function [world -> outcome A * world]: the
      world reached is returned on both outcomes, since a raised exception
      does not undo earlier effects.
    - What the script only reads (the remote side, the clock, the
      process environment, the button the visitor pressed, the
      [datetime] parsing and time zone routines of the standard library)
      is an [env]. *)

From Stdlib Require Import ZArith DecimalString Ascii String.
From stdpp Require Import gmap strings list fin_maps sorting.

Set Warnings "-register-all".

(** ** Python values *)

Inductive value :=
| VNone
| VBool (b : bool)
| VInt (n : Z)
| VStr (s : string)
| VList (l : list value)
| VDict (d : gmap string value).

Abbreviation dict := (gmap string value).

Global Instance value_eq_dec : EqDecision value.
Proof.
  refine (fix go (a b : value) {struct a} : Decision (a = b) :=
    let _ : EqDecision value := @go in
    match a, b with
    | VNone, VNone => left _
    | VBool x, VBool y => cast_if (decide (x = y))
    | VInt x, VInt y => cast_if (decide (x = y))
    | VStr x, VStr y => cast_if (decide (x = y))
    | VList x, VList y => cast_if (decide (x = y))
    | VDict x, VDict y => cast_if (decide (x = y))
    | _, _ => right _
    end); abstract congruence.
Defined.

Global Instance value_inhabited : Inhabited value := populate VNone.

(** ** Exceptions and outcomes *)

(** [resp.json()] parses [resp.text]; the parse is not redone here, a
    response carries its result: [None] when the body is not JSON. *)
Record response := Response {
  status_code : Z;
  text : string;
  json_body : option value;
}.

(** [RequestException msg] stands for the failures of the network layer
    (connection errors, timeouts), [HTTPError] for what
    [raise_for_status] raises, [JSONDecodeError] for what [resp.json()]
    raises on a body that is not JSON ([requests.JSONDecodeError], a
    subclass of [RequestException] since requests 2.27).  [StopException] and [RerunException] are what [st.stop()] and
    [st.rerun()] raise to end the run of the script. *)
Inductive exn :=
| KeyError (k : string)
| TypeError
| AttributeError
| ValueError
| OverflowError
| JSONDecodeError
| HTTPError (r : response)
| RequestException (msg : string)
| StopException
| RerunException.

(** What [except requests.RequestException] catches: the class itself and
    its subclasses [HTTPError] and [JSONDecodeError]. *)
Definition is_request_exception (e : exn) : bool :=
  match e with
  | RequestException _ | HTTPError _ | JSONDecodeError => true
  | _ => false
  end.

Inductive outcome (A : Type) :=
| Ok (a : A)
| Raise (e : exn).
Arguments Ok {A} a.
Arguments Raise {A} e.

Global Instance outcome_ret : MRet outcome := λ A a, Ok a.
Global Instance outcome_bind : MBind outcome := λ A B k m,
  match m with
  | Ok a => k a
  | Raise e => Raise e
  end.

(** ** Python operations on values *)

(** [bool(v)]. *)
Definition truthy (v : value) : bool :=
  match v with
  | VNone => false
  | VBool b => b
  | VInt n => negb (n =? 0)%Z
  | VStr s => negb (String.eqb s "")
  | VList l => negb (bool_decide (l = []))
  | VDict d => negb (bool_decide (d = ∅))
  end.

(** [a or b] and [a and b]. *)
Definition py_or (a b : value) : value := if truthy a then a else b.
Definition py_and (a b : value) : value := if truthy a then b else a.

(** [bool] is a subclass of [int]: [True == 1] and [False == 0], also
    inside lists and dicts.  [norm] sends a value to the representative of
    its [==] class. *)
Fixpoint norm (v : value) : value :=
  match v with
  | VBool b => VInt (Z.b2z b)
  | VList l => VList (norm <$> l)
  | VDict d => VDict (norm <$> d)
  | _ => v
  end.

(** [a == b]. *)
Definition py_eq (a b : value) : bool := bool_decide (norm a = norm b).

Definition as_num (v : value) : option Z :=
  match v with
  | VInt n => Some n
  | VBool b => Some (Z.b2z b)
  | _ => None
  end.

(** [a < b]: numbers with numbers, strings with strings (by code point,
    which is the order of the UTF-8 bytes), lists with lists (at the first
    position where they differ); every other pair is a [TypeError]. *)
Fixpoint py_lt (a b : value) {struct a} : outcome bool :=
  match a, b with
  | VList xs, VList ys =>
      (fix go (xs ys : list value) {struct xs} : outcome bool :=
         match xs, ys with
         | [], [] => Ok false
         | [], _ :: _ => Ok true
         | _ :: _, [] => Ok false
         | x :: xs', y :: ys' => if py_eq x y then go xs' ys' else py_lt x y
         end) xs ys
  | VStr s, VStr t => Ok (String.ltb s t)
  | _, _ =>
      match as_num a, as_num b with
      | Some x, Some y => Ok (x <? y)%Z
      | _, _ => Raise TypeError
      end
  end.

(** [v[k]] for a string [k]. *)
Definition getitem (v : value) (k : string) : outcome value :=
  match v with
  | VDict d =>
      match d !! k with
      | Some x => Ok x
      | None => Raise (KeyError k)
      end
  | _ => Raise TypeError
  end.

(** [d[k]] and [d.get(k, dflt)] on a dict. *)
Definition dict_getitem (d : dict) (k : string) : outcome value :=
  getitem (VDict d) k.

Definition dict_get (d : dict) (k : string) (dflt : value) : value :=
  default dflt (d !! k).

(** [v.get(k, dflt)] on any value: only dicts have the method. *)
Definition get (v : value) (k : string) (dflt : value) : outcome value :=
  match v with
  | VDict d => Ok (dict_get d k dflt)
  | _ => Raise AttributeError
  end.

(** The characters of a string: a byte [10xxxxxx] continues the
    character before it. *)
Definition is_continuation (c : ascii) : bool :=
  let n := nat_of_ascii c in (128 <=? n) && (n <? 192).

Fixpoint utf8_chars (s : string) : list string :=
  match s with
  | EmptyString => []
  | String c s' =>
      match utf8_chars s' with
      | String c' h :: t =>
          if is_continuation c' then String c (String c' h) :: t
          else String c "" :: String c' h :: t
      | t => String c "" :: t
      end
  end.

(** [for x in v]: the items of a list, the characters of a string, the
    keys of a dict (whose order the map does not record). *)
Definition iter (v : value) : outcome (list value) :=
  match v with
  | VList l => Ok l
  | VStr s => Ok (map VStr (utf8_chars s))
  | VDict d => Ok (map VStr (map_to_list d).*1)
  | _ => Raise TypeError
  end.


(** [str(n)] for an integer. *)
Definition str_of_int (n : Z) : string := NilZero.string_of_int (Z.to_int n).

(** ** Whitespace and [str.strip] *)

Definition utf8 (bytes : list nat) : string :=
  string_of_list_ascii (ascii_of_nat <$> bytes).

(** The characters [str.isspace] accepts, each as its UTF-8 bytes:
    U+0009..U+000D, U+001C..U+0020, U+0085, U+00A0, U+1680,
    U+2000..U+200A, U+2028, U+2029, U+202F, U+205F, U+3000. *)
Definition whitespace : list string :=
  (utf8 <$> [[9]; [10]; [11]; [12]; [13]; [28]; [29]; [30]; [31]; [32]]) ++
  (utf8 <$> [[194; 133]; [194; 160]; [225; 154; 128]]) ++
  (utf8 <$> [[226; 128; 128]; [226; 128; 129]; [226; 128; 130];
             [226; 128; 131]; [226; 128; 132]; [226; 128; 133];
             [226; 128; 134]; [226; 128; 135]; [226; 128; 136];
             [226; 128; 137]; [226; 128; 138]]) ++
  (utf8 <$> [[226; 128; 168]; [226; 128; 169]; [226; 128; 175];
             [226; 129; 159]; [227; 128; 128]]).

Fixpoint drop_string (n : nat) (s : string) : string :=
  match n, s with
  | S n', String _ s' => drop_string n' s'
  | _, _ => s
  end.

(** The rest of [s] after one leading whitespace character, if any. *)
Definition skip_space (s : string) : option string :=
  (λ e, drop_string (String.length e) s) <$>
    List.find (λ e, String.prefix e s) whitespace.

Fixpoint lstrip_upto (fuel : nat) (s : string) : string :=
  match fuel with
  | O => s
  | S fuel' =>
      match skip_space s with
      | Some s' => lstrip_upto fuel' s'
      | None => s
      end
  end.

(** [s.lstrip()]: at most [length s] characters can be dropped. *)
Definition lstrip (s : string) : string := lstrip_upto (String.length s) s.

(** [s.rstrip()]: cut at the first position from which only whitespace
    follows. *)
Fixpoint rstrip (s : string) : string :=
  match s with
  | EmptyString => ""
  | String c s' =>
      if String.eqb (lstrip s) "" then "" else String c (rstrip s')
  end.

(** [s.strip()]. *)
Definition strip (s : string) : string := rstrip (lstrip s).

(** ** Formatted text *)

(** An f-string is kept as its pieces: the literal parts and the values
    formatted into it. *)
Inductive piece :=
| Lit (s : string)
| Fmt (v : value)
| FmtExc (e : exn).

Abbreviation ftext := (list piece).

(** [str(v)] where it is a function of the value as modelled: the [repr]
    of a dict lists the keys in insertion order, which the map does not
    record, so lists and dicts are left out. *)
Definition py_str (v : value) : option string :=
  match v with
  | VNone => Some "None"
  | VBool true => Some "True"
  | VBool false => Some "False"
  | VInt n => Some (str_of_int n)
  | VStr s => Some s
  | VList _ | VDict _ => None
  end.

Definition render_piece (p : piece) : option string :=
  match p with
  | Lit s => Some s
  | Fmt v => py_str v
  | FmtExc (RequestException msg) => Some msg
  | FmtExc _ => None
  end.

(** The string an f-string evaluates to. *)
Fixpoint render (t : ftext) : option string :=
  match t with
  | [] => Some ""
  | p :: t' =>
      match render_piece p, render t' with
      | Some s, Some r => Some (s +:+ r)
      | _, _ => None
      end
  end.

(** ** The page, the network, and the world of a script run *)

(** The calls made on [st], in order; a [with] block is a widget that
    holds what was drawn inside it. *)
Inductive widget :=
| StTitle (t : ftext)
| StSubheader (t : ftext)
| StWrite (t : ftext)
| StCaption (t : ftext)
| StMarkdown (t : ftext)
| StSuccess (t : ftext)
| StError (t : ftext)
| StInfo (t : ftext)
| StWarning (t : ftext)
| StDivider
| StButton (label : string) (primary wide : bool)
| StLinkButton (label url : string) (primary wide : bool)
| StChatMessage (role : string) (inside : list widget)
| StColumn (i : nat) (inside : list widget)
| StExpander (label : ftext) (inside : list widget).

Inductive body :=
| NoBody
| JsonBody (v : value)
| FormBody (fields : list (string * string)).

Record request := Request {
  req_method : string;
  req_url : string;
  req_headers : list (string * ftext);
  req_body : body;
  req_timeout : Z;
}.

(** What a call on [requests] ends in: a response, whatever its status,
    or a failure of the network layer. *)
Inductive net_result :=
| Answer (r : response)
| NetFail (msg : string).

(** A [datetime] object: calendar fields and, when aware, the offset from
    UTC in seconds. *)
Record datetime := Datetime {
  year : Z; month : Z; day : Z;
  hour : Z; minute : Z; second : Z;
  utcoffset : option Z;
}.

Record env := Env {
  (** the remote side: its answer to a request, given the requests made
      before it *)
  remote : list request → request → net_result;
  (** [datetime.now(timezone.utc).isoformat()] *)
  utcnow : string;
  (** the button whose press started this run of the script *)
  pressed : option string;
  (** [datetime.fromisoformat] on a [str], and [.astimezone(tz=None)]:
      the standard library's parser and the host's time zone rules *)
  fromisoformat : string → outcome datetime;
  astimezone : datetime → outcome datetime;
  (** [os.getenv] of the four settings *)
  BOT_TOKEN : string;
  CLIENT_ID : string;
  CLIENT_SECRET : string;
  REDIRECT_URI : string;
}.

(** [config_file] is the JSON document stored at [CONFIG_PATH], [None]
    when the file does not exist.  The file holds [json.dumps] of a dict
    and is read back with [json.loads]; it is kept as the dict. *)
Record world := World {
  config_file : option dict;
  query_params : gmap string string;
  session_state : gmap string value;
  page : list widget;
  net_log : list request;
}.

Definition set_config_file (f : option dict) (w : world) : world :=
  World f (query_params w) (session_state w) (page w) (net_log w).
Definition set_query_params (q : gmap string string) (w : world) : world :=
  World (config_file w) q (session_state w) (page w) (net_log w).
Definition set_session_state (s : gmap string value) (w : world) : world :=
  World (config_file w) (query_params w) s (page w) (net_log w).
Definition set_page (p : list widget) (w : world) : world :=
  World (config_file w) (query_params w) (session_state w) p (net_log w).
Definition set_net_log (l : list request) (w : world) : world :=
  World (config_file w) (query_params w) (session_state w) (page w) l.

Definition M (A : Type) : Type := world → outcome A * world.

Global Instance M_ret : MRet M := λ A a w, (Ok a, w).
Global Instance M_bind : MBind M := λ A B k m w,
  match m w with
  | (Ok a, w') => k a w'
  | (Raise e, w') => (Raise e, w')
  end.

Definition lift {A} (o : outcome A) : M A := λ w, (o, w).
Definition raise {A} (e : exn) : M A := λ w, (Raise e, w).

(** [try: m  except ...: h]: [h e] is [None] for an exception no clause
    matches. *)
Definition try_except {A} (m : M A) (h : exn → option (M A)) : M A := λ w,
  match m w with
  | (Ok a, w') => (Ok a, w')
  | (Raise e, w') =>
      match h e with
      | Some k => k w'
      | None => (Raise e, w')
      end
  end.

Definition draw (x : widget) : M unit := λ w,
  (Ok tt, set_page (page w ++ [x]) w).

(** [with container: m]: what [m] draws goes inside the container, also
    when [m] raises part way. *)
Definition within {A} (container : list widget → widget) (m : M A) : M A :=
  λ w,
  let '(r, w') := m (set_page [] w) in
  (r, set_page (page w ++ [container (page w')]) w').

(** [st.button(label, ...)]: drawn, and true in the run its press
    started.  [key] is the widget key, the label when none is given. *)
Definition st_button (E : env) (key label : string) (primary wide : bool)
  : M bool := λ w,
  (Ok (bool_decide (pressed E = Some key)),
   set_page (page w ++ [StButton label primary wide]) w).

(** [st.session_state.onboarding_step = step]. *)
Definition set_step (step : string) : M unit := λ w,
  (Ok tt, set_session_state
            (<["onboarding_step" := VStr step]> (session_state w)) w).

Definition st_stop {A} : M A := raise StopException.
Definition st_rerun {A} : M A := raise RerunException.

(** One call through [requests]: recorded, then answered by the remote
    side or failed by the network. *)
Definition http (E : env) (req : request) : M response := λ w,
  let w' := set_net_log (net_log w ++ [req]) w in
  match remote E (net_log w) req with
  | Answer r => (Ok r, w')
  | NetFail msg => (Raise (RequestException msg), w')
  end.

(** [resp.raise_for_status()]: [requests] raises for the client and
    server error statuses, 400 to 599. *)
Definition raise_for_status (r : response) : outcome unit :=
  if ((400 <=? status_code r) && (status_code r <? 600))%Z
  then Raise (HTTPError r) else Ok tt.

(** [resp.json()]. *)
Definition resp_json (r : response) : outcome value :=
  match json_body r with
  | Some v => Ok v
  | None => Raise JSONDecodeError
  end.

(** ** Python built-ins used by the script *)

(** [\[x for x in l if p(x)\]], where [p] may raise. *)
Fixpoint filter_comprehension {A} (p : A → outcome bool) (l : list A)
  : outcome (list A) :=
  match l with
  | [] => Ok []
  | x :: l' =>
      b ← p x;
      r ← filter_comprehension p l';
      Ok (if b : bool then x :: r else r)
  end.

(** [sorted(l, key=f)] computes the key of every item, then sorts the
    items on their keys with [<] alone, keeping items whose keys do not
    order in the order they came (the sort is stable).  Insertion from
    the back does the same: an item passes the items whose key is less
    than its own and stops at the first that is not. *)
Fixpoint insert_keyed {A} (kx : value * A) (l : list (value * A))
  : outcome (list (value * A)) :=
  match l with
  | [] => Ok [kx]
  | ky :: l' =>
      b ← py_lt ky.1 kx.1;
      if b : bool then r ← insert_keyed kx l'; Ok (ky :: r)
      else Ok (kx :: ky :: l')
  end.

Fixpoint sort_keyed {A} (l : list (value * A)) : outcome (list (value * A)) :=
  match l with
  | [] => Ok []
  | kx :: l' => s ← sort_keyed l'; insert_keyed kx s
  end.

Definition sorted {A} (key : A → outcome value) (l : list A)
  : outcome (list A) :=
  keyed ← mapM (λ x, k ← key x; Ok (k, x)) l;
  s ← sort_keyed keyed;
  Ok (s.*2).

(** [reversed(v)]. *)
Definition py_reversed (v : value) : outcome (list value) :=
  match v with
  | VList l => Ok (rev l)
  | VStr s => Ok (map VStr (rev (utf8_chars s)))
  | VDict d => Ok (map VStr (rev (map_to_list d).*1))
  | _ => Raise TypeError
  end.

(** [sep.join(items)]: every item has to be a [str]. *)
Fixpoint str_join (sep : string) (items : list value) : outcome string :=
  match items with
  | [] => Ok ""
  | [VStr s] => Ok s
  | VStr s :: rest => r ← str_join sep rest; Ok (s +:+ sep +:+ r)
  | _ :: _ => Raise TypeError
  end.

(** A [for] loop whose body draws. *)
Fixpoint for_each {A} (l : list A) (f : A → M unit) : M unit :=
  match l with
  | [] => mret tt
  | x :: l' => _ ← f x; for_each l' f
  end.

(** [urllib.parse.urlencode]: each key and value through [quote_plus],
    which keeps letters, digits and [_.-~], turns a space into [+] and
    any other byte into [%XX]. *)
Definition unreserved (c : ascii) : bool :=
  let n := nat_of_ascii c in
  ((48 <=? n) && (n <=? 57)) || ((65 <=? n) && (n <=? 90)) ||
  ((97 <=? n) && (n <=? 122)) ||
  (n =? 45) || (n =? 46) || (n =? 95) || (n =? 126).

Definition hex_digit (n : nat) : ascii :=
  ascii_of_nat (if n <? 10 then 48 + n else 55 + n).

Fixpoint quote_plus (s : string) : string :=
  match s with
  | EmptyString => ""
  | String c s' =>
      if unreserved c then String c (quote_plus s')
      else if Ascii.eqb c " " then String "+" (quote_plus s')
      else
        let n := nat_of_ascii c in
        String "%" (String (hex_digit (n / 16))
                      (String (hex_digit (n mod 16)) (quote_plus s')))
  end.

Definition urlencode (params : list (string * string)) : string :=
  String.concat "&"
    (map (λ kv, quote_plus kv.1 +:+ "=" +:+ quote_plus kv.2) params).

(** [ts.strftime("%Y-%m-%d %H:%M")].  The month, the day, the hour and
    the minute are written as two decimal digits, padded with a zero.
    The year is written by the C library of the host: glibc writes it in
    decimal without padding, so a year below 1000 takes fewer than four
    digits (other C libraries pad it with zeros; from the year 1000 on
    they all write the same four digits). *)
Fixpoint zeros (n : nat) : string :=
  match n with
  | O => ""
  | S n' => String "0" (zeros n')
  end.

Definition zero_pad (width : nat) (s : string) : string :=
  zeros (width - String.length s) +:+ s.

Definition digits (width : nat) (n : Z) : string :=
  zero_pad width (str_of_int n).

Definition strftime_ymd_hm (t : datetime) : string :=
  str_of_int (year t) +:+ "-" +:+ digits 2 (month t) +:+ "-" +:+
  digits 2 (day t) +:+ " " +:+ digits 2 (hour t) +:+ ":" +:+
  digits 2 (minute t).

(** ** The script: constants and helper functions *)

Definition DISCORD_API : string := "https://discord.com/api/v10".
Definition DISCORD_OAUTH2_TOKEN_URL : string :=
  "https://discord.com/api/oauth2/token".

Definition load_config : M dict := λ w,
  (Ok (default ∅ (config_file w)), w).

Definition save_config (data : dict) : M unit := λ w,
  (Ok tt, set_config_file (Some data) w).

(** The request [discord_request] hands to [requests.request]. *)
Definition discord_call (method endpoint token : string) (payload : body)
  : request :=
  {| req_method := method;
     req_url := DISCORD_API +:+ endpoint;
     req_headers := [("Authorization", [Lit "Bot "; Fmt (VStr token)])];
     req_body := payload;
     req_timeout := 10 |}.

Definition discord_request (E : env) (method endpoint token : string)
    (payload : body) : M response :=
  http E (discord_call method endpoint token payload).

Definition get_guild_channels (E : env) (token guild_id : string)
  : M (list value) :=
  resp ← discord_request E "GET" ("/guilds/" +:+ guild_id +:+ "/channels")
           token NoBody;
  _ ← lift (raise_for_status resp);
  channels ← lift (resp_json resp);
  lift (
    items ← iter channels;
    text_channels ← filter_comprehension
      (λ ch, t ← getitem ch "type"; Ok (py_eq t (VInt 0))) items;
    sorted (λ ch, get ch "position" (VInt 0)) text_channels).

Definition send_message (E : env) (token channel_id content : string)
  : M response :=
  discord_request E "POST" ("/channels/" +:+ channel_id +:+ "/messages")
    token (JsonBody (VDict {["content" := VStr content]})).

Definition open_dm_channel (E : env) (token : string) (user_id : value)
  : M value :=
  resp ← discord_request E "POST" "/users/@me/channels" token
           (JsonBody (VDict {["recipient_id" := user_id]}));
  _ ← lift (raise_for_status resp);
  lift (resp_json resp).

Definition get_messages (E : env) (token channel_id : string) (limit : Z)
  : M value :=
  resp ← discord_request E "GET"
           ("/channels/" +:+ channel_id +:+ "/messages?limit=" +:+
            str_of_int limit) token NoBody;
  _ ← lift (raise_for_status resp);
  lift (resp_json resp).

(** The [try] block around [fromisoformat], [astimezone] and [strftime]:
    [ValueError] and [TypeError] give [fallback], anything else goes on. *)
Definition local_time (E : env) (ts : value) (fallback : string)
  : outcome string :=
  let attempt : outcome string :=
    s ← match ts with VStr s => Ok s | _ => Raise TypeError end;
    parsed ← fromisoformat E s;
    here ← astimezone E parsed;
    Ok (strftime_ymd_hm here) in
  match attempt with
  | Raise ValueError | Raise TypeError => Ok fallback
  | r => r
  end.

(** [u.get("global_name") or u.get("username", dflt)]. *)
Definition display_name (u : value) (dflt : string) : outcome value :=
  g ← get u "global_name" VNone;
  if truthy g then Ok g else get u "username" (VStr dflt).

(** The body of the loop of [display_messages]. *)
Definition display_message (E : env) (bot_id : string) (msg : value)
  : M unit :=
  author ← lift (get msg "author" (VDict ∅));
  author_id ← lift (get author "id" VNone);
  let is_bot := py_eq author_id (VStr bot_id) in
  let role := if is_bot then "assistant" else "user" in
  username ← lift (display_name author "Unknown");
  timestamp_str ← lift (get msg "timestamp" (VStr ""));
  time_display ← lift (local_time E timestamp_str "");
  within (StChatMessage role) (
    _ ← draw (StCaption [Lit "**"; Fmt username; Lit "** · ";
                         Fmt (VStr time_display)]);
    content ← lift (get msg "content" (VStr ""));
    draw (StMarkdown [Fmt content])).

Definition display_messages (E : env) (messages : value) (bot_id : string)
  : M unit :=
  if negb (truthy messages) then draw (StCaption [Lit "No messages yet."])
  else
    newest_last ← lift (py_reversed messages);
    for_each newest_last (display_message E bot_id).

Definition send_and_report (E : env) (token channel_id content : string)
  : M unit :=
  if negb (truthy (VStr (strip content))) then
    draw (StError [Lit "Message cannot be empty."])
  else
    try_except (
      resp ← send_message E token channel_id content;
      if (status_code resp =? 200)%Z then
        draw (StSuccess [Lit "Message sent!"])
      else if (status_code resp =? 429)%Z then
        body ← lift (resp_json resp);
        retry_after ← lift (get body "retry_after" (VStr "a few"));
        draw (StError [Lit "Rate limited. Retry after "; Fmt retry_after;
                       Lit " seconds."])
      else if (status_code resp =? 403)%Z then
        draw (StError [Lit "Bot lacks permission to send messages here. Check bot roles in Discord."])
      else if (status_code resp =? 404)%Z then
        draw (StError [Lit "Channel not found. It may have been deleted — try reloading."])
      else
        draw (StError [Lit "Discord API error ("; Fmt (VInt (status_code resp));
                       Lit "): "; Fmt (VStr (text resp))]))
      (λ exc, if is_request_exception exc
              then Some (draw (StError [Lit "Network error: "; FmtExc exc]))
              else None).

(** ** OAuth2 helpers *)

Definition generate_auth_url (client_id redirect_uri scope : string)
    (permissions : option Z) : string :=
  let params :=
    [("client_id", client_id); ("redirect_uri", redirect_uri);
     ("response_type", "code"); ("scope", scope)] ++
    match permissions with
    | Some p => [("permissions", str_of_int p)]
    | None => []
    end in
  "https://discord.com/oauth2/authorize?" +:+ urlencode params.

Definition exchange_code_for_token (E : env)
    (code client_id client_secret redirect_uri : string) : M value :=
  resp ← http E {|
    req_method := "POST";
    req_url := DISCORD_OAUTH2_TOKEN_URL;
    req_headers :=
      [("Content-Type", [Lit "application/x-www-form-urlencoded"])];
    req_body := FormBody
      [("grant_type", "authorization_code"); ("code", code);
       ("redirect_uri", redirect_uri); ("client_id", client_id);
       ("client_secret", client_secret)];
    req_timeout := 10 |};
  _ ← lift (raise_for_status resp);
  lift (resp_json resp).

Definition get_oauth_user (E : env) (access_token : value) : M value :=
  resp ← http E {|
    req_method := "GET";
    req_url := DISCORD_API +:+ "/users/@me";
    req_headers := [("Authorization", [Lit "Bearer "; Fmt access_token])];
    req_body := NoBody;
    req_timeout := 10 |};
  _ ← lift (raise_for_status resp);
  lift (resp_json resp).

(** ** The settings: upsert and migration *)

(** The [for i, u in enumerate(users)] loop of [add_authorized_user]: the
    index of the first record whose id equals the new record's, counting
    from [i]. *)
Fixpoint find_user (users : list value) (user_record : dict) (i : nat)
  : outcome (option nat) :=
  match users with
  | [] => Ok None
  | u :: rest =>
      uid ← getitem u "id";
      rid ← dict_getitem user_record "id";
      if py_eq uid rid then Ok (Some i)
      else find_user rest user_record (S i)
  end.

(** A value that is not a list has no index assignment and no [append]
    that would work here: iterating it gives strings (or fails), on which
    [u["id"]] is a [TypeError]; with nothing to iterate, [append] is
    missing. *)
Definition add_authorized_user (config : dict) (user_record : dict)
  : outcome dict :=
  match dict_get config "authorized_users" (VList []) with
  | VList users =>
      found ← find_user users user_record 0;
      match found with
      | Some i =>
          Ok (<["authorized_users" := VList (<[i := VDict user_record]> users)]>
                config)
      | None =>
          Ok (<["authorized_users" := VList (users ++ [VDict user_record])]>
                config)
      end
  | VStr s => if String.eqb s "" then Raise AttributeError else Raise TypeError
  | VDict d => if bool_decide (d = ∅) then Raise AttributeError
               else Raise TypeError
  | _ => Raise TypeError
  end.

Definition migrate_config (E : env) (config : dict) : M dict :=
  let old_user_id := dict_get config "dm_user_id" VNone in
  if truthy old_user_id &&
     negb (bool_decide (is_Some (config !! "authorized_users")))
  then
    let record : dict :=
      {[ "id" := old_user_id;
         "username" := dict_get config "dm_username" (VStr "");
         "global_name" := dict_get config "dm_username" (VStr "");
         "dm_channel_id" := dict_get config "dm_channel_id" (VStr "");
         "authorized_at" := VStr (utcnow E) ]} in
    let config := <["authorized_users" := VList [VDict record]]> config in
    let config := delete "dm_user_id" config in
    let config := delete "dm_channel_id" config in
    let config := delete "dm_username" config in
    _ ← save_config config;
    mret config
  else mret config.

(** ** The onboarding wizard *)

Definition OAUTH2_AVAILABLE (E : env) : bool :=
  truthy (py_and (VStr (CLIENT_SECRET E)) (VStr (REDIRECT_URI E))).

(** The link offered to connect an account: with a server already
    linked only the identity is asked for, otherwise the bot is installed
    as well. *)
Definition connect_link (E : env) (config : dict) (primary wide : bool)
  : widget :=
  let has_guild := truthy (dict_get config "guild_id" VNone) in
  if has_guild then
    StLinkButton "Connect with Discord"
      (generate_auth_url (CLIENT_ID E) (REDIRECT_URI E) "identify" None)
      primary wide
  else
    StLinkButton "Add Bot & Connect"
      (generate_auth_url (CLIENT_ID E) (REDIRECT_URI E) "bot identify"
         (Some 68608%Z))
      primary wide.

(** [_onboarding_dm] and [_onboarding_channel], the views of the steps
    [dm] and [channel], are arguments of [show_onboarding]: what is proved
    of it holds whatever these two views do. *)
Definition show_onboarding (E : env)
    (_onboarding_dm _onboarding_channel : dict → M unit)
    (config : dict) : M unit :=
  let authorized_users := dict_get config "authorized_users" (VList []) in
  let channel_configured := truthy (dict_get config "channel_id" VNone) in
  if truthy authorized_users || channel_configured then
    _ ← draw (StTitle [Lit "Gopf Intel"]);
    _ ← (if truthy authorized_users then
           users ← lift (iter authorized_users);
           names ← lift (mapM (λ u, display_name u "?") users);
           joined ← lift (str_join ", " names);
           draw (StSuccess [Lit "Connected: **"; Fmt (VStr joined); Lit "**"])
         else mret tt);
    _ ← (if channel_configured then
           draw (StSuccess [Lit "Channel: **#";
                            Fmt (dict_get config "channel_name" (VStr "?"));
                            Lit "**"])
         else mret tt);
    _ ← draw (StMarkdown [Lit "[Open Admin Dashboard](?admin)"]);
    _ ← (if OAUTH2_AVAILABLE E then
           _ ← draw StDivider;
           _ ← draw (StCaption [Lit "Connect another account:"]);
           draw (connect_link E config false false)
         else mret tt);
    _ ← draw StDivider;
    draw (StCaption [Lit "[Admin Dashboard](?admin)"])
  else
    _ ← (λ w,
           if bool_decide (is_Some (session_state w !! "onboarding_step"))
           then (Ok tt, w) else set_step "choose" w);
    step ← (λ w, (getitem (VDict (session_state w)) "onboarding_step", w));
    _ ← draw (StTitle [Lit "Gopf Intel"]);
    _ ← (if py_eq step (VStr "choose") then
           _ ← draw (StSubheader [Lit "Trading Signals on Discord"]);
           _ ← draw (StWrite [Lit "How would you like to receive your signals?"]);
           _ ← within (StColumn 0) (
                 _ ← draw (StMarkdown [Lit "**Direct Message** (Recommended)"]);
                 _ ← draw (StCaption [Lit "Private, personalized to you."]);
                 clicked ← st_button E "Direct Message" "Direct Message" true true;
                 if clicked : bool then
                   _ ← set_step "dm"; st_rerun
                 else mret tt);
           within (StColumn 1) (
             _ ← draw (StMarkdown [Lit "**Channel**"]);
             _ ← draw (StCaption [Lit "Shared with everyone in the channel."]);
             clicked ← st_button E "Channel" "Channel" false true;
             if clicked : bool then
               _ ← set_step "channel"; st_rerun
             else mret tt)
         else if py_eq step (VStr "dm") then _onboarding_dm config
         else if py_eq step (VStr "channel") then _onboarding_channel config
         else mret tt);
    _ ← draw StDivider;
    draw (StCaption [Lit "[Admin Dashboard](?admin)"]).

(** ** The OAuth2 callback handler *)

Definition clear_query_params : M unit := λ w, (Ok tt, set_query_params ∅ w).

Definition newline : string := String "010" "".

(** The [try] block of the handler. *)
Definition oauth_callback_try (E : env) (config : dict)
    (oauth_code oauth_guild_id : string) : M unit :=
  token_data ← exchange_code_for_token E oauth_code
                  (CLIENT_ID E) (CLIENT_SECRET E) (REDIRECT_URI E);
  access_token ← lift (getitem token_data "access_token");
  user_data ← get_oauth_user E access_token;
  user_id ← lift (getitem user_data "id");
  dm_channel ← open_dm_channel E (BOT_TOKEN E) user_id;
  user_record ← lift (
    id ← getitem user_data "id";
    username ← get user_data "username" (VStr "");
    global_name ← display_name user_data "";
    dm_channel_id ← getitem dm_channel "id";
    Ok ({[ "id" := id;
           "username" := username;
           "global_name" := global_name;
           "dm_channel_id" := dm_channel_id;
           "authorized_at" := VStr (utcnow E) ]} : dict));
  config ← lift (add_authorized_user config user_record);
  let config :=
    if truthy (VStr oauth_guild_id)
    then <["guild_id" := VStr oauth_guild_id]> config else config in
  _ ← save_config config;
  _ ← clear_query_params;
  _ ← draw (StTitle [Lit "Gopf Intel"]);
  _ ← draw (StSuccess [Lit "Connected: **";
                       Fmt (dict_get user_record "global_name" VNone);
                       Lit "** (";
                       Fmt (dict_get user_record "username" VNone);
                       Lit ")"]);
  _ ← draw (StInfo [Lit ("You're all set! The bot can now send you direct messages."
                         +:+ newline +:+ newline +:+ "You can close this page.")]);
  _ ← draw StDivider;
  _ ← draw (StCaption [Lit "[Admin Dashboard](?admin)"]);
  st_stop.

(** The two [except] clauses, in their order. *)
Definition oauth_callback_except (exc : exn) : option (M unit) :=
  match exc with
  | HTTPError r =>
      Some (_ ← clear_query_params;
            _ ← draw (StError [Lit "OAuth2 error: "; Fmt (VInt (status_code r));
                               Lit " — "; Fmt (VStr (text r))]);
            st_stop)
  | _ =>
      if is_request_exception exc then
        Some (_ ← clear_query_params;
              _ ← draw (StError [Lit "Network error during OAuth2: ";
                                 FmtExc exc]);
              st_stop)
      else None
  end.

Definition oauth_callback (E : env) (config : dict) : M unit := λ w,
  if OAUTH2_AVAILABLE E then
    match query_params w !! "code" with
    | Some oauth_code =>
        let oauth_guild_id := default "" (query_params w !! "guild_id") in
        try_except (oauth_callback_try E config oauth_code oauth_guild_id)
          oauth_callback_except w
    | None => (Ok tt, w)
    end
  else (Ok tt, w).

(** ** The admin page: the list of connected users *)



(** ** The step views of the wizard *)

(** The text of the expander of [_onboarding_dm] (the f-string has no
    field). *)
Definition oauth_setup_instructions : string :=
  "1. Go to the [Discord Developer Portal](https://discord.com/developers/applications)
2. Select your application → **OAuth2** → **General**
3. Click **Reset Secret** → copy the new secret
4. Under **Redirects**, click **Add Redirect** and enter your app URL
   (e.g. `http://localhost:8501`)
5. Add both values to the `.env` file next to `app.py`:
   ```
   DISCORD_CLIENT_SECRET=your_secret_here
   DISCORD_REDIRECT_URI=http://localhost:8501
   ```
6. Restart the Streamlit app

The redirect URI must match **exactly** — including trailing slashes and `http` vs `https`.
".

(** [_onboarding_dm]: the view of the step [dm]. *)
Definition _onboarding_dm (E : env) (config : dict) : M unit :=
  _ ← draw (StSubheader [Lit "Step 1 of 2: Connect your Discord account"]);
  _ ← draw (StWrite [Lit "Click the button below to authorize. The bot will be able to send you private messages with your personalized signals."]);
  if negb (OAUTH2_AVAILABLE E) then
    _ ← draw (StError [Lit "OAuth2 is not configured — DM connections require it."]);
    _ ← within (StExpander [Lit "Setup instructions for administrators"])
          (draw (StMarkdown [Lit oauth_setup_instructions]));
    clicked ← st_button E "← Back" "← Back" false false;
    if clicked : bool then _ ← set_step "choose"; st_rerun else mret tt
  else
    let has_guild := truthy (dict_get config "guild_id" VNone) in
    _ ← (if has_guild then draw (connect_link E config true true)
         else
           _ ← draw (connect_link E config true true);
           draw (StCaption [Lit "This will also add the bot to your server."]));
    clicked ← st_button E "← Back" "← Back" false false;
    if clicked : bool then _ ← set_step "choose"; st_rerun else mret tt.

(** ** The admin page: loading the channels, the message feeds *)

(** [st.session_state.<cache> = channels]. *)
Definition set_cache (cache : string) (channels : list value) : M unit := λ w,
  (Ok tt, set_session_state (<[cache := VList channels]> (session_state w)) w).

(** The body of [if st.button("Load Channels", ...)]: the channels fetched
    go to the session state under [cache]; a failure of the call empties
    the cache.  The two places of the script that load channels differ in
    the session key and in two notices. *)
Definition load_channels (E : env) (cache : string) (guild_id : string)
    (no_access not_found : string) : M unit :=
  try_except (
    channels ← get_guild_channels E (BOT_TOKEN E) guild_id;
    _ ← set_cache cache channels;
    if negb (truthy (VList channels)) then
      draw (StWarning [Lit "No text channels found. Is the bot in this server?"])
    else mret tt)
    (λ exc,
       match exc with
       | HTTPError r =>
           Some (_ ← set_cache cache [];
                 let status := status_code r in
                 if (status =? 403)%Z then draw (StError [Lit no_access])
                 else if (status =? 404)%Z then draw (StError [Lit not_found])
                 else draw (StError [Lit "Discord API error ("; Fmt (VInt status);
                                     Lit "): "; Fmt (VStr (text r))]))
       | _ =>
           if is_request_exception exc then
             Some (_ ← set_cache cache [];
                   draw (StError [Lit "Network error: "; FmtExc exc]))
           else None
       end).

(** In the wizard (step [channel]) and in the admin page. *)
Definition load_channels_onboarding (E : env) (guild_id : string) : M unit :=
  load_channels E "onboarding_channels" guild_id
    "Bot doesn't have access to this server. Add it using the button above."
    "Server not found. Check the Server ID.".

Definition load_channels_admin (E : env) (guild_id : string) : M unit :=
  load_channels E "channels" guild_id
    "Bot doesn't have access to this server."
    "Server not found.".

(** One run of a message feed ([_dm_message_feed], [_ch_message_feed]):
    the two differ in the notice for status 403.  That Streamlit runs the
    fragment again every two seconds is not modelled. *)
Definition message_feed (E : env) (channel_id bot_id : string)
    (forbidden_notice : string) : M unit :=
  try_except (
    msgs ← get_messages E (BOT_TOKEN E) channel_id 25;
    display_messages E msgs bot_id)
    (λ exc,
       match exc with
       | HTTPError r =>
           let status := status_code r in
           Some (if (status =? 403)%Z then draw (StError [Lit forbidden_notice])
                 else draw (StError [Lit "Discord API error ("; Fmt (VInt status);
                                     Lit "): "; Fmt (VStr (text r))]))
       | _ =>
           if is_request_exception exc then
             Some (draw (StError [Lit "Network error: "; FmtExc exc]))
           else None
       end).

Definition _dm_message_feed (E : env) (dm_channel_id bot_id : string) : M unit :=
  message_feed E dm_channel_id bot_id
    "Bot lacks permission to read this DM channel.".

Definition _ch_message_feed (E : env) (_ch_channel_id bot_id : string) : M unit :=
  message_feed E _ch_channel_id bot_id
    "Bot lacks permission to read message history.".

(** ** The script from its start to the choice of the page *)

Definition env_setup_instructions : string :=
  "1. Go to https://discord.com/developers/applications
2. Click **New Application** → name it **Gopf Intel**
3. Go to **Bot** tab → click **Reset Token** → copy the token
4. Go to **OAuth2** tab → copy the **Application ID** (Client ID)
5. Create a `.env` file next to `app.py`:
   ```
   DISCORD_BOT_TOKEN=your_token_here
   DISCORD_CLIENT_ID=your_client_id_here
   ```
6. Restart the app
".

(** The check of the settings and of the bot token: returns [bot_info]
    and [BOT_ID], or ends the run. *)
Definition verify_bot_token (E : env) : M (value * value) :=
  _ ← (if negb (truthy (VStr (BOT_TOKEN E))) || negb (truthy (VStr (CLIENT_ID E)))
       then
         _ ← draw (StError [Lit "Missing `DISCORD_BOT_TOKEN` or `DISCORD_CLIENT_ID` in `.env` file."]);
         _ ← within (StExpander [Lit "Setup instructions"])
               (draw (StMarkdown [Lit env_setup_instructions]));
         st_stop
       else mret tt);
  me_resp ← try_except (discord_request E "GET" "/users/@me" (BOT_TOKEN E) NoBody)
    (λ exc,
       if is_request_exception exc then
         Some (_ ← draw (StError [Lit "Could not connect to Discord API: ";
                                  FmtExc exc]);
               st_stop)
       else None);
  _ ← (if (status_code me_resp =? 401)%Z then
         _ ← draw (StError [Lit "Invalid bot token. Please check `DISCORD_BOT_TOKEN` in your `.env` file."]);
         st_stop
       else if negb (status_code me_resp =? 200)%Z then
         _ ← draw (StError [Lit "Discord API error (";
                            Fmt (VInt (status_code me_resp)); Lit "): ";
                            Fmt (VStr (text me_resp))]);
         st_stop
       else mret tt);
  bot_info ← lift (resp_json me_resp);
  BOT_ID ← lift (getitem bot_info "id");
  mret (bot_info, BOT_ID).

(** The script down to the choice between the onboarding page and the
    admin page.  The view of the step [channel] and the admin page (which
    gets the configuration and [BOT_ID]) are arguments. *)
Definition script (E : env) (_onboarding_channel : dict → M unit)
    (admin_page : dict → value → M unit) : M unit :=
  bot ← verify_bot_token E;
  config ← load_config;
  config ← migrate_config E config;
  _ ← oauth_callback E config;
  is_admin ← (λ w, (Ok (bool_decide (is_Some (query_params w !! "admin"))), w));
  if negb is_admin then
    _ ← show_onboarding E (_onboarding_dm E) _onboarding_channel config;
    st_stop
  else admin_page config bot.2.
(** ** A sample environment, for the concrete runs below *)

(** The remote side answers by [answer]; the parser knows one time stamp;
    the host's zone is UTC. *)
Definition sample_env (answer : request → net_result) : env :=
  {| remote := λ _ req, answer req;
     utcnow := "2024-05-01T12:00:00+00:00";
     pressed := None;
     fromisoformat := λ s,
       if String.eqb s "2024-01-01T00:00:00+00:00"
       then Ok (Datetime 2024 1 1 0 0 0 (Some 0%Z)) else Raise ValueError;
     astimezone := λ t, Ok t;
     BOT_TOKEN := "bot-token";
     CLIENT_ID := "1234";
     CLIENT_SECRET := "secret";
     REDIRECT_URI := "http://localhost:8501" |}.

Definition offline : env := sample_env (λ _, NetFail "connection refused").

Definition empty_world : world := World None ∅ ∅ [] [].

(** ** Vocabulary of the statements and sample data *)

(** The settings file of the counterexample: the legacy fields are
    there, the user id is the empty string. *)
Definition legacy_blank_id : dict :=
  {[ "dm_user_id" := VStr "";
     "dm_channel_id" := VStr "42";
     "dm_username" := VStr "alice" ]}.

Definition legacy_config : dict :=
  {[ "dm_user_id" := VStr "77";
     "dm_channel_id" := VStr "42";
     "dm_username" := VStr "alice" ]}.

(** The [id] of a record, when it has one. *)
Definition record_id (u : value) : option value :=
  match u with
  | VDict d => d !! "id"
  | _ => None
  end.

(** At most one record per id: two places of the list whose ids are
    equal (by [==]) are the same place. *)
Definition unique_ids (users : list value) : Prop :=
  ∀ i j u v x y,
    users !! i = Some u → users !! j = Some v →
    record_id u = Some x → record_id v = Some y →
    py_eq x y = true → i = j.

(** Whether a record's id equals [new_id]. *)
Definition has_id (new_id : value) (u : value) : bool :=
  match record_id u with
  | Some x => py_eq x new_id
  | None => false
  end.

Definition alice : dict := {[ "id" := VStr "1"; "username" := VStr "alice" ]}.
Definition bob : dict := {[ "id" := VStr "2"; "username" := VStr "bob" ]}.
Definition alice' : dict :=
  {[ "id" := VStr "1"; "username" := VStr "alice"; "dm_channel_id" := VStr "9" ]}.
Definition two_users : dict :=
  {[ "authorized_users" := VList [VDict alice; VDict bob];
     "guild_id" := VStr "5" ]}.


(** Keyed items, as [sorted] holds them: a key that is a number, the
    number it stands for, and the order on these numbers. *)
Definition numeric {A} (kx : value * A) : Prop := is_Some (as_num kx.1).
Definition zkey {A} (kx : value * A) : Z := default 0%Z (as_num kx.1).
Definition key_le {A} (kx ky : value * A) : Prop := (zkey kx ≤ zkey ky)%Z.

(** A channel entry that has a [type]. *)
Definition has_type (ch : value) : Prop :=
  match ch with
  | VDict d => is_Some (d !! "type")
  | _ => False
  end.

(** Whether a channel entry has [type] equal to 0. *)
Definition is_text_channel (ch : value) : bool :=
  match ch with
  | VDict d =>
      match d !! "type" with
      | Some t => py_eq t (VInt 0)
      | None => false
      end
  | _ => false
  end.

(** The [position] of a channel entry, if it has one, is a number. *)
Definition position_is_number (ch : value) : Prop :=
  match ch with
  | VDict d => ∀ p, d !! "position" = Some p → is_Some (as_num p)
  | _ => True
  end.

Definition lacks_position (ch : value) : Prop :=
  match ch with
  | VDict d => d !! "position" = None
  | _ => False
  end.

(** The [position] of a channel entry as a number. *)
Definition position_of (ch : value) : option Z :=
  match ch with
  | VDict d => d !! "position" ≫= as_num
  | _ => None
  end.

(** The number a channel entry is sorted on: its [position], 0 when it
    has none. *)
Definition position_key (ch : value) : Z := default 0%Z (position_of ch).

(** The request [get_guild_channels] makes. *)
Definition channels_call (token guild_id : string) : request :=
  discord_call "GET" ("/guilds/" +:+ guild_id +:+ "/channels") token NoBody.

(** The world after one more request. *)
Definition logged (req : request) (w : world) : world :=
  set_net_log (net_log w ++ [req]) w.

(** A server's channel list: two text channels with positions 2 and 0,
    a voice channel, and a text channel that has no position. *)
Definition ch_general : value :=
  VDict {[ "id" := VStr "10"; "name" := VStr "general"; "type" := VInt 0;
           "position" := VInt 2 ]}.
Definition ch_voice : value :=
  VDict {[ "id" := VStr "11"; "name" := VStr "voice"; "type" := VInt 2;
           "position" := VInt 1 ]}.
Definition ch_unplaced : value :=
  VDict {[ "id" := VStr "12"; "name" := VStr "unplaced"; "type" := VInt 0 ]}.
Definition ch_rules : value :=
  VDict {[ "id" := VStr "13"; "name" := VStr "rules"; "type" := VInt 0;
           "position" := VInt 0 ]}.
Definition sample_channels : list value :=
  [ch_general; ch_voice; ch_unplaced; ch_rules].

Definition channels_response : response :=
  {| status_code := 200; text := "[...]";
     json_body := Some (VList sample_channels) |}.

Definition serving_channels : env :=
  sample_env (λ _, Answer channels_response).

(** A string made of whitespace characters only (the empty string
    included). *)
Inductive all_whitespace : string → Prop :=
| all_whitespace_nil : all_whitespace ""
| all_whitespace_cons e s :
    e ∈ whitespace → all_whitespace s → all_whitespace (e +:+ s).

(** The request [send_message] makes. *)
Definition send_call (token channel_id content : string) : request :=
  discord_call "POST" ("/channels/" +:+ channel_id +:+ "/messages") token
    (JsonBody (VDict {["content" := VStr content]})).

(** The world after one more widget. *)
Definition drawn (x : widget) (w : world) : world :=
  set_page (page w ++ [x]) w.

Definition quote : string := String "034" "".

(** Two answers with status 429: one whose body is the JSON object
    with [retry_after] 3, one whose body is a page of HTML. *)
Definition rate_limited : response :=
  {| status_code := 429;
     text := "{" +:+ quote +:+ "retry_after" +:+ quote +:+ ": 3}";
     json_body := Some (VDict {[ "retry_after" := VInt 3 ]}) |}.

Definition rate_limited_html : response :=
  {| status_code := 429;
     text := "<html><body>Too many requests</body></html>";
     json_body := None |}.

(** The requests of [open_dm_channel], [get_messages],
    [exchange_code_for_token] and [get_oauth_user]. *)
Definition dm_call (token : string) (user_id : value) : request :=
  discord_call "POST" "/users/@me/channels" token
    (JsonBody (VDict {["recipient_id" := user_id]})).

Definition messages_call (token channel_id : string) (limit : Z) : request :=
  discord_call "GET"
    ("/channels/" +:+ channel_id +:+ "/messages?limit=" +:+ str_of_int limit)
    token NoBody.

Definition token_call (code client_id client_secret redirect_uri : string)
  : request :=
  {| req_method := "POST";
     req_url := DISCORD_OAUTH2_TOKEN_URL;
     req_headers :=
       [("Content-Type", [Lit "application/x-www-form-urlencoded"])];
     req_body := FormBody
       [("grant_type", "authorization_code"); ("code", code);
        ("redirect_uri", redirect_uri); ("client_id", client_id);
        ("client_secret", client_secret)];
     req_timeout := 10 |}.

Definition identity_call (access_token : value) : request :=
  {| req_method := "GET";
     req_url := DISCORD_API +:+ "/users/@me";
     req_headers := [("Authorization", [Lit "Bearer "; Fmt access_token])];
     req_body := NoBody;
     req_timeout := 10 |}.

(** An answer with status 300 and an empty JSON list for body, and one
    with status 403. *)
Definition multiple_choices : response :=
  {| status_code := 300; text := "[]"; json_body := Some (VList []) |}.

Definition forbidden : response :=
  {| status_code := 403; text := "Missing Access"; json_body := None |}.

(** What the handler of the callback draws for an exception it catches. *)
Definition oauth_error_notice (exc : exn) : ftext :=
  match exc with
  | HTTPError r =>
      [Lit "OAuth2 error: "; Fmt (VInt (status_code r)); Lit " — ";
       Fmt (VStr (text r))]
  | _ => [Lit "Network error during OAuth2: "; FmtExc exc]
  end.

(** A remote side that exchanges the code and names the user, but
    refuses to open the DM channel. *)
Definition token_granted : response :=
  {| status_code := 200; text := "{...}";
     json_body := Some (VDict {[ "access_token" := VStr "at-1" ]}) |}.

Definition identity_alice : response :=
  {| status_code := 200; text := "{...}";
     json_body := Some (VDict {[ "id" := VStr "1";
                                 "username" := VStr "alice" ]}) |}.

Definition dm_refused : env :=
  sample_env (λ req,
    if String.eqb (req_url req) DISCORD_OAUTH2_TOKEN_URL
    then Answer token_granted
    else if String.eqb (req_method req) "GET" then Answer identity_alice
    else Answer forbidden).

(** A visitor coming back from Discord with a code, on a host whose
    settings file already lists two users. *)
Definition returning_visitor : world :=
  {| config_file := Some two_users;
     query_params := {[ "code" := "abc"; "guild_id" := "5" ]};
     session_state := ∅;
     page := [];
     net_log := [] |}.

(** A message as the feed takes it: an object whose [author], if it has
    one, is an object, and whose time stamp the [try] block copes with
    (the parser and the zone conversion raise nothing but what the block
    catches). *)
Definition message_ok (E : env) (msg : value) : Prop :=
  ∃ d : dict,
    msg = VDict d
    ∧ (∃ a : dict, dict_get d "author" (VDict ∅) = VDict a)
    ∧ ∃ shown, local_time E (dict_get d "timestamp" (VStr "")) "" = Ok shown.

(** [line] is the transcript line of [msg]: tagged "assistant" exactly
    when the author's id equals the bot's, "user" otherwise; the time
    shown is the local time in the format of [strftime_ymd_hm] when the
    time stamp parses, and the empty string when it does not. *)
Definition renders_as (E : env) (bot_id : string) (msg : value)
    (line : widget) : Prop :=
  ∃ (d a : dict) (role : string) (name : value) (shown : string),
    msg = VDict d
    ∧ dict_get d "author" (VDict ∅) = VDict a
    ∧ line = StChatMessage role
               [StCaption [Lit "**"; Fmt name; Lit "** · "; Fmt (VStr shown)];
                StMarkdown [Fmt (dict_get d "content" (VStr ""))]]
    ∧ (py_eq (dict_get a "id" VNone) (VStr bot_id) = true → role = "assistant")
    ∧ (py_eq (dict_get a "id" VNone) (VStr bot_id) = false → role = "user")
    ∧ display_name (VDict a) "Unknown" = Ok name
    ∧ (∀ s parsed here,
         dict_get d "timestamp" (VStr "") = VStr s →
         fromisoformat E s = Ok parsed → astimezone E parsed = Ok here →
         shown = strftime_ymd_hm here)
    ∧ ((∀ s parsed, dict_get d "timestamp" (VStr "") = VStr s →
                    fromisoformat E s ≠ Ok parsed) →
       shown = "").


Definition is_digit (c : ascii) : bool :=
  let n := nat_of_ascii c in (48 <=? n) && (n <=? 57).

(** Reading a time written as [YYYY-MM-DD HH:MM]: sixteen characters,
    the separators at their places, decimal digits everywhere else; the
    result is the five numbers written. *)
Definition digit_value (c : ascii) : option Z :=
  if is_digit c then Some (Z.of_nat (nat_of_ascii c) - 48)%Z else None.

Fixpoint read_decimal (s : string) (acc : Z) : option Z :=
  match s with
  | EmptyString => Some acc
  | String c s' =>
      match digit_value c with
      | Some d => read_decimal s' (10 * acc + d)%Z
      | None => None
      end
  end.

Definition separator_at (s : string) (i : nat) (c : ascii) : bool :=
  match String.get i s with
  | Some x => Ascii.eqb x c
  | None => false
  end.

Definition read_ymd_hm (s : string) : option (Z * Z * Z * Z * Z) :=
  if (String.length s =? 16) && separator_at s 4 "-" && separator_at s 7 "-"
     && separator_at s 10 " " && separator_at s 13 ":"
  then
    match read_decimal (substring 0 4 s) 0, read_decimal (substring 5 2 s) 0,
          read_decimal (substring 8 2 s) 0, read_decimal (substring 11 2 s) 0,
          read_decimal (substring 14 2 s) 0 with
    | Some y, Some m, Some d, Some h, Some mi => Some (y, m, d, h, mi)
    | _, _, _, _, _ => None
    end
  else None.







(** The message of the example: written by the bot at the start of
    2024. *)
Definition hi_from_bot : value :=
  VDict {[ "id" := VStr "1";
           "author" := VDict {[ "id" := VStr "BOT" ]};
           "content" := VStr "hi";
           "timestamp" := VStr "2024-01-01T00:00:00+00:00" ]}.

(** A message of a user, with a time stamp that does not parse. *)
Definition hello_from_carol : value :=
  VDict {[ "id" := VStr "2";
           "author" := VDict {[ "id" := VStr "7"; "username" := VStr "carol";
                                "global_name" := VStr "" ]};
           "content" := VStr "hello";
           "timestamp" := VStr "yesterday" ]}.

(** A user record as the views take it: an object whose [global_name]
    is a string, null or missing and whose [username] is a string or
    missing. *)
Definition user_ok (u : value) : Prop :=
  ∃ d : dict,
    u = VDict d
    ∧ match d !! "global_name" with
      | None | Some VNone | Some (VStr _) => True
      | _ => False
      end
    ∧ match d !! "username" with
      | None | Some (VStr _) => True
      | _ => False
      end.

(** The status summary, as drawn for a configuration: [connected] is the
    line of names, when there are users. *)
Definition status_view (E : env) (config : dict) (connected : option string)
  : list widget :=
  [StTitle [Lit "Gopf Intel"]] ++
  match connected with
  | Some names => [StSuccess [Lit "Connected: **"; Fmt (VStr names); Lit "**"]]
  | None => []
  end ++
  (if truthy (dict_get config "channel_id" VNone)
   then [StSuccess [Lit "Channel: **#";
                    Fmt (dict_get config "channel_name" (VStr "?"));
                    Lit "**"]]
   else []) ++
  [StMarkdown [Lit "[Open Admin Dashboard](?admin)"]] ++
  (if OAUTH2_AVAILABLE E
   then [StDivider; StCaption [Lit "Connect another account:"];
         connect_link E config false false]
   else []) ++
  [StDivider; StCaption [Lit "[Admin Dashboard](?admin)"]].

(** The first view of the wizard, the choice between the two ways of
    delivery. *)
Definition choose_view : list widget :=
  [StTitle [Lit "Gopf Intel"];
   StSubheader [Lit "Trading Signals on Discord"];
   StWrite [Lit "How would you like to receive your signals?"];
   StColumn 0
     [StMarkdown [Lit "**Direct Message** (Recommended)"];
      StCaption [Lit "Private, personalized to you."];
      StButton "Direct Message" true true];
   StColumn 1
     [StMarkdown [Lit "**Channel**"];
      StCaption [Lit "Shared with everyone in the channel."];
      StButton "Channel" false true];
   StDivider;
   StCaption [Lit "[Admin Dashboard](?admin)"]].

(** The widgets only the wizard draws. *)
Definition wizard_widget (x : widget) : bool :=
  match x with
  | StSubheader _ | StWrite _ | StColumn _ _ | StButton _ _ _ => true
  | _ => false
  end.

(** A configuration with one authorized user, and one with a channel
    only. *)
Definition one_user : dict :=
  {[ "authorized_users" := VList [VDict alice] ]}.
Definition channel_only : dict :=
  {[ "channel_id" := VStr "10"; "channel_name" := VStr "general" ]}.







(** Records with an empty, a null and no [global_name]. *)
Definition carol : dict :=
  {[ "id" := VStr "7"; "username" := VStr "carol"; "global_name" := VStr "" ]}.
Definition dave : dict :=
  {[ "id" := VStr "8"; "username" := VStr "dave"; "global_name" := VNone ]}.
Definition nameless : dict := {[ "id" := VStr "9" ]}.

Definition three_users : dict :=
  {[ "authorized_users" := VList [VDict carol; VDict dave; VDict nameless] ]}.

(** A feed of three messages, newest first: by an author with no name at
    all, by one with a null [global_name], by one with an empty one. *)
Definition message_by (author : dict) (content : string) : value :=
  VDict {[ "author" := VDict author; "content" := VStr content;
           "timestamp" := VStr "yesterday" ]}.

Definition three_messages : list value :=
  [message_by nameless "third"; message_by dave "second";
   message_by carol "first"].




(** A computation that leaves the settings file and the page as they
    are, whatever it returns or raises; and one that does so at least
    when it raises an exception the callback handler catches. *)
Definition untouched {A} (m : M A) : Prop :=
  ∀ w r w', m w = (r, w') →
            config_file w' = config_file w ∧ page w' = page w.

Definition careful {A} (m : M A) : Prop :=
  ∀ w e w', m w = (Raise e, w') → is_request_exception e = true →
            config_file w' = config_file w ∧ page w' = page w.

(** ** Vocabulary of the further properties *)

(** The four keys [migrate_config] may touch. *)
Definition migration_key (k : string) : Prop :=
  k = "authorized_users" ∨ k = "dm_user_id" ∨ k = "dm_channel_id"
  ∨ k = "dm_username".

(** No record of [users] before place [k] has an id equal to [new_id]. *)
Definition no_match_before (new_id : value) (users : list value) (k : nat)
  : Prop :=
  ∀ j v y, j < k → users !! j = Some v → record_id v = Some y →
           py_eq y new_id = false.

(** A list with the id "1" twice. *)
Definition alice_twice : dict :=
  {[ "authorized_users" := VList [VDict bob; VDict alice; VDict alice] ]}.

(** A record without an [id]; a stored list with such an entry, and a
    stored null. *)
Definition eve : dict := {[ "username" := VStr "eve" ]}.
Definition list_with_eve : dict :=
  {[ "authorized_users" := VList [VDict bob; VDict eve] ]}.
Definition null_users : dict := {[ "authorized_users" := VNone ]}.

(** The request that checks the bot token. *)
Definition me_call (token : string) : request :=
  discord_call "GET" "/users/@me" token NoBody.

(** A computation that does nothing but draw: the world it ends in is
    the world it started in with widgets added to the page. *)
Definition draws_only {A} (m : M A) : Prop :=
  ∀ w r w', m w = (r, w') → ∃ lines, w' = set_page (page w ++ lines) w.

(** A message the feed cannot draw: not an object, or an object whose
    [author] is there but is not an object. *)
Definition undrawable (msg : value) : Prop :=
  match msg with
  | VDict d => ∀ a : dict, dict_get d "author" (VDict ∅) ≠ VDict a
  | _ => True
  end.

(** A message whose author is null. *)
Definition orphan_message : value :=
  VDict {[ "id" := VStr "3"; "author" := VNone; "content" := VStr "?" ]}.

(** An answer with status 429 and a JSON list for body. *)
Definition rate_limited_list : response :=
  {| status_code := 429; text := "[]"; json_body := Some (VList []) |}.

(** A channel list with an entry that has no [type]. *)
Definition untyped_channels : response :=
  {| status_code := 200; text := "[...]";
     json_body := Some (VList [ch_general;
                               VDict {[ "id" := VStr "14" ]};
                               ch_rules]) |}.

(** How many times the character [c] stands in [s]. *)
Fixpoint occurrences (c : ascii) (s : string) : nat :=
  match s with
  | EmptyString => 0
  | String x s' => (if Ascii.eqb x c then 1 else 0) + occurrences c s'
  end.

(** The callback handler runs: OAuth2 is set up and the address carries
    a [code]. *)
Definition triggered (E : env) (w : world) : Prop :=
  OAUTH2_AVAILABLE E = true ∧ is_Some (query_params w !! "code").

(** Between [w] and [w'] requests were made and nothing else happened. *)
Definition only_requests (w w' : world) : Prop :=
  ∃ reqs, w' = set_net_log (net_log w ++ reqs) w.

(** The exceptions of the language itself, which no [except] clause of
    the script names. *)
Definition plain_error (e : exn) : Prop :=
  e = TypeError ∨ e = AttributeError ∨ ∃ k, e = KeyError k.

(** A computation that only makes requests, and raises nothing but plain
    errors and request exceptions. *)
Definition quiet {A} (m : M A) : Prop :=
  ∀ w r w', m w = (r, w') →
    only_requests w w'
    ∧ ∀ e, r = Raise e → plain_error e ∨ is_request_exception e = true.

(** A computation that ends the run with [st.stop()] and the query
    parameters cleared, or fails having only made requests. *)
Definition stops_or_fails (m : M unit) : Prop :=
  ∀ w r w', m w = (r, w') →
    (r = Raise StopException ∧ query_params w' = ∅)
    ∨ ∃ e, r = Raise e
           ∧ (plain_error e ∨ is_request_exception e = true)
           ∧ only_requests w w'.

(** With the log at [log], the remote side answers [req] with a status
    that [raise_for_status] lets through and the JSON value [body]. *)
Definition answers_json (E : env) (log : list request) (req : request)
    (body : value) : Prop :=
  ∃ resp, remote E log req = Answer resp
          ∧ ¬ (400 ≤ status_code resp < 600)%Z
          ∧ json_body resp = Some body.

(** The record the callback handler makes of the user [user], with id
    [uid], whose DM channel has id [dm_channel_id]. *)
Definition connection_record (E : env) (user : dict) (uid dm_channel_id : value)
  : dict :=
  {[ "id" := uid;
     "username" := dict_get user "username" (VStr "");
     "global_name" := py_or (dict_get user "global_name" VNone)
                        (dict_get user "username" (VStr ""));
     "dm_channel_id" := dm_channel_id;
     "authorized_at" := VStr (utcnow E) ]}.

(** What the handler draws once the account is connected. *)
Definition connected_view (record : dict) : list widget :=
  [StTitle [Lit "Gopf Intel"];
   StSuccess [Lit "Connected: **"; Fmt (dict_get record "global_name" VNone);
              Lit "** ("; Fmt (dict_get record "username" VNone); Lit ")"];
   StInfo [Lit ("You're all set! The bot can now send you direct messages."
                +:+ newline +:+ newline +:+ "You can close this page.")];
   StDivider;
   StCaption [Lit "[Admin Dashboard](?admin)"]].

(** A remote side that exchanges the code, names the user and opens the
    DM channel; and one whose answer to the exchange has no
    [access_token]. *)
Definition dm_opened : response :=
  {| status_code := 200; text := "{...}";
     json_body := Some (VDict {[ "id" := VStr "90" ]}) |}.

Definition all_granted : env :=
  sample_env (λ req,
    if String.eqb (req_url req) DISCORD_OAUTH2_TOKEN_URL
    then Answer token_granted
    else if String.eqb (req_method req) "GET" then Answer identity_alice
    else Answer dm_opened).

Definition token_withheld : response :=
  {| status_code := 200; text := "{...}";
     json_body := Some (VDict {[ "error" := VStr "invalid_grant" ]}) |}.

Definition alice_connected : dict :=
  {[ "id" := VStr "1";
     "username" := VStr "alice";
     "global_name" := VStr "alice";
     "dm_channel_id" := VStr "90";
     "authorized_at" := VStr "2024-05-01T12:00:00+00:00" ]}.

(** The run that the press of the button with key [key] started. *)
Definition pressing (key : string) (E : env) : env :=
  {| remote := remote E;
     utcnow := utcnow E;
     pressed := Some key;
     fromisoformat := fromisoformat E;
     astimezone := astimezone E;
     BOT_TOKEN := BOT_TOKEN E;
     CLIENT_ID := CLIENT_ID E;
     CLIENT_SECRET := CLIENT_SECRET E;
     REDIRECT_URI := REDIRECT_URI E |}.

(** The step the wizard is at: the one stored in the session, [choose]
    in a session that has none. *)
Definition current_step (w : world) : value :=
  default (VStr "choose") (session_state w !! "onboarding_step").

(** The world with the step stored in the session. *)
Definition at_step (step : value) (w : world) : world :=
  set_session_state (<["onboarding_step" := step]> (session_state w)) w.

(** The frame of every view of the wizard: the title above, the divider
    and the link to the admin page below. *)
Definition wizard_frame (view : M unit) : M unit :=
  _ ← draw (StTitle [Lit "Gopf Intel"]);
  _ ← view;
  _ ← draw StDivider;
  draw (StCaption [Lit "[Admin Dashboard](?admin)"]).

(** A session whose step is [dm]. *)
Definition at_dm : world := at_step (VStr "dm") empty_world.

(** The link buttons among the widgets drawn (at the top level of the
    page). *)
Definition is_link (x : widget) : bool :=
  match x with
  | StLinkButton _ _ _ _ => true
  | _ => false
  end.

(** Settings without the OAuth2 secret. *)
Definition no_oauth (E : env) : env :=
  {| remote := remote E;
     utcnow := utcnow E;
     pressed := pressed E;
     fromisoformat := fromisoformat E;
     astimezone := astimezone E;
     BOT_TOKEN := BOT_TOKEN E;
     CLIENT_ID := CLIENT_ID E;
     CLIENT_SECRET := "";
     REDIRECT_URI := REDIRECT_URI E |}.

(** The notice of a feed or of the channel loader for an error status. *)
Definition api_error_notice (r : response) : widget :=
  StError [Lit "Discord API error ("; Fmt (VInt (status_code r)); Lit "): ";
           Fmt (VStr (text r))].

(** A session that holds channels loaded before. *)
Definition cached_channels : world :=
  set_session_state {[ "channels" := VList [ch_general] ]} empty_world.

(** Settings without a bot token. *)
Definition no_token (E : env) : env :=
  {| remote := remote E;
     utcnow := utcnow E;
     pressed := pressed E;
     fromisoformat := fromisoformat E;
     astimezone := astimezone E;
     BOT_TOKEN := "";
     CLIENT_ID := CLIENT_ID E;
     CLIENT_SECRET := CLIENT_SECRET E;
     REDIRECT_URI := REDIRECT_URI E |}.

(** What the script draws when the bot token or the client id is not
    set. *)
Definition missing_settings_view : list widget :=
  [StError [Lit "Missing `DISCORD_BOT_TOKEN` or `DISCORD_CLIENT_ID` in `.env` file."];
   StExpander [Lit "Setup instructions"]
     [StMarkdown [Lit env_setup_instructions]]].

(** The answer of the remote side to a valid bot token, and to an
    invalid one. *)
Definition bot_identity : response :=
  {| status_code := 200; text := "{...}";
     json_body := Some (VDict {[ "id" := VStr "900";
                                 "username" := VStr "gopf" ]}) |}.

Definition unauthorized : response :=
  {| status_code := 401; text := "401: Unauthorized"; json_body := None |}.

(** A visitor who asks for the admin page while coming back from
    Discord with a code. *)
Definition returning_admin : world :=
  {| config_file := Some two_users;
     query_params := {[ "code" := "abc"; "admin" := "" ]};
     session_state := ∅;
     page := [];
     net_log := [] |}.

(** A computation that leaves the query parameters as they are. *)
Definition keeps_query {A} (m : M A) : Prop :=
  ∀ w r w', m w = (r, w') → query_params w' = query_params w.
(** * Properties *)

(** ** Equality of values *)

Lemma py_eq_refl a : py_eq a a = true.
Proof. unfold py_eq. by apply bool_decide_eq_true. Qed.

Lemma py_eq_sym a b : py_eq a b = py_eq b a.
Proof. unfold py_eq. apply bool_decide_ext. split; congruence. Qed.

Lemma py_eq_trans a b c : py_eq a b = true → py_eq b c = true → py_eq a c = true.
Proof.
  unfold py_eq. rewrite !bool_decide_eq_true. congruence.
Qed.

(** ** Migration of the legacy fields *)

Section migration.
Implicit Types (config : dict) (w : world).

Lemma migrate_config_settled E config w :
  is_Some (config !! "authorized_users") →
  migrate_config E config w = (Ok config, w).
Proof.
  intros Hau. unfold migrate_config.
  rewrite (bool_decide_eq_true_2 _ Hau). by rewrite andb_false_r.
Qed.

Lemma migrate_config_cases E config w :
  migrate_config E config w = (Ok config, w) ∨
  ∃ config', migrate_config E config w
               = (Ok config', set_config_file (Some config') w)
             ∧ is_Some (config' !! "authorized_users").
Proof.
  unfold migrate_config.
  destruct (truthy _ && _); [right | by left].
  eexists. split; [reflexivity |].
  rewrite !lookup_delete_ne by done. rewrite lookup_insert_eq. by eexists.
Qed.
End migration.

(** C1, counterexample: the legacy fields are present and
    [authorized_users] is absent, yet [migrate_config] returns the
    configuration as it was: no list of one record, the legacy fields
    still there, nothing saved. *)
Lemma migrate_config_blank_id_unmigrated :
  (is_Some (legacy_blank_id !! "dm_user_id") ∧
   is_Some (legacy_blank_id !! "dm_channel_id") ∧
   is_Some (legacy_blank_id !! "dm_username") ∧
   legacy_blank_id !! "authorized_users" = None) ∧
  migrate_config offline legacy_blank_id empty_world
    = (Ok legacy_blank_id, empty_world) ∧
  ¬ (∃ record, legacy_blank_id !! "authorized_users"
                 = Some (VList [VDict record])).
Proof.
  split; [|split].
  - repeat split; by vm_compute; eauto.
  - reflexivity.
  - intros [r Hr]. by vm_compute in Hr.
Qed.

(** C1, amended: when [dm_user_id] holds a truthy value and there is no
    [authorized_users] key, [migrate_config] returns (and saves) a
    configuration whose [authorized_users] is a list of exactly one record,
    whose [id] is the legacy [dm_user_id]; the three legacy keys are gone;
    and a second run, at any time and in any world, returns the same
    configuration and leaves the world as it is. *)
Theorem migrate_config_once E (config : dict) w user_id :
  config !! "dm_user_id" = Some user_id →
  truthy user_id = true →
  config !! "authorized_users" = None →
  ∃ (config' record : dict),
    migrate_config E config w = (Ok config', set_config_file (Some config') w)
    ∧ config' !! "authorized_users" = Some (VList [VDict record])
    ∧ record !! "id" = Some user_id
    ∧ config' !! "dm_user_id" = None
    ∧ config' !! "dm_channel_id" = None
    ∧ config' !! "dm_username" = None
    ∧ ∀ E' w', migrate_config E' config' w' = (Ok config', w').
Proof.
  intros Hid Htrue Hau.
  unfold migrate_config at 1. unfold dict_get at 1. rewrite Hid. simpl.
  rewrite Htrue, Hau. simpl.
  eexists _, _. split; [reflexivity |].
  repeat split.
  - rewrite !lookup_delete_ne by done. apply lookup_insert_eq.
  - rewrite lookup_insert_eq. unfold dict_get. by rewrite Hid.
  - rewrite !lookup_delete_ne by done. apply lookup_delete_eq.
  - rewrite lookup_delete_ne by done. apply lookup_delete_eq.
  - apply lookup_delete_eq.
  - intros E' w'. apply migrate_config_settled.
    rewrite !lookup_delete_ne by done. rewrite lookup_insert_eq. by eexists.
Qed.

Lemma migrate_config_once_witness :
  ∃ (config' record : dict),
    migrate_config offline legacy_config empty_world
      = (Ok config', set_config_file (Some config') empty_world)
    ∧ config' !! "authorized_users" = Some (VList [VDict record])
    ∧ record !! "id" = Some (VStr "77")
    ∧ config' !! "dm_user_id" = None
    ∧ config' !! "dm_channel_id" = None
    ∧ config' !! "dm_username" = None
    ∧ ∀ E' w', migrate_config E' config' w' = (Ok config', w').
Proof.
  apply (migrate_config_once offline legacy_config empty_world (VStr "77"));
    by vm_compute.
Defined.

(** ** Upsert of a user record *)

Section upsert.
Variable user_record : dict.
Variable new_id : value.
Hypothesis Hnew : user_record !! "id" = Some new_id.

Lemma getitem_record_id u x :
  record_id u = Some x → getitem u "id" = Ok x.
Proof. destruct u; simpl; try done. by intros ->. Qed.

(** The loop returns the first place whose id equals the new one. *)
Lemma find_user_found users i :
  Forall (λ u, is_Some (record_id u)) users →
  ∀ k u x,
    users !! k = Some u → record_id u = Some x → py_eq x new_id = true →
    (∀ j v y, j < k → users !! j = Some v → record_id v = Some y →
              py_eq y new_id = false) →
    find_user users user_record i = Ok (Some (i + k)).
Proof.
  intros Hall. revert i.
  induction Hall as [|u0 users [x0 Hx0] _ IH]; intros i k u x Hk Hu Hx Hfirst.
  - done.
  - simpl. rewrite (getitem_record_id _ _ Hx0). simpl.
    unfold dict_getitem, getitem. rewrite Hnew. simpl.
    destruct k as [|k]; simpl in Hk.
    + simplify_eq. rewrite Hx. by rewrite Nat.add_0_r.
    + rewrite (Hfirst 0 u0 x0) by (done || lia).
      rewrite (IH (S i) k u x Hk Hu Hx).
      * f_equal. f_equal. lia.
      * intros j v y ? ? ?. apply (Hfirst (S j) v y); (done || lia).
Qed.

Lemma find_user_missing users i :
  Forall (λ u, is_Some (record_id u)) users →
  (∀ u x, u ∈ users → record_id u = Some x → py_eq x new_id = false) →
  find_user users user_record i = Ok None.
Proof.
  intros Hall. revert i.
  induction Hall as [|u0 users [x0 Hx0] _ IH]; intros i Hnone; [done |].
  simpl. rewrite (getitem_record_id _ _ Hx0). simpl.
  unfold dict_getitem, getitem. rewrite Hnew. simpl.
  rewrite (Hnone u0 x0) by (done || by left).
  apply IH. intros u x ?. apply Hnone. by right.
Qed.

End upsert.

Lemma unique_ids_insert users k u x r new_id :
  unique_ids users →
  users !! k = Some u → record_id u = Some x → py_eq x new_id = true →
  r !! "id" = Some new_id →
  unique_ids (<[k := VDict r]> users).
Proof.
  intros Huniq Hk Hu Hx Hr.
  assert (k < length users) as Hlen by (by eapply lookup_lt_Some).
  assert (∀ j v y, <[k := VDict r]> users !! j = Some v →
            record_id v = Some y →
            ∃ v' y', users !! j = Some v' ∧ record_id v' = Some y' ∧
                     py_eq y' y = true) as Hback.
  { intros j v y Hj Hy. destruct (decide (j = k)) as [-> | Hne].
    - rewrite list_lookup_insert_eq in Hj by done. simplify_eq. simpl in Hy.
      rewrite Hr in Hy. simplify_eq. by exists u, x.
    - rewrite list_lookup_insert_ne in Hj by done.
      exists v, y. by rewrite py_eq_refl. }
  intros i j v1 v2 y1 y2 Hi Hj Hy1 Hy2 Heq.
  destruct (Hback i v1 y1 Hi Hy1) as (v1' & y1' & Hi' & Hy1' & He1).
  destruct (Hback j v2 y2 Hj Hy2) as (v2' & y2' & Hj' & Hy2' & He2).
  apply (Huniq i j v1' v2' y1' y2'); try done.
  apply (py_eq_trans _ y1); [done |].
  apply (py_eq_trans _ y2); [done |]. by rewrite py_eq_sym.
Qed.

Lemma unique_ids_app users r new_id :
  unique_ids users →
  (∀ u x, u ∈ users → record_id u = Some x → py_eq x new_id = false) →
  r !! "id" = Some new_id →
  unique_ids (users ++ [VDict r]).
Proof.
  intros Huniq Hfresh Hr i j v1 v2 y1 y2 Hi Hj Hy1 Hy2 Heq.
  apply lookup_app_Some in Hi as [Hi | [? Hi]];
    apply lookup_app_Some in Hj as [Hj | [? Hj]].
  - by apply (Huniq i j v1 v2 y1 y2).
  - apply list_lookup_singleton_Some in Hj as [? <-]. simpl in Hy2.
    rewrite Hr in Hy2. simplify_eq.
    rewrite (Hfresh v1 y1) in Heq; [done | | done].
    apply list_elem_of_lookup. by exists i.
  - apply list_lookup_singleton_Some in Hi as [? <-]. simpl in Hy1.
    rewrite Hr in Hy1. simplify_eq. rewrite py_eq_sym in Heq.
    rewrite (Hfresh v2 y2) in Heq; [done | | done].
    apply list_elem_of_lookup. by exists j.
  - apply list_lookup_singleton_Some in Hi as [? _].
    apply list_lookup_singleton_Some in Hj as [? _]. lia.
Qed.

(** C2: on a configuration whose [authorized_users] (the empty list when
    the key is absent) is a list of records with at most one record per
    id, [add_authorized_user] returns the configuration with the list
    updated: where a record with the new record's id is present, that
    place now holds the new record, the length and every other place are
    as before; where none is, the new record is appended at the end; and
    the updated list again has at most one record per id. *)
Theorem add_authorized_user_upsert (config user_record : dict)
    (users : list value) (new_id : value) :
  dict_get config "authorized_users" (VList []) = VList users →
  Forall (λ u, is_Some (record_id u)) users →
  user_record !! "id" = Some new_id →
  unique_ids users →
  ∃ users',
    add_authorized_user config user_record
      = Ok (<["authorized_users" := VList users']> config)
    ∧ (∀ k u x,
         users !! k = Some u → record_id u = Some x →
         py_eq x new_id = true →
         users' !! k = Some (VDict user_record)
         ∧ length users' = length users
         ∧ ∀ j, j ≠ k → users' !! j = users !! j)
    ∧ ((∀ u x, u ∈ users → record_id u = Some x → py_eq x new_id = false) →
       users' = users ++ [VDict user_record])
    ∧ unique_ids users'.
Proof.
  intros Hcfg Hrec Hnew Huniq. unfold add_authorized_user. rewrite Hcfg.
  destruct (list_find (λ u, has_id new_id u = true) users) as [[k u]|] eqn:Hfind.
  - apply list_find_Some in Hfind as (Hk & Hm & Hfirst).
    unfold has_id in Hm. destruct (record_id u) as [x|] eqn:Hu; [|done].
    assert (k < length users) as Hlen by (by eapply lookup_lt_Some).
    rewrite (find_user_found user_record new_id Hnew users 0 Hrec k u x)
      by (try done; intros j v y Hj Hv Hy;
          specialize (Hfirst j v Hv Hj); unfold has_id in Hfirst;
          rewrite Hy in Hfirst; by destruct (py_eq y new_id)).
    simpl. eexists. split; [reflexivity |]. split; [|split].
    + intros k' u' x' Hk' Hu' Hx'.
      assert (k' = k) as ->.
      { apply (Huniq k' k u' u x' x); try done.
        apply (py_eq_trans _ new_id); [done |]. by rewrite py_eq_sym. }
      split; [by apply list_lookup_insert_eq |].
      split; [by rewrite length_insert |].
      intros j Hj. by apply list_lookup_insert_ne.
    + intros Hfresh. rewrite (Hfresh u x) in Hm; [done | | done].
      apply list_elem_of_lookup. by exists k.
    + by apply (unique_ids_insert users k u x user_record new_id).
  - apply list_find_None in Hfind.
    assert (∀ u x, u ∈ users → record_id u = Some x → py_eq x new_id = false)
      as Hfresh.
    { intros u x Hin Hu. rewrite Forall_forall in Hfind.
      specialize (Hfind u Hin). unfold has_id in Hfind. rewrite Hu in Hfind.
      by destruct (py_eq x new_id). }
    rewrite (find_user_missing user_record new_id Hnew users 0 Hrec Hfresh).
    simpl. eexists. split; [reflexivity |]. split; [|split].
    + intros k u x Hk Hu Hx. rewrite (Hfresh u x) in Hx; [done | | done].
      apply list_elem_of_lookup. by exists k.
    + done.
    + by apply (unique_ids_app users user_record new_id).
Qed.

Lemma add_authorized_user_upsert_witness :
  ∃ users',
    add_authorized_user two_users alice'
      = Ok (<["authorized_users" := VList users']> two_users)
    ∧ (∀ k u x,
         [VDict alice; VDict bob] !! k = Some u → record_id u = Some x →
         py_eq x (VStr "1") = true →
         users' !! k = Some (VDict alice')
         ∧ length users' = length [VDict alice; VDict bob]
         ∧ ∀ j, j ≠ k → users' !! j = [VDict alice; VDict bob] !! j)
    ∧ ((∀ u x, u ∈ [VDict alice; VDict bob] → record_id u = Some x →
               py_eq x (VStr "1") = false) →
       users' = [VDict alice; VDict bob] ++ [VDict alice'])
    ∧ unique_ids users'.
Proof.
  apply (add_authorized_user_upsert two_users alice'
           [VDict alice; VDict bob] (VStr "1")).
  - by vm_compute.
  - repeat constructor; by vm_compute; eauto.
  - by vm_compute.
  - intros i j u v x y Hi Hj Hx Hy Heq.
    destruct i as [|[|i]], j as [|[|j]]; simpl in Hi, Hj; simplify_eq;
      try done; vm_compute in Hx, Hy; simplify_eq; by vm_compute in Heq.
Defined.

(** ** Sorting on numeric keys *)

Section sorting.
Context {A : Type}.
Implicit Types (kx ky : value * A) (l s : list (value * A)).

Lemma py_lt_numbers (a b : value) x y :
  as_num a = Some x → as_num b = Some y → py_lt a b = Ok (x <? y)%Z.
Proof. destruct a, b; simpl; intros; by simplify_eq. Qed.

Lemma insert_keyed_spec kx l :
  numeric kx → Forall numeric l →
  ∃ s, insert_keyed kx l = Ok s
       ∧ s ≡ₚ kx :: l
       ∧ (∀ z, filter (λ p, zkey p = z) s = filter (λ p, zkey p = z) (kx :: l))
       ∧ (StronglySorted key_le l → StronglySorted key_le s).
Proof.
  intros [x Hx] Hl. induction Hl as [|ky l [y Hy] Hl IH].
  - exists [kx]. repeat split; try done. intros _. repeat constructor.
  - simpl. rewrite (py_lt_numbers _ _ y x Hy Hx). simpl.
    destruct (y <? x)%Z eqn:Hlt.
    + apply Z.ltb_lt in Hlt.
      destruct IH as (r & -> & Hperm & Hfilter & Hsorted). simpl.
      exists (ky :: r). split; [done |]. split; [|split].
      * rewrite Hperm. apply Permutation_swap.
      * intros z. rewrite !filter_cons. rewrite Hfilter, filter_cons.
        unfold zkey. rewrite Hx, Hy. simpl.
        repeat case_decide; (done || lia).
      * intros Hs. apply StronglySorted_inv in Hs as [Hs Hall].
        constructor; [by apply Hsorted |].
        rewrite Hperm. constructor; [|done].
        unfold key_le, zkey. rewrite Hx, Hy. simpl. lia.
    + apply Z.ltb_ge in Hlt. exists (kx :: ky :: l). repeat split; try done.
      intros Hs. constructor; [done |].
      pose proof Hs as Hs'. apply StronglySorted_inv in Hs' as [_ Hall].
      constructor.
      * unfold key_le, zkey. rewrite Hx, Hy. simpl. lia.
      * eapply Forall_impl; [exact Hall |]. intros p. unfold key_le, zkey.
        rewrite Hx, Hy. simpl. lia.
Qed.

Lemma sort_keyed_spec l :
  Forall numeric l →
  ∃ s, sort_keyed l = Ok s
       ∧ s ≡ₚ l
       ∧ (∀ z, filter (λ p, zkey p = z) s = filter (λ p, zkey p = z) l)
       ∧ StronglySorted key_le s.
Proof.
  induction 1 as [|kx l Hkx Hl IH].
  - exists []. repeat split; try done. constructor.
  - destruct IH as (s & Hs & Hperm & Hfilter & Hsorted). simpl. rewrite Hs.
    simpl.
    destruct (insert_keyed_spec kx s Hkx) as (s' & -> & Hperm' & Hfilter' & Hsorted').
    { by rewrite Hperm. }
    exists s'. split; [done |]. split; [|split].
    + by rewrite Hperm', Hperm.
    + intros z. rewrite Hfilter', !filter_cons, Hfilter. done.
    + by apply Hsorted'.
Qed.

Lemma filter_fmap_snd (P : A → Prop) `{∀ x, Decision (P x)} l :
  filter P (l.*2) = (filter (λ p, P p.2) l).*2.
Proof.
  induction l as [|p l IH]; [done |].
  rewrite fmap_cons, !filter_cons. simpl. case_decide; simpl; by rewrite IH.
Qed.

(** [sorted] on items whose keys are numbers: the items, permuted,
    ascending on the key, items with equal keys in the order they had. *)
Lemma sorted_numeric (key : A → outcome value) (zk : A → Z) (items : list A) :
  Forall (λ x, ∃ v, key x = Ok v ∧ as_num v = Some (zk x)) items →
  ∃ out, sorted key items = Ok out
         ∧ out ≡ₚ items
         ∧ StronglySorted (λ a b, (zk a ≤ zk b)%Z) out
         ∧ ∀ z, filter (λ x, zk x = z) out = filter (λ x, zk x = z) items.
Proof.
  intros Hkeys. unfold sorted.
  assert (∃ keyed, mapM (λ x, k ← key x; Ok (k, x)) items = Ok keyed
                   ∧ keyed.*2 = items
                   ∧ Forall (λ p, as_num p.1 = Some (zk p.2)) keyed)
    as (keyed & -> & Hitems & Hnum).
  { induction Hkeys as [|x items (v & Hv & Hz) _ (keyed & IH & ? & ?)].
    - by exists [].
    - exists ((v, x) :: keyed). simpl. rewrite Hv. simpl. rewrite IH. simpl.
      repeat split; [by f_equal | by constructor]. }
  simpl.
  destruct (sort_keyed_spec keyed) as (s & -> & Hperm & Hfilter & Hsorted).
  { eapply Forall_impl; [exact Hnum |]. intros p Hp. unfold numeric.
    by rewrite Hp. }
  simpl. exists (s.*2).
  assert (Forall (λ p, as_num p.1 = Some (zk p.2)) s) as Hnum'
    by (by rewrite Hperm).
  assert (∀ p, p ∈ s → zkey p = zk p.2) as Hz.
  { intros p Hp. rewrite Forall_forall in Hnum'. unfold zkey.
    by rewrite (Hnum' p Hp). }
  split; [done |]. split; [|split].
  - by rewrite Hperm, Hitems.
  - clear Hperm Hfilter Hnum'. induction Hsorted as [|p s Hs IH Hall].
    + constructor.
    + rewrite fmap_cons. constructor.
      * apply IH. intros q Hq. apply Hz. by right.
      * apply Forall_fmap. rewrite Forall_forall in Hall |- *.
        intros q Hq. simpl. specialize (Hall q Hq). unfold key_le in Hall.
        rewrite (Hz p), (Hz q) in Hall; (done || by constructor).
  - intros z. rewrite <-Hitems, !filter_fmap_snd. f_equal.
    assert (∀ t : list (value * A), (∀ p, p ∈ t → zkey p = zk p.2) →
              filter (λ p, zk p.2 = z) t = filter (λ p, zkey p = z) t) as Hsame.
    { induction t as [|p t IH]; [done |]. intros Ht.
      rewrite !filter_cons. rewrite (Ht p) by (by left).
      rewrite IH by (intros q Hq; apply Ht; by right). done. }
    rewrite (Hsame s Hz), (Hsame keyed); [apply Hfilter |].
    intros p Hp. apply Hz. by rewrite Hperm.
Qed.
End sorting.

(** ** The channel list *)

Lemma StronglySorted_lookup_lt {A} (R : relation A) (l : list A) i j a b :
  StronglySorted R l → l !! i = Some a → l !! j = Some b → i < j → R a b.
Proof.
  intros Hs. revert i j. induction Hs as [|x l Hs IH Hall]; intros i j Hi Hj Hlt.
  - done.
  - destruct j as [|j]; [lia |]. simpl in Hj. destruct i as [|i]; simpl in Hi.
    + simplify_eq. rewrite Forall_forall in Hall. apply Hall.
      apply list_elem_of_lookup. by exists j.
    + apply (IH i j); (done || lia).
Qed.

Lemma filter_comprehension_type (items : list value) :
  Forall has_type items →
  filter_comprehension (λ ch, t ← getitem ch "type"; Ok (py_eq t (VInt 0)))
    items
  = Ok (filter (λ ch, is_text_channel ch) items).
Proof.
  induction 1 as [|ch items Hch _ IH]; [done |].
  simpl. rewrite IH. rewrite filter_cons.
  destruct ch as [| | | | |d]; try done. simpl in Hch. destruct Hch as [t Ht].
  simpl. rewrite Ht. simpl. by destruct (py_eq t (VInt 0)).
Qed.

Lemma position_key_get (ch : value) :
  has_type ch → position_is_number ch →
  ∃ v, get ch "position" (VInt 0) = Ok v ∧ as_num v = Some (position_key ch).
Proof.
  destruct ch as [| | | | |d]; try done. simpl. intros _ Hnum.
  unfold position_key, position_of, dict_get.
  destruct (d !! "position") as [p|] eqn:Hp; simpl.
  - destruct (Hnum p eq_refl) as [z Hz]. exists p. by rewrite Hz.
  - by exists (VInt 0).
Qed.

(** What [get_guild_channels] returns on a list of channel entries. *)
Lemma get_guild_channels_sorted E token guild_id w resp channels :
  remote E (net_log w) (channels_call token guild_id) = Answer resp →
  ¬ (400 ≤ status_code resp < 600)%Z →
  json_body resp = Some (VList channels) →
  Forall has_type channels →
  Forall position_is_number (filter (λ ch, is_text_channel ch) channels) →
  ∃ out,
    get_guild_channels E token guild_id w
      = (Ok out, logged (channels_call token guild_id) w)
    ∧ out ≡ₚ filter (λ ch, is_text_channel ch) channels
    ∧ StronglySorted (λ a b, (position_key a ≤ position_key b)%Z) out
    ∧ ∀ z, filter (λ ch, position_key ch = z) out
           = filter (λ ch, position_key ch = z)
               (filter (λ ch, is_text_channel ch) channels).
Proof.
  intros Hremote Hstatus Hjson Htype Hpos.
  destruct (sorted_numeric (λ ch, get ch "position" (VInt 0)) position_key
              (filter (λ ch, is_text_channel ch) channels))
    as (out & Hsorted & Hrest).
  { rewrite Forall_forall in Hpos, Htype |- *. intros ch Hch.
    apply position_key_get; [|by apply Hpos].
    apply Htype. by apply list_elem_of_filter in Hch as [_ ?]. }
  exists out. split; [|done].
  unfold get_guild_channels, discord_request, http, channels_call in *.
  unfold mbind, M_bind. rewrite Hremote.
  unfold lift, raise_for_status, resp_json. rewrite Hjson.
  replace ((400 <=? status_code resp)%Z && (status_code resp <? 600)%Z)
    with false by (symmetry; apply andb_false_iff; lia).
  simpl. pose proof (filter_comprehension_type channels Htype) as Hf.
  unfold mbind in Hf. rewrite Hf. simpl. by rewrite Hsorted.
Qed.

(** C5: from a response that [raise_for_status] lets through and whose
    body is a list of channel entries, each with a [type], those of type 0
    having a number for [position] when they have one,
    [get_guild_channels] returns exactly the entries whose [type] equals
    0, in ascending order of [position] (0 for an entry without one),
    entries of equal position in the order the response had them. *)
Theorem get_guild_channels_text_by_position E token guild_id w resp channels :
  remote E (net_log w) (channels_call token guild_id) = Answer resp →
  ¬ (400 ≤ status_code resp < 600)%Z →
  json_body resp = Some (VList channels) →
  Forall has_type channels →
  Forall position_is_number (filter (λ ch, is_text_channel ch) channels) →
  ∃ out,
    get_guild_channels E token guild_id w
      = (Ok out, logged (channels_call token guild_id) w)
    ∧ out ≡ₚ filter (λ ch, is_text_channel ch) channels
    ∧ StronglySorted (λ a b, (position_key a ≤ position_key b)%Z) out
    ∧ ∀ z, filter (λ ch, position_key ch = z) out
           = filter (λ ch, position_key ch = z)
               (filter (λ ch, is_text_channel ch) channels).
Proof. apply get_guild_channels_sorted. Qed.

Lemma sample_channels_well_formed :
  Forall has_type sample_channels ∧
  Forall position_is_number (filter (λ ch, is_text_channel ch) sample_channels).
Proof.
  split.
  - repeat constructor; by vm_compute; eauto.
  - repeat constructor; intros p Hp; vm_compute in Hp; simplify_eq;
      by vm_compute; eauto.
Qed.

Lemma get_guild_channels_text_by_position_witness :
  ∃ out,
    get_guild_channels serving_channels "bot-token" "5" empty_world
      = (Ok out, logged (channels_call "bot-token" "5") empty_world)
    ∧ out ≡ₚ filter (λ ch, is_text_channel ch) sample_channels
    ∧ StronglySorted (λ a b, (position_key a ≤ position_key b)%Z) out
    ∧ ∀ z, filter (λ ch, position_key ch = z) out
           = filter (λ ch, position_key ch = z)
               (filter (λ ch, is_text_channel ch) sample_channels).
Proof.
  apply (get_guild_channels_text_by_position serving_channels "bot-token" "5"
           empty_world channels_response sample_channels).
  - reflexivity.
  - simpl. lia.
  - reflexivity.
  - apply sample_channels_well_formed.
  - apply sample_channels_well_formed.
Defined.

(** The run of the sample: the voice channel is dropped, the entry
    without a position comes first, before the entry at position 0 that
    followed it in the response. *)
Example get_guild_channels_sample :
  (get_guild_channels serving_channels "bot-token" "5" empty_world).1
  = Ok [ch_unplaced; ch_rules; ch_general].
Proof. by vm_compute. Qed.

(** C9: an entry without a [position] is sorted on the key 0: under the
    conditions of the channel list above, which do not ask for a position,
    [get_guild_channels] returns, and in what it returns an entry without
    a position stands before every entry whose position is positive, and
    the entries sorted on 0 (those without a position and those at
    position 0) keep the order the response had them in. *)
Theorem get_guild_channels_missing_position E token guild_id w resp channels :
  remote E (net_log w) (channels_call token guild_id) = Answer resp →
  ¬ (400 ≤ status_code resp < 600)%Z →
  json_body resp = Some (VList channels) →
  Forall has_type channels →
  Forall position_is_number (filter (λ ch, is_text_channel ch) channels) →
  (∀ ch, lacks_position ch →
         get ch "position" (VInt 0) = Ok (VInt 0) ∧ position_key ch = 0%Z)
  ∧ (∀ ch, position_of ch = Some 0%Z → position_key ch = 0%Z)
  ∧ ∃ out,
      get_guild_channels E token guild_id w
        = (Ok out, logged (channels_call token guild_id) w)
      ∧ (∀ i j a b p,
           out !! i = Some a → out !! j = Some b →
           lacks_position a → position_of b = Some p → (0 < p)%Z →
           i < j)
      ∧ filter (λ ch, position_key ch = 0%Z) out
        = filter (λ ch, position_key ch = 0%Z)
            (filter (λ ch, is_text_channel ch) channels).
Proof.
  intros Hremote Hstatus Hjson Htype Hpos.
  assert (∀ ch, lacks_position ch → position_of ch = None) as Hnone.
  { intros [| | | | |d]; try done. simpl. by intros ->. }
  split; [|split].
  - intros ch Hch. split.
    + destruct ch as [| | | | |d]; try done. simpl in *.
      unfold dict_get. by rewrite Hch.
    + unfold position_key. by rewrite (Hnone ch Hch).
  - intros ch Hch. unfold position_key. by rewrite Hch.
  - destruct (get_guild_channels_sorted E token guild_id w resp channels)
      as (out & Hrun & _ & Hsorted & Hstable); try done.
    exists out. split; [done |]. split; [|apply Hstable].
    intros i j a b p Hi Hj Ha Hb Hp.
    destruct (decide (i < j)) as [|Hge]; [done |]. exfalso.
    destruct (decide (j = i)) as [-> | Hne].
    + rewrite Hi in Hj. injection Hj as ->. rewrite (Hnone b Ha) in Hb. done.
    + assert (position_key b ≤ position_key a)%Z as Hle.
      { apply (StronglySorted_lookup_lt
                 (λ a b, (position_key a ≤ position_key b)%Z) out j i);
          (done || lia). }
      unfold position_key in Hle. rewrite Hb, (Hnone a Ha) in Hle.
      simpl in Hle. lia.
Qed.

Lemma get_guild_channels_missing_position_witness :
  (∀ ch, lacks_position ch →
         get ch "position" (VInt 0) = Ok (VInt 0) ∧ position_key ch = 0%Z)
  ∧ (∀ ch, position_of ch = Some 0%Z → position_key ch = 0%Z)
  ∧ ∃ out,
      get_guild_channels serving_channels "bot-token" "5" empty_world
        = (Ok out, logged (channels_call "bot-token" "5") empty_world)
      ∧ (∀ i j a b p,
           out !! i = Some a → out !! j = Some b →
           lacks_position a → position_of b = Some p → (0 < p)%Z →
           i < j)
      ∧ filter (λ ch, position_key ch = 0%Z) out
        = filter (λ ch, position_key ch = 0%Z)
            (filter (λ ch, is_text_channel ch) sample_channels).
Proof.
  apply (get_guild_channels_missing_position serving_channels "bot-token" "5"
           empty_world channels_response sample_channels).
  - reflexivity.
  - simpl. lia.
  - reflexivity.
  - apply sample_channels_well_formed.
  - apply sample_channels_well_formed.
Defined.

(** ** Whitespace *)

Lemma append_cons a (s t : string) : String a s +:+ t = String a (s +:+ t).
Proof. reflexivity. Qed.


Lemma append_nil_r (s : string) : s +:+ "" = s.
Proof. induction s as [|a s IH]; [done |]. by rewrite append_cons, IH. Qed.

Lemma append_assoc (s t u : string) : (s +:+ t) +:+ u = s +:+ (t +:+ u).
Proof.
  induction s as [|a s IH]; [done |]. by rewrite !append_cons, IH.
Qed.

Lemma prefix_drop e s :
  String.prefix e s = true → s = e +:+ drop_string (String.length e) s.
Proof.
  revert s. induction e as [|a e IH]; intros s; [done |].
  destruct s as [|b s]; simpl; [done |].
  destruct (ascii_dec a b) as [-> |]; [|done].
  intros H. rewrite append_cons. f_equal. by apply IH.
Qed.

Lemma prefix_app e s : String.prefix e (e +:+ s) = true.
Proof.
  induction e as [|a e IH]; [by destruct s |].
  rewrite append_cons. simpl. by destruct (ascii_dec a a).
Qed.

Lemma drop_string_app e s : drop_string (String.length e) (e +:+ s) = s.
Proof.
  induction e as [|a e IH]; [by destruct s |]. by rewrite append_cons.
Qed.

Lemma prefix_comparable e' e s :
  String.prefix e' (e +:+ s) = true →
  String.prefix e' e = true ∨ String.prefix e e' = true.
Proof.
  revert e. induction e' as [|a e' IH]; intros e; [left; by destruct e |].
  destruct e as [|b e]; [by right |]. rewrite append_cons. simpl.
  destruct (ascii_dec a b) as [-> |]; [|done].
  destruct (ascii_dec b b); [|done]. apply IH.
Qed.

Lemma string_length_app (s t : string) :
  String.length (s +:+ t) = String.length s + String.length t.
Proof.
  induction s as [|a s IH]; [done |]. rewrite append_cons. simpl.
  by rewrite IH.
Qed.

Lemma whitespace_checks :
  forallb (λ e,
    negb (String.eqb e "") &&
    forallb (λ e', implb (String.prefix e' e) (String.eqb e' e)) whitespace)
    whitespace = true.
Proof. by vm_compute. Qed.

Lemma whitespace_nonempty e : e ∈ whitespace → 0 < String.length e.
Proof.
  intros He. pose proof whitespace_checks as H.
  rewrite forallb_forall in H. apply list_elem_of_In in He.
  specialize (H e He). apply andb_prop in H as [H _].
  destruct e; [done | simpl; lia].
Qed.

Lemma whitespace_prefix_free e e' :
  e ∈ whitespace → e' ∈ whitespace → String.prefix e' e = true → e' = e.
Proof.
  intros He He' Hp. pose proof whitespace_checks as H.
  rewrite forallb_forall in H. apply list_elem_of_In in He.
  specialize (H e He). apply andb_prop in H as [_ H].
  rewrite forallb_forall in H. apply list_elem_of_In in He'.
  specialize (H e' He'). rewrite Hp in H. simpl in H.
  by apply String.eqb_eq.
Qed.

Lemma skip_space_Some s r :
  skip_space s = Some r → ∃ e, e ∈ whitespace ∧ s = e +:+ r.
Proof.
  unfold skip_space.
  destruct (List.find _ whitespace) as [e|] eqn:Hfind; [|done].
  apply find_some in Hfind as [Hin Hp]. intros [= <-].
  exists e. split; [by apply list_elem_of_In | by apply prefix_drop].
Qed.

Lemma skip_space_app e s :
  e ∈ whitespace → skip_space (e +:+ s) = Some s.
Proof.
  intros He. unfold skip_space.
  destruct (List.find _ whitespace) as [e'|] eqn:Hfind.
  - apply find_some in Hfind as [Hin Hp]. apply list_elem_of_In in Hin.
    assert (e' = e) as ->.
    { destruct (prefix_comparable _ _ _ Hp) as [H | H].
      - by apply whitespace_prefix_free.
      - symmetry. by apply whitespace_prefix_free. }
    simpl. by rewrite drop_string_app.
  - apply list_elem_of_In in He.
    pose proof (find_none _ _ Hfind e He) as H. simpl in H.
    by rewrite prefix_app in H.
Qed.

Lemma lstrip_upto_spec fuel s :
  String.length s ≤ fuel →
  ∃ ws, all_whitespace ws ∧ s = ws +:+ lstrip_upto fuel s
        ∧ skip_space (lstrip_upto fuel s) = None.
Proof.
  revert s. induction fuel as [|fuel IH]; intros s Hlen.
  - destruct s; [|simpl in Hlen; lia]. exists "". by repeat split; try constructor.
  - simpl. destruct (skip_space s) as [r|] eqn:Hskip.
    + destruct (skip_space_Some _ _ Hskip) as (e & He & ->).
      pose proof (whitespace_nonempty e He). rewrite string_length_app in Hlen.
      destruct (IH r) as (ws & Hws & Hr & Hnone); [lia |].
      exists (e +:+ ws). split; [by constructor |]. split; [|done].
      rewrite Hr at 1. by rewrite append_assoc.
    + exists "". by repeat split; try constructor.
Qed.

Lemma lstrip_all_whitespace fuel s :
  all_whitespace s → String.length s ≤ fuel → lstrip_upto fuel s = "".
Proof.
  intros Hs. revert fuel. induction Hs as [|e s He Hs IH]; intros fuel Hlen.
  - by destruct fuel.
  - pose proof (whitespace_nonempty e He). rewrite string_length_app in Hlen.
    destruct fuel as [|fuel]; [lia |]. simpl.
    rewrite (skip_space_app e s He). apply IH. lia.
Qed.

(** A string strips to nothing exactly when it is made of whitespace. *)
Lemma strip_empty_iff s : strip s = "" ↔ all_whitespace s.
Proof.
  unfold strip.
  destruct (lstrip_upto_spec (String.length s) s) as (ws & Hws & Hs & Hnone);
    [done |].
  fold (lstrip s) in Hs, Hnone. split.
  - intros Hr. destruct (lstrip s) as [|c r] eqn:Hl.
    + rewrite Hs. by rewrite append_nil_r.
    + simpl in Hr.
      destruct (String.eqb (lstrip (String c r)) "") eqn:Hb; [|done].
      apply String.eqb_eq in Hb. unfold lstrip in Hb.
      simpl in Hb. by rewrite Hnone in Hb.
  - intros Haw. unfold lstrip.
    by rewrite (lstrip_all_whitespace _ s Haw).
Qed.

(** ** Sending a message and reporting *)

Lemma blank_iff content :
  truthy (VStr (strip content)) = false ↔ all_whitespace content.
Proof.
  rewrite <-strip_empty_iff. simpl. rewrite negb_false_iff.
  apply String.eqb_eq.
Qed.

(** C3, counterexample: the text is not blank and the answer has status
    429, but its body is not JSON: [resp.json()] raises, the handler for
    [RequestException] takes it, and what is drawn is the network error,
    not a rate limit notice. *)
Lemma send_and_report_rate_limit_body_not_json :
  ¬ all_whitespace "hello"
  ∧ status_code rate_limited_html = 429%Z
  ∧ send_and_report (sample_env (λ _, Answer rate_limited_html))
      "bot-token" "42" "hello" empty_world
    = (Ok tt,
       drawn (StError [Lit "Network error: "; FmtExc JSONDecodeError])
         (logged (send_call "bot-token" "42" "hello") empty_world)).
Proof.
  split; [|split].
  - rewrite <-strip_empty_iff. by vm_compute.
  - reflexivity.
  - by vm_compute.
Qed.

(** C3, amended: [send_and_report] on a text made of whitespace only
    (or empty) draws the "empty message" error and makes no request.  On
    any other text it makes exactly one request, the one of
    [send_message], whatever comes back, and draws: on a failure of the
    network layer, the network error; on status 200, the success notice;
    on status 429 with a body that is a JSON object, the rate limit
    notice with the body's [retry_after] ("a few" when the body has
    none); on 403, the permission notice; on 404, the channel-not-found
    notice; on any other status, the generic notice with the status and
    the raw body. *)
Theorem send_and_report_outcomes E token channel_id content w :
  let req := send_call token channel_id content in
  let run := send_and_report E token channel_id content w in
  (all_whitespace content →
     run = (Ok tt, drawn (StError [Lit "Message cannot be empty."]) w)
     ∧ net_log run.2 = net_log w)
  ∧ (¬ all_whitespace content →
     net_log run.2 = net_log w ++ [req]
     ∧ (∀ msg, remote E (net_log w) req = NetFail msg →
          run = (Ok tt,
                 drawn (StError [Lit "Network error: ";
                                 FmtExc (RequestException msg)])
                   (logged req w)))
     ∧ (∀ resp, remote E (net_log w) req = Answer resp →
          (status_code resp = 200%Z →
             run = (Ok tt, drawn (StSuccess [Lit "Message sent!"])
                             (logged req w)))
          ∧ (status_code resp = 429%Z →
             ∀ d, json_body resp = Some (VDict d) →
             run = (Ok tt,
                    drawn (StError [Lit "Rate limited. Retry after ";
                                    Fmt (dict_get d "retry_after" (VStr "a few"));
                                    Lit " seconds."])
                      (logged req w)))
          ∧ (status_code resp = 403%Z →
             run = (Ok tt,
                    drawn (StError [Lit "Bot lacks permission to send messages here. Check bot roles in Discord."])
                      (logged req w)))
          ∧ (status_code resp = 404%Z →
             run = (Ok tt,
                    drawn (StError [Lit "Channel not found. It may have been deleted — try reloading."])
                      (logged req w)))
          ∧ (status_code resp ≠ 200%Z → status_code resp ≠ 429%Z →
             status_code resp ≠ 403%Z → status_code resp ≠ 404%Z →
             run = (Ok tt,
                    drawn (StError [Lit "Discord API error (";
                                    Fmt (VInt (status_code resp));
                                    Lit "): "; Fmt (VStr (text resp))])
                      (logged req w))))).
Proof.
  intros req run. subst req run. split.
  - intros Hblank. apply blank_iff in Hblank.
    unfold send_and_report. by rewrite Hblank.
  - intros Hblank.
    assert (truthy (VStr (strip content)) = true) as Htext.
    { destruct (truthy (VStr (strip content))) eqn:Ht; [done |].
      by apply blank_iff in Ht. }
    unfold send_and_report. rewrite Htext.
    cbv beta iota zeta delta [negb try_except send_message discord_request http
                         send_call mbind M_bind].
    destruct (remote E (net_log w) _) as [resp | msg] eqn:Hremote.
    + split; [|split; [done |]].
      * destruct (status_code resp =? 200)%Z; [done |].
        destruct (status_code resp =? 429)%Z;
          [|by destruct (status_code resp =? 403)%Z,
                        (status_code resp =? 404)%Z].
        unfold lift, resp_json. destruct (json_body resp) as [[]|]; done.
      * intros resp' [= <-]. repeat split.
        -- by intros ->.
        -- intros Hs d Hd. rewrite Hs. simpl. unfold lift, resp_json.
           by rewrite Hd.
        -- by intros ->.
        -- by intros ->.
        -- intros H1 H2 H3 H4.
           rewrite (proj2 (Z.eqb_neq _ _) H1), (proj2 (Z.eqb_neq _ _) H2),
             (proj2 (Z.eqb_neq _ _) H3), (proj2 (Z.eqb_neq _ _) H4). done.
    + split; [done |]. split; [|done]. by intros msg' [= <-].
Qed.

Lemma send_and_report_outcomes_witness :
  send_and_report offline "bot-token" "42" (" " +:+ newline) empty_world
    = (Ok tt, drawn (StError [Lit "Message cannot be empty."]) empty_world)
  ∧ send_and_report (sample_env (λ _, Answer rate_limited))
      "bot-token" "42" "hello" empty_world
    = (Ok tt,
       drawn (StError [Lit "Rate limited. Retry after "; Fmt (VInt 3);
                       Lit " seconds."])
         (logged (send_call "bot-token" "42" "hello") empty_world))
  ∧ render [Lit "Rate limited. Retry after "; Fmt (VInt 3); Lit " seconds."]
    = Some "Rate limited. Retry after 3 seconds.".
Proof.
  split; [|split].
  - apply (send_and_report_outcomes offline "bot-token" "42"
             (" " +:+ newline) empty_world).
    rewrite <-strip_empty_iff. by vm_compute.
  - assert (¬ all_whitespace "hello") as Htext
      by (rewrite <-strip_empty_iff; by vm_compute).
    destruct (send_and_report_outcomes (sample_env (λ _, Answer rate_limited))
                "bot-token" "42" "hello" empty_world) as [_ H].
    destruct (H Htext) as (_ & _ & Hresp).
    destruct (Hresp rate_limited eq_refl) as (_ & H429 & _).
    apply (H429 eq_refl _ eq_refl).
  - by vm_compute.
Defined.

(** ** Which calls raise on an error status *)

Lemma raise_for_status_error resp :
  (400 ≤ status_code resp < 600)%Z → raise_for_status resp = Raise (HTTPError resp).
Proof.
  intros Hs. unfold raise_for_status.
  replace ((400 <=? status_code resp)%Z && (status_code resp <? 600)%Z)
    with true; [done |].
  symmetry. apply andb_true_iff. lia.
Qed.

Lemma raise_for_status_pass resp :
  ¬ (400 ≤ status_code resp < 600)%Z → raise_for_status resp = Ok tt.
Proof.
  intros Hs. unfold raise_for_status.
  replace ((400 <=? status_code resp)%Z && (status_code resp <? 600)%Z)
    with false; [done |].
  symmetry. apply andb_false_iff. lia.
Qed.

Lemma http_answer E req w resp :
  remote E (net_log w) req = Answer resp → http E req w = (Ok resp, logged req w).
Proof. intros H. unfold http. by rewrite H. Qed.

Lemma http_fail E req w msg :
  remote E (net_log w) req = NetFail msg →
  http E req w = (Raise (RequestException msg), logged req w).
Proof. intros H. unfold http. by rewrite H. Qed.

(** A call that checks the status: what it does on an answer. *)
Lemma checked_call E req w resp :
  remote E (net_log w) req = Answer resp →
  (resp ← http E req; _ ← lift (raise_for_status resp); lift (resp_json resp)) w
  = (match raise_for_status resp with
     | Ok _ => resp_json resp
     | Raise e => Raise e
     end, logged req w).
Proof.
  intros H. unfold mbind, M_bind. rewrite (http_answer _ _ _ _ H).
  unfold lift. by destruct (raise_for_status resp).
Qed.

(** C8, counterexample: status 300 is not a 2xx status, and on an
    answer with that status none of the three functions raises: each
    returns what the body holds. *)
Lemma status_300_not_raised :
  ¬ (200 ≤ status_code multiple_choices < 300)%Z
  ∧ get_guild_channels (sample_env (λ _, Answer multiple_choices))
      "bot-token" "5" empty_world
    = (Ok [], logged (channels_call "bot-token" "5") empty_world)
  ∧ open_dm_channel (sample_env (λ _, Answer multiple_choices))
      "bot-token" (VStr "1") empty_world
    = (Ok (VList []), logged (dm_call "bot-token" (VStr "1")) empty_world)
  ∧ get_messages (sample_env (λ _, Answer multiple_choices))
      "bot-token" "42" 25 empty_world
    = (Ok (VList []), logged (messages_call "bot-token" "42" 25) empty_world).
Proof.
  split; [simpl; lia |]. repeat split; by vm_compute.
Qed.

Lemma py_lt_raises : ∀ a b e, py_lt a b = Raise e → e = TypeError.
Proof.
  fix IH 1. intros a b e.
  destruct a as [|p|n|s|xs|d]; destruct b as [|q|m|t|ys|d'];
    simpl; try done; try (by intros [= <-]).
  revert ys. induction xs as [|x xs IHxs]; intros [|y ys]; try done.
  destruct (py_eq x y); [apply IHxs | apply IH].
Qed.

Lemma insert_keyed_raises {A} (kx : value * A) l e :
  insert_keyed kx l = Raise e → e = TypeError.
Proof.
  induction l as [|ky l IH]; [done |]. simpl.
  destruct (py_lt ky.1 kx.1) as [[] |e1] eqn:Hlt; simpl.
  - destruct (insert_keyed kx l); [done |]. intros [= <-]. by apply IH.
  - done.
  - intros [= <-]. by apply (py_lt_raises _ _ _ Hlt).
Qed.

Lemma sort_keyed_raises {A} (l : list (value * A)) e :
  sort_keyed l = Raise e → e = TypeError.
Proof.
  induction l as [|kx l IH]; [done |]. simpl.
  destruct (sort_keyed l) as [s|e1]; simpl.
  - apply insert_keyed_raises.
  - intros [= <-]. by apply IH.
Qed.

Lemma sorted_by_position_raises (items : list value) e :
  sorted (λ ch, get ch "position" (VInt 0)) items = Raise e →
  e = TypeError ∨ e = AttributeError.
Proof.
  unfold sorted.
  destruct (mapM _ items) as [keyed|e1] eqn:Hkeys; simpl.
  - destruct (sort_keyed keyed) as [s|e2] eqn:Hsort; simpl; [done |].
    intros [= <-]. left. by apply (sort_keyed_raises _ _ Hsort).
  - intros [= <-]. right. revert Hkeys. generalize e1. clear.
    induction items as [|ch items IH]; intros e; [done |]. simpl.
    destruct ch as [| | | | |d]; simpl; try (by intros [= <-]).
    destruct (mapM _ items) as [keyed|e1]; simpl; [done |].
    intros [= <-]. by apply IH.
Qed.

Lemma filter_by_type_raises (items : list value) e :
  filter_comprehension (λ ch, t ← getitem ch "type"; Ok (py_eq t (VInt 0)))
    items = Raise e →
  e = TypeError ∨ e = KeyError "type".
Proof.
  induction items as [|ch items IH]; [done |]. simpl.
  destruct (getitem ch "type") as [t|e1] eqn:Ht; simpl.
  - destruct (filter_comprehension _ items) as [r|e2]; simpl; [done |].
    intros [= <-]. by apply IH.
  - intros [= <-]. destruct ch as [| | | | |d]; simpl in Ht;
      try (left; congruence).
    destruct (d !! "type"); [done |]. right. congruence.
Qed.

(** What [get_guild_channels] makes of a body: the exceptions it may
    raise are those of reading the entries, never the API error. *)
Lemma channels_of_body_raises (body : value) e :
  (items ← iter body;
   text_channels ← filter_comprehension
     (λ ch, t ← getitem ch "type"; Ok (py_eq t (VInt 0))) items;
   sorted (λ ch, get ch "position" (VInt 0)) text_channels) = Raise e →
  e = TypeError ∨ e = AttributeError ∨ e = KeyError "type".
Proof.
  destruct (iter body) as [items|e1] eqn:Hiter; simpl.
  - destruct (filter_comprehension _ items) as [text_channels|e2] eqn:Hf; simpl.
    + intros H. destruct (sorted_by_position_raises _ _ H); auto.
    + intros [= <-]. destruct (filter_by_type_raises _ _ Hf); auto.
  - intros [= <-]. left. destruct body; simpl in Hiter; congruence.
Qed.

(** C8, amended: [send_message] returns the response it gets, whatever
    its status.  [get_guild_channels], [open_dm_channel] and
    [get_messages] (and the two OAuth2 calls) raise the HTTP error
    carrying the response on every status from 400 to 599, the statuses
    [raise_for_status] treats as errors.  On every other status (1xx and
    3xx included) they raise no HTTP error: [open_dm_channel],
    [get_messages] and the OAuth2 calls return the body when it is JSON
    and raise the decode error when it is not, and [get_guild_channels]
    goes on to the entries of the body: it returns the text channels of
    a list of channel entries, and whatever it raises is the decode error
    or an error of reading the entries. *)
Theorem raise_on_error_status E w token resp :
  (∀ channel_id content,
     remote E (net_log w) (send_call token channel_id content) = Answer resp →
     send_message E token channel_id content w
     = (Ok resp, logged (send_call token channel_id content) w))
  ∧ ((400 ≤ status_code resp < 600)%Z →
     (∀ guild_id,
        remote E (net_log w) (channels_call token guild_id) = Answer resp →
        get_guild_channels E token guild_id w
        = (Raise (HTTPError resp), logged (channels_call token guild_id) w))
     ∧ (∀ user_id,
        remote E (net_log w) (dm_call token user_id) = Answer resp →
        open_dm_channel E token user_id w
        = (Raise (HTTPError resp), logged (dm_call token user_id) w))
     ∧ (∀ channel_id limit,
        remote E (net_log w) (messages_call token channel_id limit)
          = Answer resp →
        get_messages E token channel_id limit w
        = (Raise (HTTPError resp),
           logged (messages_call token channel_id limit) w))
     ∧ (∀ code client_id client_secret redirect_uri,
        remote E (net_log w)
          (token_call code client_id client_secret redirect_uri)
          = Answer resp →
        exchange_code_for_token E code client_id client_secret redirect_uri w
        = (Raise (HTTPError resp),
           logged (token_call code client_id client_secret redirect_uri) w))
     ∧ (∀ access_token,
        remote E (net_log w) (identity_call access_token) = Answer resp →
        get_oauth_user E access_token w
        = (Raise (HTTPError resp), logged (identity_call access_token) w)))
  ∧ (¬ (400 ≤ status_code resp < 600)%Z →
     (∀ guild_id,
        remote E (net_log w) (channels_call token guild_id) = Answer resp →
        (∀ e, (get_guild_channels E token guild_id w).1 = Raise e →
              e = JSONDecodeError ∨ e = TypeError ∨ e = AttributeError
              ∨ e = KeyError "type")
        ∧ (json_body resp = None →
           get_guild_channels E token guild_id w
           = (Raise JSONDecodeError, logged (channels_call token guild_id) w))
        ∧ (∀ channels,
             json_body resp = Some (VList channels) →
             Forall has_type channels →
             Forall position_is_number
               (filter (λ ch, is_text_channel ch) channels) →
             ∃ out,
               get_guild_channels E token guild_id w
               = (Ok out, logged (channels_call token guild_id) w)
               ∧ out ≡ₚ filter (λ ch, is_text_channel ch) channels))
     ∧ (∀ user_id,
        remote E (net_log w) (dm_call token user_id) = Answer resp →
        open_dm_channel E token user_id w
        = (match json_body resp with
           | Some body => Ok body
           | None => Raise JSONDecodeError
           end, logged (dm_call token user_id) w))
     ∧ (∀ channel_id limit,
        remote E (net_log w) (messages_call token channel_id limit)
          = Answer resp →
        get_messages E token channel_id limit w
        = (match json_body resp with
           | Some body => Ok body
           | None => Raise JSONDecodeError
           end, logged (messages_call token channel_id limit) w))
     ∧ (∀ code client_id client_secret redirect_uri,
        remote E (net_log w)
          (token_call code client_id client_secret redirect_uri)
          = Answer resp →
        exchange_code_for_token E code client_id client_secret redirect_uri w
        = (match json_body resp with
           | Some body => Ok body
           | None => Raise JSONDecodeError
           end,
           logged (token_call code client_id client_secret redirect_uri) w))
     ∧ (∀ access_token,
        remote E (net_log w) (identity_call access_token) = Answer resp →
        get_oauth_user E access_token w
        = (match json_body resp with
           | Some body => Ok body
           | None => Raise JSONDecodeError
           end, logged (identity_call access_token) w))).
Proof.
  split; [|split].
  - intros channel_id content H. by apply http_answer.
  - intros Hs. pose proof (raise_for_status_error resp Hs) as Hraise.
    repeat split.
    + intros guild_id H. unfold channels_call in *.
      unfold get_guild_channels, discord_request.
      cbv beta iota zeta delta [mbind M_bind].
      rewrite (http_answer _ _ _ _ H). unfold lift. by rewrite Hraise.
    + intros user_id H. unfold open_dm_channel, discord_request.
      fold (dm_call token user_id).
      rewrite (checked_call _ _ _ _ H). by rewrite Hraise.
    + intros channel_id limit H. unfold get_messages, discord_request.
      fold (messages_call token channel_id limit).
      rewrite (checked_call _ _ _ _ H). by rewrite Hraise.
    + intros code client_id client_secret redirect_uri H.
      unfold exchange_code_for_token.
      fold (token_call code client_id client_secret redirect_uri).
      rewrite (checked_call _ _ _ _ H). by rewrite Hraise.
    + intros access_token H. unfold get_oauth_user.
      fold (identity_call access_token).
      rewrite (checked_call _ _ _ _ H). by rewrite Hraise.
  - intros Hs. pose proof (raise_for_status_pass resp Hs) as Hpass.
    split; [|repeat split].
    + intros guild_id H.
      assert (get_guild_channels E token guild_id w
              = (match json_body resp with
                 | Some body =>
                     items ← iter body;
                     text_channels ← filter_comprehension
                       (λ ch, t ← getitem ch "type"; Ok (py_eq t (VInt 0)))
                       items;
                     sorted (λ ch, get ch "position" (VInt 0)) text_channels
                 | None => Raise JSONDecodeError
                 end, logged (channels_call token guild_id) w)) as Hrun.
      { unfold channels_call in *. unfold get_guild_channels, discord_request.
        unfold mbind at 1. unfold M_bind at 1.
        rewrite (http_answer _ _ _ _ H).
        unfold mbind at 1. unfold M_bind at 1. unfold lift at 1.
        rewrite Hpass.
        unfold mbind at 1. unfold M_bind at 1. unfold lift, resp_json.
        by destruct (json_body resp). }
      split; [|split].
      * intros e. rewrite Hrun. simpl fst.
        destruct (json_body resp) as [body|]; [|intros [= <-]; by left].
        intros He. right. by apply (channels_of_body_raises body).
      * intros Hbody. by rewrite Hrun, Hbody.
      * intros channels Hbody Htype Hpos.
        destruct (get_guild_channels_sorted E token guild_id w resp channels
                    H Hs Hbody Htype Hpos) as (out & Hout & Hperm & _).
        by exists out.
    + intros user_id H. unfold open_dm_channel, discord_request.
      fold (dm_call token user_id).
      rewrite (checked_call _ _ _ _ H), Hpass. unfold resp_json.
      by destruct (json_body resp).
    + intros channel_id limit H. unfold get_messages, discord_request.
      fold (messages_call token channel_id limit).
      rewrite (checked_call _ _ _ _ H), Hpass. unfold resp_json.
      by destruct (json_body resp).
    + intros code client_id client_secret redirect_uri H.
      unfold exchange_code_for_token.
      fold (token_call code client_id client_secret redirect_uri).
      rewrite (checked_call _ _ _ _ H), Hpass. unfold resp_json.
      by destruct (json_body resp).
    + intros access_token H. unfold get_oauth_user.
      fold (identity_call access_token).
      rewrite (checked_call _ _ _ _ H), Hpass. unfold resp_json.
      by destruct (json_body resp).
Qed.

Lemma raise_on_error_status_witness :
  send_message (sample_env (λ _, Answer forbidden)) "bot-token" "42" "hello"
    empty_world
  = (Ok forbidden, logged (send_call "bot-token" "42" "hello") empty_world)
  ∧ get_messages (sample_env (λ _, Answer forbidden)) "bot-token" "42" 25
      empty_world
    = (Raise (HTTPError forbidden),
       logged (messages_call "bot-token" "42" 25) empty_world)
  ∧ get_messages (sample_env (λ _, Answer multiple_choices)) "bot-token" "42" 25
      empty_world
    = (Ok (VList []), logged (messages_call "bot-token" "42" 25) empty_world).
Proof.
  destruct (raise_on_error_status (sample_env (λ _, Answer forbidden))
              empty_world "bot-token" forbidden) as (Hsend & Hraise & _).
  destruct (raise_on_error_status (sample_env (λ _, Answer multiple_choices))
              empty_world "bot-token" multiple_choices) as (_ & _ & Hpass).
  split; [|split].
  - by apply Hsend.
  - destruct Hraise as (_ & _ & Hmessages & _); [simpl; lia |].
    by apply Hmessages.
  - destruct Hpass as (_ & _ & Hmessages & _); [simpl; lia |].
    by apply (Hmessages "42" 25%Z).
Defined.

(** ** The OAuth2 callback *)

Lemma untouched_lift {A} (o : outcome A) : untouched (lift o).
Proof. by intros w r w' [= _ <-]. Qed.

Lemma untouched_http E req : untouched (http E req).
Proof.
  intros w r w'. unfold http. by destruct (remote E _ _); intros [= _ <-].
Qed.

Lemma untouched_bind {A B} (m : M A) (k : A → M B) :
  untouched m → (∀ a, untouched (k a)) → untouched (m ≫= k).
Proof.
  intros Hm Hk w r w'. unfold mbind, M_bind.
  destruct (m w) as [[a|e] w1] eqn:Hrun.
  - intros Hrest. destruct (Hm _ _ _ Hrun) as [H1 H2].
    destruct (Hk a _ _ _ Hrest) as [H3 H4]. split; congruence.
  - intros [= _ <-]. by eapply Hm.
Qed.

Lemma careful_bind {A B} (m : M A) (k : A → M B) :
  untouched m → (∀ a, careful (k a)) → careful (m ≫= k).
Proof.
  intros Hm Hk w e w'. unfold mbind, M_bind.
  destruct (m w) as [[a|e1] w1] eqn:Hrun.
  - intros Hrest He. destruct (Hm _ _ _ Hrun) as [H1 H2].
    destruct (Hk a _ _ _ Hrest He) as [H3 H4]. split; congruence.
  - intros [= <- <-] _. by eapply Hm.
Qed.

Lemma untouched_checked E req :
  untouched (resp ← http E req;
             _ ← lift (raise_for_status resp);
             lift (resp_json resp)).
Proof.
  apply untouched_bind; [apply untouched_http | intros resp].
  apply untouched_bind; [apply untouched_lift | intros _].
  apply untouched_lift.
Qed.

(** The [try] block saves last: an exception that the handler catches
    leaves the settings file and the page as they were. *)
Lemma oauth_callback_try_careful E config oauth_code oauth_guild_id :
  careful (oauth_callback_try E config oauth_code oauth_guild_id).
Proof.
  unfold oauth_callback_try.
  apply careful_bind; [apply untouched_checked | intros token_data].
  apply careful_bind; [apply untouched_lift | intros access_token].
  apply careful_bind; [apply untouched_checked | intros user_data].
  apply careful_bind; [apply untouched_lift | intros user_id].
  apply careful_bind; [apply untouched_checked | intros dm_channel].
  apply careful_bind; [apply untouched_lift | intros user_record].
  apply careful_bind; [apply untouched_lift | intros config'].
  intros w e w'. unfold save_config, clear_query_params, draw, st_stop, raise.
  cbv beta iota zeta delta [mbind M_bind]. by intros [= <- _].
Qed.

(** C4: when the [try] block of the callback handler raises an HTTP
    error or any other request exception, at whatever step, the handler
    ends the run ([st.stop()]) with the query parameters cleared and one
    error drawn, and the settings file is what it was before the
    handler ran. *)
Theorem oauth_callback_failure_saves_nothing E config w oauth_code exc w_raised :
  OAUTH2_AVAILABLE E = true →
  query_params w !! "code" = Some oauth_code →
  oauth_callback_try E config oauth_code
    (default "" (query_params w !! "guild_id")) w = (Raise exc, w_raised) →
  is_request_exception exc = true →
  ∃ w_end,
    oauth_callback E config w = (Raise StopException, w_end)
    ∧ query_params w_end = ∅
    ∧ page w_end = page w ++ [StError (oauth_error_notice exc)]
    ∧ config_file w_end = config_file w.
Proof.
  intros Havail Hcode Htry Hexc.
  destruct (oauth_callback_try_careful E config oauth_code
              (default "" (query_params w !! "guild_id")) w exc w_raised
              Htry Hexc) as [Hfile Hpage].
  unfold oauth_callback. rewrite Havail, Hcode. unfold try_except.
  rewrite Htry.
  destruct exc; try done; simpl;
    eexists; (split; [reflexivity |]); simpl; by rewrite Hfile, Hpage.
Qed.

Lemma oauth_callback_failure_saves_nothing_witness :
  ∃ w_end,
    oauth_callback dm_refused two_users returning_visitor
      = (Raise StopException, w_end)
    ∧ query_params w_end = ∅
    ∧ page w_end
        = page returning_visitor ++ [StError (oauth_error_notice (HTTPError forbidden))]
    ∧ config_file w_end = config_file returning_visitor.
Proof.
  eapply (oauth_callback_failure_saves_nothing dm_refused two_users
            returning_visitor "abc" (HTTPError forbidden)).
  - by vm_compute.
  - by vm_compute.
  - by vm_compute.
  - reflexivity.
Defined.

(** ** The message feed *)

Lemma set_page_set_page p q w : set_page p (set_page q w) = set_page p w.
Proof. by destruct w. Qed.








Lemma local_time_parsed E s parsed here fallback :
  fromisoformat E s = Ok parsed → astimezone E parsed = Ok here →
  local_time E (VStr s) fallback = Ok (strftime_ymd_hm here).
Proof. intros H1 H2. unfold local_time. simpl. rewrite H1. simpl. by rewrite H2. Qed.

Lemma local_time_unparsed E ts fallback shown :
  (∀ s parsed, ts = VStr s → fromisoformat E s ≠ Ok parsed) →
  local_time E ts fallback = Ok shown → shown = fallback.
Proof.
  intros Hno. unfold local_time.
  destruct ts as [| | |s| |]; simpl; try (by intros [= <-]).
  destruct (fromisoformat E s) as [parsed|e] eqn:Hp.
  - by destruct (Hno s parsed).
  - simpl. destruct e; by intros [= <-].
Qed.

Lemma display_message_line E bot_id msg w :
  message_ok E msg →
  ∃ line, display_message E bot_id msg w = (Ok tt, drawn line w)
          ∧ renders_as E bot_id msg line.
Proof.
  intros (d & -> & [a Ha] & [shown Hshown]).
  assert (∃ name, display_name (VDict a) "Unknown" = Ok name) as [name Hname].
  { unfold display_name. simpl. destruct (truthy _); by eexists. }
  eexists. split.
  - unfold display_message, within, draw.
    cbv beta iota zeta delta [mbind M_bind lift get].
    rewrite Ha. cbv beta iota. rewrite Hname, Hshown. cbv beta iota.
    unfold drawn. rewrite !set_page_set_page. simpl. reflexivity.
  - exists d, a,
      (if py_eq (dict_get a "id" VNone) (VStr bot_id)
       then "assistant" else "user"), name, shown.
    repeat split; try done.
    + by intros ->.
    + by intros ->.
    + intros s parsed here Hs Hp Hh. rewrite Hs in Hshown.
      rewrite (local_time_parsed _ _ _ _ _ Hp Hh) in Hshown. by simplify_eq.
    + intros Hno. by apply (local_time_unparsed _ _ _ _ Hno Hshown).
Qed.

Lemma for_each_display E bot_id msgs w :
  Forall (message_ok E) msgs →
  ∃ lines, for_each msgs (display_message E bot_id) w
             = (Ok tt, set_page (page w ++ lines) w)
           ∧ Forall2 (renders_as E bot_id) msgs lines.
Proof.
  intros Hok. revert w. induction Hok as [|msg msgs Hmsg _ IH]; intros w.
  - exists []. split; [|constructor]. simpl. unfold mret, M_ret.
    rewrite app_nil_r. by destruct w.
  - destruct (display_message_line E bot_id msg w Hmsg) as (line & Hrun & Hline).
    destruct (IH (drawn line w)) as (lines & Hrest & Hlines).
    exists (line :: lines). split; [|by constructor].
    simpl. unfold mbind, M_bind. rewrite Hrun, Hrest.
    unfold drawn. rewrite set_page_set_page. simpl.
    by rewrite <-app_assoc.
Qed.

(** The run on the example of the specification, and on a message whose
    time stamp does not parse. *)
Example display_messages_sample :
  page (display_messages (sample_env (λ _, NetFail "unused"))
          (VList [hello_from_carol; hi_from_bot]) "BOT" empty_world).2
  = [StChatMessage "assistant"
       [StCaption [Lit "**"; Fmt (VStr "Unknown"); Lit "** · ";
                   Fmt (VStr "2024-01-01 00:00")];
        StMarkdown [Fmt (VStr "hi")]];
     StChatMessage "user"
       [StCaption [Lit "**"; Fmt (VStr "carol"); Lit "** · "; Fmt (VStr "")];
        StMarkdown [Fmt (VStr "hello")]]].
Proof. by vm_compute. Qed.

(** ** The onboarding page *)

Lemma user_ok_name u dflt :
  user_ok u → ∃ s, display_name u dflt = Ok (VStr s).
Proof.
  intros (d & -> & Hg & Hu). unfold display_name. simpl. unfold dict_get.
  destruct (d !! "global_name") as [[| | |g| |]|]; try done; simpl;
    try (destruct (d !! "username") as [[| | |n| |]|]; try done; simpl;
         by eexists).
  destruct (String.eqb g ""); simpl; [|by eexists].
  destruct (d !! "username") as [[| | |n| |]|]; try done; simpl; by eexists.
Qed.

Lemma user_names users dflt :
  Forall user_ok users →
  ∃ names joined,
    mapM (λ u, display_name u dflt) users = Ok names
    ∧ str_join ", " names = Ok joined.
Proof.
  induction 1 as [|u users Hu _ (names & joined & Hn & Hj)].
  - by exists [], "".
  - destruct (user_ok_name u dflt Hu) as [s Hs].
    exists (VStr s :: names). simpl. rewrite Hs. simpl. rewrite Hn. simpl.
    destruct names as [|n names]; [by eexists |].
    rewrite Hj. by eexists.
Qed.

(** The status branch of [show_onboarding]. *)
Lemma show_onboarding_status E dm ch (config : dict) w users names joined :
  dict_get config "authorized_users" (VList []) = VList users →
  mapM (λ u, display_name u "?") users = Ok names →
  str_join ", " names = Ok joined →
  users ≠ [] ∨ truthy (dict_get config "channel_id" VNone) = true →
  show_onboarding E dm ch config w
  = (Ok tt,
     set_page (page w ++
               status_view E config
                 (if bool_decide (users = []) then None else Some joined)) w).
Proof.
  intros Husers Hnames Hjoined Hgate. unfold show_onboarding.
  rewrite Husers. cbv zeta.
  change (truthy (VList users)) with (negb (bool_decide (users = []))).
  assert (negb (bool_decide (users = []))
          || truthy (dict_get config "channel_id" VNone) = true) as ->.
  { destruct Hgate as [Hne | ->]; [|by rewrite orb_true_r].
    by rewrite bool_decide_eq_false_2. }
  unfold status_view, draw.
  cbv beta iota zeta delta [mbind M_bind mret M_ret lift iter].
  rewrite Hnames. cbv beta iota. rewrite Hjoined. cbv beta iota.
  destruct (bool_decide (users = [])), (truthy (dict_get config "channel_id" VNone)),
    (OAUTH2_AVAILABLE E); simpl; rewrite ?set_page_set_page; simpl;
    by rewrite <-?app_assoc.
Qed.

Lemma status_view_no_wizard E config connected :
  StMarkdown [Lit "[Open Admin Dashboard](?admin)"]
    ∈ status_view E config connected
  ∧ Forall (λ x, wizard_widget x = false) (status_view E config connected).
Proof.
  unfold status_view, connect_link. split.
  - rewrite !elem_of_app. right. right. right. left. by left.
  - rewrite !Forall_app. repeat split;
      repeat case_match; by repeat constructor.
Qed.

Lemma bind_ok {A B} (m : M A) (k : A → M B) w a w' :
  m w = (Ok a, w') → (m ≫= k) w = k a w'.
Proof. intros H. unfold mbind, M_bind. by rewrite H. Qed.

(** The wizard branch of [show_onboarding], in a fresh session. *)
Lemma show_onboarding_fresh E dm ch (config : dict) w :
  dict_get config "authorized_users" (VList []) = VList [] →
  truthy (dict_get config "channel_id" VNone) = false →
  session_state w !! "onboarding_step" = None →
  pressed E ≠ Some "Direct Message" → pressed E ≠ Some "Channel" →
  show_onboarding E dm ch config w
  = (Ok tt,
     set_page (page w ++ choose_view)
       (set_session_state
          (<["onboarding_step" := VStr "choose"]> (session_state w)) w)).
Proof.
  intros Husers Hchannel Hfresh Hdm Hch.
  unfold show_onboarding. rewrite Husers, Hchannel. cbv zeta.
  change (truthy (VList []) || false) with false. cbv iota.
  erewrite bind_ok; cycle 1.
  { rewrite bool_decide_eq_false_2 by (rewrite Hfresh; by intros [? ?]).
    reflexivity. }
  erewrite bind_ok; cycle 1.
  { unfold getitem. cbn [session_state set_session_state].
    rewrite lookup_insert_eq. reflexivity. }
  erewrite bind_ok; [|reflexivity].
  change (py_eq (VStr "choose") (VStr "choose")) with true. cbv iota.
  unfold st_button.
  rewrite (bool_decide_eq_false_2 _ Hdm), (bool_decide_eq_false_2 _ Hch).
  assert (page w = page (set_session_state
            (<["onboarding_step" := VStr "choose"]> (session_state w)) w))
    as -> by done.
  generalize (set_session_state
                (<["onboarding_step" := VStr "choose"]> (session_state w)) w).
  intros [file params session drawn_so_far log].
  cbv beta iota zeta delta [within draw mbind M_bind mret M_ret set_page page
                            config_file query_params session_state net_log
                            choose_view].
  by rewrite <-!app_assoc.
Qed.

(** C7: for a configuration whose [authorized_users] (the empty list when
    absent) is a list of user records: if the list is not empty or
    [channel_id] is truthy, [show_onboarding] draws the status summary,
    which holds the link to the admin dashboard and no widget of the
    wizard, and leaves the session state alone, whatever the step views
    are; if the list is empty and [channel_id] is not truthy, then in a
    fresh session it sets the step to [choose] and draws the view of that
    step. *)
Theorem show_onboarding_status_or_wizard E dm ch (config : dict) w users :
  dict_get config "authorized_users" (VList []) = VList users →
  Forall user_ok users →
  (users ≠ [] ∨ truthy (dict_get config "channel_id" VNone) = true →
   ∃ view,
     show_onboarding E dm ch config w = (Ok tt, set_page (page w ++ view) w)
     ∧ (∃ connected, view = status_view E config connected)
     ∧ StMarkdown [Lit "[Open Admin Dashboard](?admin)"] ∈ view
     ∧ Forall (λ x, wizard_widget x = false) view)
  ∧ (users = [] → truthy (dict_get config "channel_id" VNone) = false →
     session_state w !! "onboarding_step" = None →
     pressed E ≠ Some "Direct Message" → pressed E ≠ Some "Channel" →
     show_onboarding E dm ch config w
     = (Ok tt,
        set_page (page w ++ choose_view)
          (set_session_state
             (<["onboarding_step" := VStr "choose"]> (session_state w)) w))).
Proof.
  intros Husers Hok. split.
  - intros Hgate. destruct (user_names users "?" Hok) as (names & joined & Hn & Hj).
    eexists. split; [by apply (show_onboarding_status _ _ _ _ _ users names joined) |].
    split; [by eexists |]. apply status_view_no_wizard.
  - intros -> Hchannel Hfresh Hdm Hch. by apply show_onboarding_fresh.
Qed.

Lemma show_onboarding_status_or_wizard_witness :
  (∃ view,
     show_onboarding offline (λ _, mret tt) (λ _, mret tt) one_user empty_world
       = (Ok tt, set_page (page empty_world ++ view) empty_world)
     ∧ (∃ connected, view = status_view offline one_user connected)
     ∧ StMarkdown [Lit "[Open Admin Dashboard](?admin)"] ∈ view
     ∧ Forall (λ x, wizard_widget x = false) view)
  ∧ show_onboarding offline (λ _, mret tt) (λ _, mret tt) ∅ empty_world
    = (Ok tt,
       set_page (page empty_world ++ choose_view)
         (set_session_state
            (<["onboarding_step" := VStr "choose"]> (session_state empty_world))
            empty_world)).
Proof.
  split.
  - apply (show_onboarding_status_or_wizard offline (λ _, mret tt) (λ _, mret tt)
             one_user empty_world [VDict alice]).
    + by vm_compute.
    + repeat constructor. exists alice. by vm_compute.
    + by left.
  - apply (show_onboarding_status_or_wizard offline (λ _, mret tt) (λ _, mret tt)
             ∅ empty_world []); by vm_compute.
Defined.

(** The two runs drawn out: with one authorized user the status summary,
    with an empty configuration the choice of the wizard. *)
Example show_onboarding_one_user :
  page (show_onboarding offline (λ _, mret tt) (λ _, mret tt) one_user
          empty_world).2
  = [StTitle [Lit "Gopf Intel"];
     StSuccess [Lit "Connected: **"; Fmt (VStr "alice"); Lit "**"];
     StMarkdown [Lit "[Open Admin Dashboard](?admin)"];
     StDivider;
     StCaption [Lit "Connect another account:"];
     StLinkButton "Add Bot & Connect"
       "https://discord.com/oauth2/authorize?client_id=1234&redirect_uri=http%3A%2F%2Flocalhost%3A8501&response_type=code&scope=bot+identify&permissions=68608"
       false false;
     StDivider;
     StCaption [Lit "[Admin Dashboard](?admin)"]].
Proof. by vm_compute. Qed.

(** ** Display names *)




(** ** The transcript of the feed *)








(** The time of the example reads as its fields; a year below 1000 is
    written with fewer than four digits, and does not. *)
Example strftime_ymd_hm_samples :
  strftime_ymd_hm (Datetime 2024 1 1 0 0 0 (Some 0%Z)) = "2024-01-01 00:00"
  ∧ read_ymd_hm "2024-01-01 00:00" = Some (2024, 1, 1, 0, 0)%Z
  ∧ strftime_ymd_hm (Datetime 999 6 15 12 30 0 None) = "999-06-15 12:30"
  ∧ read_ymd_hm "999-06-15 12:30" = None.
Proof. repeat split. Qed.





(** The three records drawn: an empty [global_name] and a null one give
    way to the [username]; with neither name the default is shown, in
    the status summary and on every line of a feed. *)
Example names_shown :
  page (show_onboarding offline (λ _, mret tt) (λ _, mret tt) three_users
          empty_world).2 !! 1
  = Some (StSuccess [Lit "Connected: **"; Fmt (VStr "carol, dave, ?");
                     Lit "**"])
  ∧ page (display_messages offline (VList three_messages) "BOT"
            empty_world).2
    = [StChatMessage "user"
         [StCaption [Lit "**"; Fmt (VStr "carol"); Lit "** · "; Fmt (VStr "")];
          StMarkdown [Fmt (VStr "first")]];
       StChatMessage "user"
         [StCaption [Lit "**"; Fmt (VStr "dave"); Lit "** · "; Fmt (VStr "")];
          StMarkdown [Fmt (VStr "second")]];
       StChatMessage "user"
         [StCaption [Lit "**"; Fmt (VStr "Unknown"); Lit "** · "; Fmt (VStr "")];
          StMarkdown [Fmt (VStr "third")]]].
Proof. split; by vm_compute. Qed.

(** * Further properties *)

(** ** Migration *)

(** X1: [migrate_config] is idempotent on every configuration: whatever
    the first run returned, a second run, at any time and in any world,
    returns the same configuration and leaves the world as it is. *)
Theorem migrate_config_idempotent E (config : dict) w :
  ∃ config' w',
    migrate_config E config w = (Ok config', w')
    ∧ ∀ E' w'', migrate_config E' config' w'' = (Ok config', w'').
Proof.
  destruct (migrate_config_cases E config w) as [Hsame | (config' & Hrun & Hau)].
  - exists config, w. split; [done |]. intros E' w''.
    revert Hsame. unfold migrate_config.
    destruct (truthy _ && _) eqn:Hguard; [|done].
    intros Hsame. exfalso. injection Hsame as Hcfg Hw.
    assert (config !! "authorized_users" = None) as Hnone.
    { apply andb_prop in Hguard as [_ Hguard].
      apply negb_true_iff, bool_decide_eq_false in Hguard.
      by apply eq_None_not_Some. }
    rewrite <-Hcfg in Hnone.
    rewrite !lookup_delete_ne, lookup_insert_eq in Hnone; done.
  - exists config', (set_config_file (Some config') w). split; [done |].
    intros E' w''. by apply migrate_config_settled.
Qed.

(** X2: [migrate_config] touches four keys only: every other setting
    ([guild_id], [channel_id], [channel_name], ...) is in the returned
    configuration as it was. *)
Theorem migrate_config_keeps_other_settings E (config : dict) w config' w' k :
  migrate_config E config w = (Ok config', w') →
  ¬ migration_key k →
  config' !! k = config !! k.
Proof.
  intros Hrun Hk. unfold migration_key in Hk. revert Hrun.
  unfold migrate_config. destruct (truthy _ && _).
  - intros [= <- _]. rewrite !lookup_delete_ne, lookup_insert_ne; naive_solver.
  - by intros [= <- _].
Qed.

Lemma migrate_config_keeps_other_settings_witness :
  ∃ config' w',
    migrate_config offline (<["guild_id" := VStr "5"]> legacy_config)
      empty_world = (Ok config', w')
    ∧ config' !! "guild_id" = Some (VStr "5").
Proof.
  assert (¬ migration_key "guild_id") as Hkey.
  { unfold migration_key. intros [?|[?|[?|?]]]; discriminate. }
  destruct (migrate_config_cases offline
              (<["guild_id" := VStr "5"]> legacy_config) empty_world)
    as [Hrun | (config' & Hrun & _)];
    eexists _, _; (split; [exact Hrun |]);
    (etrans;
       [apply (migrate_config_keeps_other_settings _ _ _ _ _ _ Hrun Hkey)
       |reflexivity]).
Defined.

(** X3: the record made by the migration carries the legacy values: its
    [dm_channel_id] is the legacy [dm_channel_id], its [username] and its
    [global_name] are both the legacy [dm_username] (the empty string for
    a legacy value that is missing), its [authorized_at] is the time of
    the run; and the file saved holds the configuration returned. *)
Theorem migrate_config_record E (config : dict) w user_id :
  config !! "dm_user_id" = Some user_id →
  truthy user_id = true →
  config !! "authorized_users" = None →
  ∃ (config' record : dict),
    migrate_config E config w = (Ok config', set_config_file (Some config') w)
    ∧ config' !! "authorized_users" = Some (VList [VDict record])
    ∧ record !! "dm_channel_id"
      = Some (default (VStr "") (config !! "dm_channel_id"))
    ∧ record !! "username" = Some (default (VStr "") (config !! "dm_username"))
    ∧ record !! "global_name"
      = Some (default (VStr "") (config !! "dm_username"))
    ∧ record !! "authorized_at" = Some (VStr (utcnow E))
    ∧ dom record = {[ "id"; "username"; "global_name"; "dm_channel_id";
                      "authorized_at" ]}.
Proof.
  intros Hid Htrue Hau.
  unfold migrate_config at 1. unfold dict_get at 1. rewrite Hid. simpl.
  rewrite Htrue, Hau. simpl.
  eexists _, _. split; [reflexivity |].
  split; [rewrite !lookup_delete_ne by done; apply lookup_insert_eq |].
  unfold dict_get.
  repeat split;
    try (rewrite ?lookup_insert_ne by done; by rewrite lookup_insert_eq).
Qed.

Lemma migrate_config_record_witness :
  ∃ (config' record : dict),
    migrate_config offline legacy_config empty_world
      = (Ok config', set_config_file (Some config') empty_world)
    ∧ config' !! "authorized_users" = Some (VList [VDict record])
    ∧ record !! "dm_channel_id"
      = Some (default (VStr "") (legacy_config !! "dm_channel_id"))
    ∧ record !! "username"
      = Some (default (VStr "") (legacy_config !! "dm_username"))
    ∧ record !! "global_name"
      = Some (default (VStr "") (legacy_config !! "dm_username"))
    ∧ record !! "authorized_at" = Some (VStr (utcnow offline))
    ∧ dom record = {[ "id"; "username"; "global_name"; "dm_channel_id";
                      "authorized_at" ]}.
Proof.
  apply (migrate_config_record offline legacy_config empty_world (VStr "77"));
    reflexivity.
Defined.

(** ** Upsert, without the assumption of distinct ids *)

(** What [add_authorized_user] returns on a list of records: the first
    record whose id equals the new one is replaced, and with no such
    record the new one is appended. *)
Lemma add_authorized_user_first_match (config user_record : dict)
    (users : list value) (new_id : value) :
  dict_get config "authorized_users" (VList []) = VList users →
  Forall (λ u, is_Some (record_id u)) users →
  user_record !! "id" = Some new_id →
  (∃ k u x,
     users !! k = Some u ∧ record_id u = Some x ∧ py_eq x new_id = true
     ∧ no_match_before new_id users k
     ∧ add_authorized_user config user_record
       = Ok (<["authorized_users" := VList (<[k := VDict user_record]> users)]>
               config))
  ∨ ((∀ u x, u ∈ users → record_id u = Some x → py_eq x new_id = false)
     ∧ add_authorized_user config user_record
       = Ok (<["authorized_users" := VList (users ++ [VDict user_record])]>
               config)).
Proof.
  intros Hcfg Hrec Hnew. unfold add_authorized_user. rewrite Hcfg.
  destruct (list_find (λ u, has_id new_id u = true) users) as [[k u]|] eqn:Hfind.
  - left. apply list_find_Some in Hfind as (Hk & Hm & Hfirst).
    unfold has_id in Hm. destruct (record_id u) as [x|] eqn:Hu; [|done].
    assert (no_match_before new_id users k) as Hbefore.
    { intros j v y Hj Hv Hy. specialize (Hfirst j v Hv Hj).
      unfold has_id in Hfirst. rewrite Hy in Hfirst.
      by destruct (py_eq y new_id). }
    exists k, u, x. repeat split; try done.
    by rewrite (find_user_found user_record new_id Hnew users 0 Hrec k u x).
  - right. apply list_find_None in Hfind.
    assert (∀ u x, u ∈ users → record_id u = Some x → py_eq x new_id = false)
      as Hfresh.
    { intros u x Hin Hu. rewrite Forall_forall in Hfind.
      specialize (Hfind u Hin). unfold has_id in Hfind. rewrite Hu in Hfind.
      by destruct (py_eq x new_id). }
    split; [done |].
    by rewrite (find_user_missing user_record new_id Hnew users 0 Hrec Hfresh).
Qed.

(** X4: whatever the list holds (ids twice or more included),
    [add_authorized_user] replaces the first record whose id equals the
    new one and leaves every other place, later records of the same id
    included, as it was; with no record of that id it appends. *)
Theorem add_authorized_user_replaces_first (config user_record : dict)
    (users : list value) (new_id : value) :
  dict_get config "authorized_users" (VList []) = VList users →
  Forall (λ u, is_Some (record_id u)) users →
  user_record !! "id" = Some new_id →
  ∃ users',
    add_authorized_user config user_record
      = Ok (<["authorized_users" := VList users']> config)
    ∧ (∀ k u x,
         users !! k = Some u → record_id u = Some x → py_eq x new_id = true →
         no_match_before new_id users k →
         users' = <[k := VDict user_record]> users)
    ∧ ((∀ u x, u ∈ users → record_id u = Some x → py_eq x new_id = false) →
       users' = users ++ [VDict user_record]).
Proof.
  intros Hcfg Hrec Hnew.
  destruct (add_authorized_user_first_match config user_record users new_id
              Hcfg Hrec Hnew)
    as [(k & u & x & Hk & Hu & Hx & Hbefore & Hrun) | [Hfresh Hrun]].
  - eexists. split; [exact Hrun |]. split.
    + intros k' u' x' Hk' Hu' Hx' Hbefore'.
      assert (k' = k) as ->; [|done].
      destruct (Nat.lt_trichotomy k' k) as [Hlt | [-> | Hlt]]; [|done|].
      * by rewrite (Hbefore k' u' x' Hlt Hk' Hu') in Hx'.
      * by rewrite (Hbefore' k u x Hlt Hk Hu) in Hx.
    + intros Hfresh. rewrite (Hfresh u x) in Hx; [done | | done].
      apply list_elem_of_lookup. by exists k.
  - eexists. split; [exact Hrun |]. split; [|done].
    intros k u x Hk Hu Hx _. rewrite (Hfresh u x) in Hx; [done | | done].
    apply list_elem_of_lookup. by exists k.
Qed.

Lemma add_authorized_user_replaces_first_witness :
  ∃ users',
    add_authorized_user alice_twice alice'
      = Ok (<["authorized_users" := VList users']> alice_twice)
    ∧ (∀ k u x,
         [VDict bob; VDict alice; VDict alice] !! k = Some u →
         record_id u = Some x → py_eq x (VStr "1") = true →
         no_match_before (VStr "1") [VDict bob; VDict alice; VDict alice] k →
         users' = <[k := VDict alice']> [VDict bob; VDict alice; VDict alice])
    ∧ ((∀ u x, u ∈ [VDict bob; VDict alice; VDict alice] →
               record_id u = Some x → py_eq x (VStr "1") = false) →
       users' = [VDict bob; VDict alice; VDict alice] ++ [VDict alice']).
Proof.
  apply (add_authorized_user_replaces_first alice_twice alice'
           [VDict bob; VDict alice; VDict alice] (VStr "1")).
  - reflexivity.
  - repeat constructor; by eexists.
  - reflexivity.
Defined.

(** The list with the id "1" twice: the first of the two is replaced,
    the second stays. *)
Example add_authorized_user_duplicate :
  add_authorized_user alice_twice alice'
  = Ok (<["authorized_users" := VList [VDict bob; VDict alice'; VDict alice]]>
          alice_twice).
Proof. reflexivity. Qed.

(** X5: [add_authorized_user] changes the key [authorized_users] and no
    other: whenever it returns, every other key of the configuration is
    as it was. *)
Theorem add_authorized_user_other_keys (config user_record config' : dict) k :
  add_authorized_user config user_record = Ok config' →
  k ≠ "authorized_users" →
  config' !! k = config !! k.
Proof.
  unfold add_authorized_user. intros Hrun Hk.
  destruct (dict_get config "authorized_users" (VList []))
    as [| | |s|users|d]; try done.
  - by destruct (String.eqb s "").
  - destruct (find_user users user_record 0) as [[i|]|]; simpl in Hrun;
      simplify_eq; by rewrite lookup_insert_ne.
  - by destruct (bool_decide (d = ∅)).
Qed.

Lemma add_authorized_user_other_keys_witness :
  ∃ config',
    add_authorized_user two_users alice' = Ok config'
    ∧ config' !! "guild_id" = two_users !! "guild_id".
Proof.
  eexists. split; [reflexivity |].
  by apply (add_authorized_user_other_keys two_users alice').
Defined.

(** X6: upserting the same record twice is upserting it once. *)
Theorem add_authorized_user_twice (config user_record : dict)
    (users : list value) (new_id : value) :
  dict_get config "authorized_users" (VList []) = VList users →
  Forall (λ u, is_Some (record_id u)) users →
  user_record !! "id" = Some new_id →
  ∃ config',
    add_authorized_user config user_record = Ok config'
    ∧ add_authorized_user config' user_record = Ok config'.
Proof.
  intros Hcfg Hrec Hnew.
  assert (record_id (VDict user_record) = Some new_id) as Hrid by done.
  destruct (add_authorized_user_first_match config user_record users new_id
              Hcfg Hrec Hnew)
    as [(k & u & x & Hk & Hu & Hx & Hbefore & Hrun) | [Hfresh Hrun]].
  - eexists. split; [exact Hrun |].
    assert (k < length users) as Hlen by (by eapply lookup_lt_Some).
    destruct (add_authorized_user_first_match
                (<["authorized_users" := VList (<[k := VDict user_record]> users)]>
                   config)
                user_record (<[k := VDict user_record]> users) new_id)
      as [(k' & u' & x' & Hk' & Hu' & Hx' & Hbefore' & Hrun') | [Hfresh' _]];
      try done.
    + unfold dict_get. by rewrite lookup_insert_eq.
    + apply Forall_insert; [done | by eexists].
    + rewrite Hrun'. assert (k' = k) as ->.
      { destruct (Nat.lt_trichotomy k' k) as [Hlt | [-> | Hlt]]; [|done|].
        - rewrite list_lookup_insert_ne in Hk' by lia.
          by rewrite (Hbefore k' u' x' Hlt Hk' Hu') in Hx'.
        - assert (py_eq new_id new_id = false) as H.
          { apply (Hbefore' k (VDict user_record) new_id Hlt); [|done].
            by apply list_lookup_insert_eq. }
          by rewrite py_eq_refl in H. }
      by rewrite list_insert_insert_eq, insert_insert_eq.
    + assert (py_eq new_id new_id = false) as H.
      { apply (Hfresh' (VDict user_record) new_id); [|done].
        apply list_elem_of_lookup. exists k. by apply list_lookup_insert_eq. }
      by rewrite py_eq_refl in H.
  - eexists. split; [exact Hrun |].
    destruct (add_authorized_user_first_match
                (<["authorized_users" := VList (users ++ [VDict user_record])]>
                   config)
                user_record (users ++ [VDict user_record]) new_id)
      as [(k' & u' & x' & Hk' & Hu' & Hx' & Hbefore' & Hrun') | [Hfresh' _]];
      try done.
    + unfold dict_get. by rewrite lookup_insert_eq.
    + apply Forall_app. split; [done |]. repeat constructor. by eexists.
    + rewrite Hrun'. assert (k' = length users) as ->.
      { apply lookup_app_Some in Hk' as [Hk' | [? Hk']].
        - rewrite (Hfresh u' x') in Hx'; [done | | done].
          apply list_elem_of_lookup. by exists k'.
        - apply list_lookup_singleton_Some in Hk' as [? _]. lia. }
      rewrite insert_insert_eq. do 2 f_equal.
      rewrite insert_app_r_alt by lia. by rewrite Nat.sub_diag.
    + assert (py_eq new_id new_id = false) as H.
      { apply (Hfresh' (VDict user_record) new_id); [|done].
        apply elem_of_app. right. by left. }
      by rewrite py_eq_refl in H.
Qed.

Lemma add_authorized_user_twice_witness :
  ∃ config',
    add_authorized_user two_users alice' = Ok config'
    ∧ add_authorized_user config' alice' = Ok config'.
Proof.
  apply (add_authorized_user_twice two_users alice'
           [VDict alice; VDict bob] (VStr "1")).
  - reflexivity.
  - repeat constructor; by eexists.
  - reflexivity.
Defined.

(** X7: a new record that has no [id]: on an empty list (or with no
    [authorized_users] key) it is appended all the same, the loop body
    never runs; on a list whose first entry is a record with an id, the
    comparison raises [KeyError]. *)
Theorem add_authorized_user_without_id (config user_record : dict) :
  user_record !! "id" = None →
  (dict_get config "authorized_users" (VList []) = VList [] →
   add_authorized_user config user_record
   = Ok (<["authorized_users" := VList [VDict user_record]]> config))
  ∧ (∀ u users x,
       dict_get config "authorized_users" (VList []) = VList (u :: users) →
       record_id u = Some x →
       add_authorized_user config user_record = Raise (KeyError "id")).
Proof.
  intros Hnone. split.
  - intros Hcfg. unfold add_authorized_user. by rewrite Hcfg.
  - intros u users x Hcfg Hu. unfold add_authorized_user. rewrite Hcfg.
    simpl. rewrite (getitem_record_id u x Hu). simpl.
    unfold dict_getitem, getitem. by rewrite Hnone.
Qed.

Lemma add_authorized_user_without_id_witness :
  add_authorized_user ∅ eve = Ok (<["authorized_users" := VList [VDict eve]]> ∅)
  ∧ add_authorized_user two_users eve = Raise (KeyError "id").
Proof.
  assert (eve !! "id" = None) as Hnone by reflexivity.
  destruct (add_authorized_user_without_id ∅ eve Hnone) as [Hempty _].
  destruct (add_authorized_user_without_id two_users eve Hnone) as [_ Hfull].
  split.
  - by apply Hempty.
  - apply (Hfull (VDict alice) [VDict bob] (VStr "1")); reflexivity.
Defined.

Lemma find_user_bad_entry (user_record : dict) new_id good bad rest i :
  user_record !! "id" = Some new_id →
  Forall (λ u, is_Some (record_id u)) good →
  (∀ u x, u ∈ good → record_id u = Some x → py_eq x new_id = false) →
  record_id bad = None →
  find_user (good ++ bad :: rest) user_record i
  = Raise (match bad with VDict _ => KeyError "id" | _ => TypeError end).
Proof.
  intros Hnew Hgood. revert i.
  induction Hgood as [|u good [x Hx] _ IH]; intros i Hfresh Hbad.
  - simpl. destruct bad as [| | | | |d]; try done. simpl in *. by rewrite Hbad.
  - simpl. rewrite (getitem_record_id u x Hx). simpl.
    unfold dict_getitem, getitem. rewrite Hnew. simpl.
    rewrite (Hfresh u x) by (done || by left).
    apply IH; [|done]. intros v y ?. apply Hfresh. by right.
Qed.

(** X8: a stored list that is not as it should be makes the upsert
    raise, and nothing is returned: an entry without an [id] met before
    any record of the new id raises [KeyError] (a [TypeError] if the
    entry is not an object), and an [authorized_users] that is null, a
    number or a boolean raises [TypeError]. *)
Theorem add_authorized_user_malformed_list (config user_record : dict) new_id :
  user_record !! "id" = Some new_id →
  (∀ good bad rest,
     dict_get config "authorized_users" (VList []) = VList (good ++ bad :: rest) →
     Forall (λ u, is_Some (record_id u)) good →
     (∀ u x, u ∈ good → record_id u = Some x → py_eq x new_id = false) →
     record_id bad = None →
     add_authorized_user config user_record
     = Raise (match bad with VDict _ => KeyError "id" | _ => TypeError end))
  ∧ (∀ v,
       dict_get config "authorized_users" (VList []) = v →
       v = VNone ∨ (∃ n, v = VInt n) ∨ (∃ b, v = VBool b) →
       add_authorized_user config user_record = Raise TypeError).
Proof.
  intros Hnew. split.
  - intros good bad rest Hcfg Hgood Hfresh Hbad.
    unfold add_authorized_user. rewrite Hcfg.
    by rewrite (find_user_bad_entry user_record new_id good bad rest 0).
  - intros v Hcfg Hv. unfold add_authorized_user. rewrite Hcfg.
    by destruct Hv as [-> | [[n ->] | [b ->]]].
Qed.

Lemma add_authorized_user_malformed_list_witness :
  add_authorized_user list_with_eve alice = Raise (KeyError "id")
  ∧ add_authorized_user null_users alice = Raise TypeError.
Proof.
  assert (alice !! "id" = Some (VStr "1")) as Hid by reflexivity.
  destruct (add_authorized_user_malformed_list list_with_eve alice (VStr "1")
              Hid) as [Hentry _].
  destruct (add_authorized_user_malformed_list null_users alice (VStr "1") Hid)
    as [_ Hnull].
  split.
  - apply (Hentry [VDict bob] (VDict eve) []).
    + reflexivity.
    + repeat constructor. by eexists.
    + intros u x Hu Hx. apply list_elem_of_singleton in Hu as ->.
      by injection Hx as <-.
    + reflexivity.
  - apply (Hnull VNone); [reflexivity | by left].
Defined.

(** ** The calls on the remote API *)

Lemma checked_call_logged E req w r w' :
  (resp ← http E req; _ ← lift (raise_for_status resp); lift (resp_json resp)) w
  = (r, w') →
  w' = logged req w.
Proof.
  unfold mbind, M_bind, http, lift.
  destruct (remote E (net_log w) req); [|by intros [= _ <-]].
  destruct (raise_for_status _); by intros [= _ <-].
Qed.

Lemma get_guild_channels_logged E token guild_id w r w' :
  get_guild_channels E token guild_id w = (r, w') →
  w' = logged (channels_call token guild_id) w.
Proof.
  unfold get_guild_channels, discord_request, channels_call.
  cbv beta iota zeta delta [mbind M_bind http lift].
  destruct (remote E (net_log w) _); [|by intros [= _ <-]].
  destruct (raise_for_status _); [|by intros [= _ <-]].
  destruct (resp_json _); by intros [= _ <-].
Qed.

(** X9: each helper that calls the remote side makes exactly one
    request, with a timeout of 10 seconds, whatever the answer, and
    touches nothing else: the settings file, the page, the query
    parameters and the session state are as before, also when it
    raises. *)
Theorem api_helpers_one_request E w :
  (∀ token guild_id r w',
     get_guild_channels E token guild_id w = (r, w') →
     w' = logged (channels_call token guild_id) w)
  ∧ (∀ token channel_id content r w',
       send_message E token channel_id content w = (r, w') →
       w' = logged (send_call token channel_id content) w)
  ∧ (∀ token user_id r w',
       open_dm_channel E token user_id w = (r, w') →
       w' = logged (dm_call token user_id) w)
  ∧ (∀ token channel_id limit r w',
       get_messages E token channel_id limit w = (r, w') →
       w' = logged (messages_call token channel_id limit) w)
  ∧ (∀ code client_id client_secret redirect_uri r w',
       exchange_code_for_token E code client_id client_secret redirect_uri w
       = (r, w') →
       w' = logged (token_call code client_id client_secret redirect_uri) w)
  ∧ (∀ access_token r w',
       get_oauth_user E access_token w = (r, w') →
       w' = logged (identity_call access_token) w)
  ∧ (∀ method endpoint token payload,
       req_timeout (discord_call method endpoint token payload) = 10%Z)
  ∧ (∀ code client_id client_secret redirect_uri,
       req_timeout (token_call code client_id client_secret redirect_uri)
       = 10%Z)
  ∧ (∀ access_token, req_timeout (identity_call access_token) = 10%Z).
Proof.
  repeat split.
  - intros token guild_id r w'. apply get_guild_channels_logged.
  - intros token channel_id content r w'.
    unfold send_message, discord_request, http, send_call.
    destruct (remote E (net_log w) _); by intros [= _ <-].
  - intros token user_id r w'. apply checked_call_logged.
  - intros token channel_id limit r w'. apply checked_call_logged.
  - intros code client_id client_secret redirect_uri r w'.
    apply checked_call_logged.
  - intros access_token r w'. apply checked_call_logged.
Qed.

Lemma api_helpers_one_request_witness :
  ∃ r,
    get_messages (sample_env (λ _, Answer forbidden)) "bot-token" "42" 25
      returning_visitor
    = (r, logged (messages_call "bot-token" "42" 25) returning_visitor).
Proof.
  destruct (get_messages (sample_env (λ _, Answer forbidden)) "bot-token" "42"
              25 returning_visitor) as [r w'] eqn:Hrun.
  exists r. f_equal.
  destruct (api_helpers_one_request (sample_env (λ _, Answer forbidden))
              returning_visitor) as (_ & _ & _ & Hmessages & _).
  by apply (Hmessages "bot-token" "42" 25%Z r w').
Defined.

Lemma filter_comprehension_untyped (good : list value) bad rest :
  Forall has_type good → ¬ has_type bad →
  filter_comprehension (λ ch, t ← getitem ch "type"; Ok (py_eq t (VInt 0)))
    (good ++ bad :: rest)
  = Raise (match bad with VDict _ => KeyError "type" | _ => TypeError end).
Proof.
  intros Hgood Hbad. induction Hgood as [|ch good Hch _ IH].
  - simpl. destruct bad as [| | | | |d]; try done. simpl in *.
    destruct (d !! "type"); [by destruct Hbad | done].
  - simpl. rewrite IH. destruct ch as [| | | | |d]; try done. simpl in Hch.
    destruct Hch as [t Ht]. simpl. by rewrite Ht.
Qed.

(** X10: how [get_guild_channels] fails.  A failure of the network layer
    raises the request exception; a body that is not JSON raises the
    decode error; and in a list of channels, an entry without a [type]
    (text channel or not, its [type] is read before anything is known of
    it) raises [KeyError], or [TypeError] if the entry is not an object. *)
Theorem get_guild_channels_failures E token guild_id w :
  (∀ msg,
     remote E (net_log w) (channels_call token guild_id) = NetFail msg →
     get_guild_channels E token guild_id w
     = (Raise (RequestException msg), logged (channels_call token guild_id) w))
  ∧ (∀ resp,
       remote E (net_log w) (channels_call token guild_id) = Answer resp →
       ¬ (400 ≤ status_code resp < 600)%Z →
       (json_body resp = None →
        get_guild_channels E token guild_id w
        = (Raise JSONDecodeError, logged (channels_call token guild_id) w))
       ∧ (∀ good bad rest,
            json_body resp = Some (VList (good ++ bad :: rest)) →
            Forall has_type good → ¬ has_type bad →
            get_guild_channels E token guild_id w
            = (Raise (match bad with
                      | VDict _ => KeyError "type"
                      | _ => TypeError
                      end),
               logged (channels_call token guild_id) w))).
Proof.
  split.
  - intros msg Hremote. unfold get_guild_channels, discord_request.
    fold (channels_call token guild_id).
    unfold mbind at 1. unfold M_bind. by rewrite (http_fail _ _ _ _ Hremote).
  - intros resp Hremote Hstatus.
    assert (∀ k : response → M (list value),
              (resp ← http E (channels_call token guild_id); k resp) w
              = k resp (logged (channels_call token guild_id) w)) as Hstep.
    { intros k. unfold mbind, M_bind. by rewrite (http_answer _ _ _ _ Hremote). }
    unfold get_guild_channels, discord_request.
    fold (channels_call token guild_id). rewrite Hstep.
    unfold mbind at 1 2. unfold M_bind, lift.
    rewrite (raise_for_status_pass _ Hstatus). unfold resp_json.
    cbv beta iota.
    split.
    + by intros ->.
    + intros good bad rest -> Hgood Hbad.
      unfold mbind at 1 2. unfold M_bind. cbv beta iota.
      change (iter (VList (good ++ bad :: rest))) with (Ok (good ++ bad :: rest)).
      unfold mbind at 1. unfold outcome_bind at 1. cbv beta iota.
      by rewrite (filter_comprehension_untyped good bad rest Hgood Hbad).
Qed.

Lemma get_guild_channels_failures_witness :
  get_guild_channels offline "bot-token" "5" empty_world
  = (Raise (RequestException "connection refused"),
     logged (channels_call "bot-token" "5") empty_world)
  ∧ get_guild_channels (sample_env (λ _, Answer untyped_channels))
      "bot-token" "5" empty_world
    = (Raise (KeyError "type"),
       logged (channels_call "bot-token" "5") empty_world).
Proof.
  split.
  - by apply (get_guild_channels_failures offline "bot-token" "5" empty_world).
  - destruct (get_guild_channels_failures
                (sample_env (λ _, Answer untyped_channels)) "bot-token" "5"
                empty_world) as [_ H].
    destruct (H untyped_channels eq_refl) as [_ Hentry]; [simpl; lia |].
    apply (Hentry [ch_general] (VDict {[ "id" := VStr "14" ]}) [ch_rules]).
    + reflexivity.
    + repeat constructor. by eexists.
    + by intros [? ?].
Defined.

(** ** What [send_and_report] lets through *)

(** X11: [send_and_report] returns, with exactly one notice drawn, in
    every case but one: a text that is not blank, answered with status
    429 and a JSON body that is not an object.  There [.get] raises
    [AttributeError], which no clause catches: the exception leaves the
    function with the request made and nothing drawn.  (A 429 whose body
    is an object or not JSON at all is reported like any other
    outcome.) *)
Theorem send_and_report_escape E token channel_id content w :
  let req := send_call token channel_id content in
  let run := send_and_report E token channel_id content w in
  ((∃ notice, run.1 = Ok tt ∧ page run.2 = page w ++ [notice])
   ∨ run = (Raise AttributeError, logged req w))
  ∧ (∀ resp body,
       ¬ all_whitespace content →
       remote E (net_log w) req = Answer resp →
       status_code resp = 429%Z →
       json_body resp = Some body →
       (∀ d, body ≠ VDict d) →
       run = (Raise AttributeError, logged req w))
  ∧ (run.1 = Raise AttributeError →
     ¬ all_whitespace content
     ∧ ∃ resp body,
         remote E (net_log w) req = Answer resp
         ∧ status_code resp = 429%Z
         ∧ json_body resp = Some body
         ∧ ∀ d, body ≠ VDict d).
Proof.
  intros req run. subst req run.
  destruct (truthy (VStr (strip content))) eqn:Htext.
  - assert (¬ all_whitespace content) as Hblank.
    { intros H. apply blank_iff in H. congruence. }
    unfold send_and_report. rewrite Htext.
    cbv beta iota zeta delta [negb try_except send_message discord_request http
                         send_call mbind M_bind].
    destruct (remote E (net_log w) _) as [resp | msg] eqn:Hremote.
    + destruct (status_code resp =? 200)%Z eqn:H200.
      { split; [left; by eexists |]. split; [|done].
        intros resp' body _ [= <-] Hs. apply Z.eqb_eq in H200. lia. }
      destruct (status_code resp =? 429)%Z eqn:H429.
      * apply Z.eqb_eq in H429. unfold lift, resp_json.
        destruct (json_body resp) as [body|] eqn:Hbody.
        -- destruct body as [| | | | |d];
             try (split; [by right |];
                  split; [done |];
                  intros _; split; [done |];
                  exists resp; eexists; by repeat split).
           split; [left; by eexists |]. split; [|done].
           intros resp' body _ [= <-] _ Hb Hd. rewrite Hbody in Hb.
           injection Hb as <-. by destruct (Hd d).
        -- split; [left; by eexists |]. split; [|done].
           intros resp' body _ [= <-] _ Hb. congruence.
      * assert (status_code resp ≠ 429%Z) as Hs by by apply Z.eqb_neq.
        split; [|split].
        -- left. destruct (status_code resp =? 403)%Z,
                   (status_code resp =? 404)%Z; by eexists.
        -- by intros resp' body _ [= <-] ?.
        -- by destruct (status_code resp =? 403)%Z,
                 (status_code resp =? 404)%Z.
    + split; [left; by eexists |]. split; [|done]. by intros resp' body _ [=].
  - assert (all_whitespace content) as Hblank by by apply blank_iff.
    unfold send_and_report. rewrite Htext.
    split; [left; by eexists |]. split; [|done].
    by intros resp body H.
Qed.

Lemma send_and_report_escape_witness :
  send_and_report (sample_env (λ _, Answer rate_limited_list))
    "bot-token" "42" "hello" empty_world
  = (Raise AttributeError,
     logged (send_call "bot-token" "42" "hello") empty_world).
Proof.
  destruct (send_and_report_escape (sample_env (λ _, Answer rate_limited_list))
              "bot-token" "42" "hello" empty_world) as (_ & Hescape & _).
  apply (Hescape rate_limited_list (VList [])); try done.
  rewrite <-strip_empty_iff. by vm_compute.
Defined.

(** ** What the feed does to the world *)

Lemma draws_only_lift {A} (o : outcome A) : draws_only (lift o).
Proof.
  intros w r w' [= _ <-]. exists []. rewrite app_nil_r. by destruct w.
Qed.

Lemma draws_only_draw x : draws_only (draw x).
Proof. intros w r w' [= _ <-]. by exists [x]. Qed.

Lemma draws_only_bind {A B} (m : M A) (k : A → M B) :
  draws_only m → (∀ a, draws_only (k a)) → draws_only (m ≫= k).
Proof.
  intros Hm Hk w r w'. unfold mbind, M_bind.
  destruct (m w) as [[a | e] w1] eqn:Hrun.
  - destruct (Hm _ _ _ Hrun) as [lines ->]. intros Hrest.
    destruct (Hk _ _ _ _ Hrest) as [lines' ->].
    exists (lines ++ lines'). rewrite set_page_set_page. simpl.
    by rewrite app_assoc.
  - intros [= _ <-]. by apply (Hm _ _ _ Hrun).
Qed.

Lemma draws_only_within {A} container (m : M A) :
  draws_only m → draws_only (within container m).
Proof.
  intros Hm w r w'. unfold within.
  destruct (m (set_page [] w)) as [r1 w1] eqn:Hrun.
  destruct (Hm _ _ _ Hrun) as [lines ->]. intros [= _ <-].
  eexists. rewrite !set_page_set_page. reflexivity.
Qed.

Lemma draws_only_for_each {A} (l : list A) (f : A → M unit) :
  (∀ x, draws_only (f x)) → draws_only (for_each l f).
Proof.
  intros Hf. induction l as [|x l IH].
  - intros w r w' [= _ <-]. exists []. rewrite app_nil_r. by destruct w.
  - simpl. by apply draws_only_bind.
Qed.

Lemma draws_only_display_message E bot_id msg :
  draws_only (display_message E bot_id msg).
Proof.
  unfold display_message.
  repeat (apply draws_only_bind; [apply draws_only_lift | intros ?]).
  apply draws_only_within.
  apply draws_only_bind; [apply draws_only_draw | intros _].
  apply draws_only_bind; [apply draws_only_lift | intros ?].
  apply draws_only_draw.
Qed.

Lemma draws_only_display_messages E messages bot_id :
  draws_only (display_messages E messages bot_id).
Proof.
  unfold display_messages. destruct (negb (truthy messages)).
  - apply draws_only_draw.
  - apply draws_only_bind; [apply draws_only_lift | intros l].
    apply draws_only_for_each. intros msg. apply draws_only_display_message.
Qed.

(** X12: whatever it is given, and whether it returns or raises,
    [display_messages] does nothing but draw: no request, no change to
    the settings file, the query parameters or the session state, and
    what was on the page stays there, in front of what is added. *)
Theorem display_messages_draws_only E messages bot_id :
  draws_only (display_messages E messages bot_id).
Proof. apply draws_only_display_messages. Qed.

Lemma for_each_app {A} (l1 l2 : list A) (f : A → M unit) w :
  for_each (l1 ++ l2) f w = (_ ← for_each l1 f; for_each l2 f) w.
Proof.
  revert w. induction l1 as [|x l1 IH]; intros w; [done |].
  simpl. unfold mbind, M_bind. destruct (f x w) as [[[] | e] w1]; [|done].
  apply IH.
Qed.

Lemma display_message_undrawable E bot_id msg w :
  undrawable msg →
  display_message E bot_id msg w = (Raise AttributeError, w).
Proof.
  intros Hbad. unfold display_message.
  cbv beta iota zeta delta [mbind M_bind lift].
  destruct msg as [| | | | |d]; try done. simpl in Hbad.
  unfold get at 1. cbv beta iota.
  destruct (dict_get d "author" (VDict ∅)) as [| | | | |a] eqn:Ha; try done.
  by destruct (Hbad a).
Qed.

(** X13: one message the feed cannot draw (its [author] is null, say)
    stops the feed where it stands.  The messages come newest first and
    are drawn oldest first: the ones older than the bad one are drawn as
    usual, then [AttributeError] leaves [display_messages]; the bad
    message and the newer ones draw nothing. *)
Theorem display_messages_stops_at_bad_message E bot_id newer bad older w :
  undrawable bad →
  Forall (message_ok E) older →
  ∃ lines,
    display_messages E (VList (newer ++ bad :: older)) bot_id w
    = (Raise AttributeError, set_page (page w ++ lines) w)
    ∧ Forall2 (renders_as E bot_id) (rev older) lines.
Proof.
  intros Hbad Hok.
  destruct (for_each_display E bot_id (rev older) w) as (lines & Hrun & Hlines).
  { by apply Forall_rev. }
  exists lines. split; [|done].
  unfold display_messages.
  assert (truthy (VList (newer ++ bad :: older)) = true) as ->.
  { simpl. rewrite bool_decide_eq_false_2; [done |]. by destruct newer. }
  cbv beta iota zeta delta [negb py_reversed lift].
  unfold mbind at 1. unfold M_bind at 1. cbv beta iota.
  rewrite rev_app_distr. simpl rev. rewrite <-app_assoc.
  rewrite for_each_app. unfold mbind at 1. unfold M_bind at 1.
  rewrite Hrun. simpl app. simpl for_each. unfold mbind at 1. unfold M_bind at 1.
  by rewrite (display_message_undrawable _ _ _ _ Hbad).
Qed.

Lemma display_messages_stops_at_bad_message_witness :
  ∃ lines,
    display_messages (sample_env (λ _, Answer forbidden))
      (VList [hello_from_carol; orphan_message; hi_from_bot]) "900" empty_world
    = (Raise AttributeError,
       set_page (page empty_world ++ lines) empty_world)
    ∧ Forall2 (renders_as (sample_env (λ _, Answer forbidden)) "900")
        [hi_from_bot] lines.
Proof.
  apply (display_messages_stops_at_bad_message
           (sample_env (λ _, Answer forbidden)) "900"
           [hello_from_carol] orphan_message [hi_from_bot] empty_world).
  - intros a. by vm_compute.
  - repeat constructor; eexists; (split; [reflexivity |]);
      (split; eexists; by vm_compute).
Defined.

(** ** The authorization link *)

Lemma occurrences_app c s t :
  occurrences c (s +:+ t) = occurrences c s + occurrences c t.
Proof.
  induction s as [|x s IH]; [done |].
  rewrite append_cons. simpl. rewrite IH. lia.
Qed.

Lemma hex_digit_unreserved n : n < 16 → unreserved (hex_digit n) = true.
Proof.
  intros Hn.
  do 16 (destruct n as [|n]; [reflexivity |]). lia.
Qed.

Lemma occurrences_cons c x s :
  occurrences c (String x s) = (if Ascii.eqb x c then 1 else 0) + occurrences c s.
Proof. reflexivity. Qed.

Lemma quote_plus_cons x s :
  quote_plus (String x s)
  = if unreserved x then String x (quote_plus s)
    else if Ascii.eqb x " " then String "+" (quote_plus s)
    else String "%" (String (hex_digit (nat_of_ascii x / 16))
                       (String (hex_digit (nat_of_ascii x mod 16))
                          (quote_plus s))).
Proof. reflexivity. Qed.

Lemma quote_plus_no_separator c s :
  unreserved c = false → c ≠ "+"%char → c ≠ "%"%char →
  occurrences c (quote_plus s) = 0.
Proof.
  intros Hc Hplus Hpercent. induction s as [|x s IH]; [done |].
  assert (∀ y, unreserved y = true → Ascii.eqb y c = false) as Hkept.
  { intros y Hy. apply Ascii.eqb_neq. intros ->. congruence. }
  rewrite quote_plus_cons. destruct (unreserved x) eqn:Hx.
  - by rewrite occurrences_cons, (Hkept x Hx), IH.
  - destruct (Ascii.eqb x " ").
    + rewrite occurrences_cons, IH.
      by rewrite (proj2 (Ascii.eqb_neq "+" c)).
    + rewrite !occurrences_cons, IH.
      assert (nat_of_ascii x < 256) as Hbound by apply nat_ascii_bounded.
      rewrite (proj2 (Ascii.eqb_neq "%" c)) by done.
      rewrite !Hkept; [done | |].
      * apply hex_digit_unreserved. by apply Nat.mod_upper_bound.
      * apply hex_digit_unreserved. apply Nat.Div0.div_lt_upper_bound. lia.
Qed.

Lemma quote_plus_digits d :
  quote_plus (NilEmpty.string_of_uint d) = NilEmpty.string_of_uint d.
Proof.
  induction d as [|d IH|d IH|d IH|d IH|d IH|d IH|d IH|d IH|d IH|d IH];
    [done | ..];
    simpl NilEmpty.string_of_uint; rewrite quote_plus_cons, IH;
    reflexivity.
Qed.

Lemma quote_plus_uint d :
  quote_plus (NilZero.string_of_uint d) = NilZero.string_of_uint d.
Proof. destruct d; [done | apply quote_plus_digits ..]. Qed.

Lemma quote_plus_str_of_int n : quote_plus (str_of_int n) = str_of_int n.
Proof.
  unfold str_of_int. destruct (Z.to_int n) as [d | d].
  - apply quote_plus_uint.
  - simpl NilZero.string_of_int. rewrite quote_plus_cons, quote_plus_uint.
    reflexivity.
Qed.

(** X14: the link [generate_auth_url] builds.  Without permissions it is
    the authorization address followed by the four parameters in their
    order, each value through [quote_plus]; with permissions, the same
    link followed by [&permissions=] and the number in decimal, as it
    is.  Whatever the client id, the redirect address and the scope
    contain, the link has one [?], no [#], and [&] and [=] only where
    the parameters are joined: three and four of them, one more of each
    with permissions. *)
Theorem generate_auth_url_query client_id redirect_uri scope :
  generate_auth_url client_id redirect_uri scope None
  = "https://discord.com/oauth2/authorize?client_id=" +:+ quote_plus client_id
    +:+ "&redirect_uri=" +:+ quote_plus redirect_uri
    +:+ "&response_type=code&scope=" +:+ quote_plus scope
  ∧ (∀ p,
       generate_auth_url client_id redirect_uri scope (Some p)
       = generate_auth_url client_id redirect_uri scope None
         +:+ "&permissions=" +:+ str_of_int p)
  ∧ ∀ permissions,
      let url := generate_auth_url client_id redirect_uri scope permissions in
      occurrences "?" url = 1
      ∧ occurrences "#" url = 0
      ∧ occurrences "&" url = match permissions with Some _ => 4 | None => 3 end
      ∧ occurrences "=" url = match permissions with Some _ => 5 | None => 4 end.
Proof.
  assert (generate_auth_url client_id redirect_uri scope None
          = "https://discord.com/oauth2/authorize?client_id="
            +:+ quote_plus client_id
            +:+ "&redirect_uri=" +:+ quote_plus redirect_uri
            +:+ "&response_type=code&scope=" +:+ quote_plus scope) as Hplain.
  { unfold generate_auth_url, urlencode. simpl map. simpl String.concat.
    change (quote_plus "client_id") with "client_id".
    change (quote_plus "redirect_uri") with "redirect_uri".
    change (quote_plus "response_type") with "response_type".
    change (quote_plus "scope") with "scope".
    change (quote_plus "code") with "code".
    rewrite !append_assoc. reflexivity. }
  assert (∀ p, generate_auth_url client_id redirect_uri scope (Some p)
               = generate_auth_url client_id redirect_uri scope None
                 +:+ "&permissions=" +:+ str_of_int p) as Hperm.
  { intros p. rewrite Hplain.
    unfold generate_auth_url, urlencode. simpl map. simpl String.concat.
    change (quote_plus "client_id") with "client_id".
    change (quote_plus "redirect_uri") with "redirect_uri".
    change (quote_plus "response_type") with "response_type".
    change (quote_plus "scope") with "scope".
    change (quote_plus "code") with "code".
    change (quote_plus "permissions") with "permissions".
    rewrite quote_plus_str_of_int.
    rewrite !append_assoc. reflexivity. }
  split; [done |]. split; [done |].
  assert (∀ c, unreserved c = false → c ≠ "+"%char → c ≠ "%"%char →
               occurrences c (generate_auth_url client_id redirect_uri scope None)
               = occurrences c "https://discord.com/oauth2/authorize?client_id=&redirect_uri=&response_type=code&scope=")
    as Hcount.
  { intros c H1 H2 H3. rewrite Hplain, !occurrences_app.
    rewrite !(quote_plus_no_separator c) by done.
    change "https://discord.com/oauth2/authorize?client_id=&redirect_uri=&response_type=code&scope="
      with ("https://discord.com/oauth2/authorize?client_id=" +:+
            ("&redirect_uri=" +:+ "&response_type=code&scope=")).
    rewrite !occurrences_app. lia. }
  intros [p|] url; subst url.
  - rewrite Hperm, !occurrences_app.
    rewrite <-(quote_plus_str_of_int p).
    rewrite !(quote_plus_no_separator _ (str_of_int p)) by done.
    rewrite !Hcount by done. by vm_compute.
  - rewrite !Hcount by done. by vm_compute.
Qed.

(** The links of the wizard, for the sample settings. *)
Example generate_auth_url_sample :
  generate_auth_url "1234" "http://localhost:8501" "bot identify" (Some 68608%Z)
  = "https://discord.com/oauth2/authorize?client_id=1234&redirect_uri=http%3A%2F%2Flocalhost%3A8501&response_type=code&scope=bot+identify&permissions=68608".
Proof. reflexivity. Qed.

(** ** The callback handler *)

Lemma only_requests_refl w : only_requests w w.
Proof. exists []. rewrite app_nil_r. by destruct w. Qed.

Lemma only_requests_trans w1 w2 w3 :
  only_requests w1 w2 → only_requests w2 w3 → only_requests w1 w3.
Proof.
  intros [r1 ->] [r2 ->]. exists (r1 ++ r2). destruct w1; simpl.
  unfold set_net_log. simpl. by rewrite app_assoc.
Qed.

Lemma quiet_lift {A} (o : outcome A) :
  (∀ e, o = Raise e → plain_error e) → quiet (lift o).
Proof.
  intros Ho w r w' [= <- <-]. split; [apply only_requests_refl |].
  intros e He. left. by apply Ho.
Qed.

Lemma quiet_bind {A B} (m : M A) (k : A → M B) :
  quiet m → (∀ a, quiet (k a)) → quiet (m ≫= k).
Proof.
  intros Hm Hk w r w'. unfold mbind, M_bind.
  destruct (m w) as [[a | e] w1] eqn:Hrun.
  - destruct (Hm _ _ _ Hrun) as [H1 _]. intros Hrest.
    destruct (Hk _ _ _ _ Hrest) as [H2 He]. split; [|done].
    by apply (only_requests_trans _ w1).
  - intros [= <- <-]. destruct (Hm _ _ _ Hrun) as [H1 He]. split; [done |].
    intros e' [= <-]. by apply He.
Qed.

Lemma quiet_checked E req :
  quiet (resp ← http E req;
         _ ← lift (raise_for_status resp);
         lift (resp_json resp)).
Proof.
  intros w r w'. unfold mbind, M_bind, http, lift.
  assert (only_requests w (set_net_log (net_log w ++ [req]) w)) as Hlog
    by by exists [req].
  destruct (remote E (net_log w) req) as [resp | msg].
  - unfold raise_for_status.
    destruct ((400 <=? status_code resp)%Z && (status_code resp <? 600)%Z).
    + intros [= <- <-]. split; [done |]. intros e [= <-]. by right.
    + unfold resp_json. destruct (json_body resp).
      * intros [= <- <-]. by split.
      * intros [= <- <-]. split; [done |]. intros e [= <-]. by right.
  - intros [= <- <-]. split; [done |]. intros e [= <-]. by right.
Qed.

Lemma getitem_plain v k e : getitem v k = Raise e → plain_error e.
Proof.
  destruct v as [| | | | |d]; simpl; try (intros [= <-]; by left).
  destruct (d !! k); [done |]. intros [= <-]. right. right. by eexists.
Qed.

Lemma get_plain v k dflt e : get v k dflt = Raise e → plain_error e.
Proof.
  destruct v; simpl; try done; intros [= <-]; right; by left.
Qed.

Lemma display_name_plain u dflt e :
  display_name u dflt = Raise e → plain_error e.
Proof.
  unfold display_name.
  destruct u as [| | | | |d]; simpl; try (intros [= <-]; right; by left).
  by destruct (truthy _).
Qed.

Lemma find_user_plain users user_record i e :
  find_user users user_record i = Raise e → plain_error e.
Proof.
  revert i. induction users as [|u users IH]; intros i; [done |].
  simpl. destruct (getitem u "id") as [uid | e1] eqn:Hu; simpl.
  - destruct (dict_getitem user_record "id") as [rid | e2] eqn:Hr; simpl.
    + destruct (py_eq uid rid); [done | apply IH].
    + intros [= <-]. by apply (getitem_plain _ _ _ Hr).
  - intros [= <-]. by apply (getitem_plain _ _ _ Hu).
Qed.

Lemma add_authorized_user_plain config user_record e :
  add_authorized_user config user_record = Raise e → plain_error e.
Proof.
  unfold add_authorized_user.
  destruct (dict_get config "authorized_users" (VList [])) as [| | |s|users|d].
  - intros [= <-]. by left.
  - intros [= <-]. by left.
  - intros [= <-]. by left.
  - destruct (String.eqb s ""); intros [= <-]; [right |]; by left.
  - destruct (find_user users user_record 0) as [[i|]|e1] eqn:Hfind;
      simpl; try done.
    intros [= <-]. by apply (find_user_plain _ _ _ _ Hfind).
  - destruct (bool_decide (d = ∅)); intros [= <-]; [right |]; by left.
Qed.

Lemma stops_or_fails_bind {A} (m : M A) (k : A → M unit) :
  quiet m → (∀ a, stops_or_fails (k a)) → stops_or_fails (m ≫= k).
Proof.
  intros Hm Hk w r w'. unfold mbind, M_bind.
  destruct (m w) as [[a | e] w1] eqn:Hrun.
  - destruct (Hm _ _ _ Hrun) as [H1 _]. intros Hrest.
    destruct (Hk _ _ _ _ Hrest) as [Hstop | (e & -> & He & H2)]; [by left |].
    right. exists e. repeat split; [done |].
    by apply (only_requests_trans _ w1).
  - intros [= <- <-]. destruct (Hm _ _ _ Hrun) as [H1 He].
    right. exists e. repeat split; [by apply He | done].
Qed.

Lemma oauth_callback_try_stops_or_fails E config oauth_code oauth_guild_id :
  stops_or_fails (oauth_callback_try E config oauth_code oauth_guild_id).
Proof.
  unfold oauth_callback_try.
  apply stops_or_fails_bind; [apply quiet_checked | intros token_data].
  apply stops_or_fails_bind;
    [apply quiet_lift, getitem_plain | intros access_token].
  apply stops_or_fails_bind; [apply quiet_checked | intros user_data].
  apply stops_or_fails_bind; [apply quiet_lift, getitem_plain | intros user_id].
  apply stops_or_fails_bind; [apply quiet_checked | intros dm_channel].
  apply stops_or_fails_bind.
  { apply quiet_lift. intros e.
    destruct (getitem user_data "id") as [id | e1] eqn:H1; simpl;
      [|intros [= <-]; by apply (getitem_plain _ _ _ H1)].
    destruct (get user_data "username" (VStr "")) as [un | e2] eqn:H2; simpl;
      [|intros [= <-]; by apply (get_plain _ _ _ _ H2)].
    destruct (display_name user_data "") as [gn | e3] eqn:H3; simpl;
      [|intros [= <-]; by apply (display_name_plain _ _ _ H3)].
    destruct (getitem dm_channel "id") as [dm | e4] eqn:H4; simpl;
      [done | intros [= <-]; by apply (getitem_plain _ _ _ H4)]. }
  intros user_record.
  apply stops_or_fails_bind;
    [apply quiet_lift, add_authorized_user_plain | intros config'].
  intros w r w' [= <- <-]. by left.
Qed.

(** X15: what the callback handler can do.  When it is not triggered
    (OAuth2 is not set up, or the address has no [code]) it returns and
    nothing has happened.  When it is triggered it never returns: either
    the run ends in [st.stop()] with the query parameters cleared (the
    account connected, or a failure of the requests reported), or a
    plain error ([KeyError], [TypeError], [AttributeError]) leaves the
    script, and then nothing but requests has happened: nothing saved,
    nothing drawn, the [code] still in the address. *)
Theorem oauth_callback_outcomes E config w :
  let run := oauth_callback E config w in
  (¬ triggered E w → run = (Ok tt, w))
  ∧ (triggered E w →
     (run.1 = Raise StopException ∧ query_params run.2 = ∅)
     ∨ ∃ e, run.1 = Raise e ∧ plain_error e ∧ only_requests w run.2).
Proof.
  intros run. subst run. unfold triggered, oauth_callback. split.
  - intros Hnot. destruct (OAUTH2_AVAILABLE E); [|done].
    destruct (query_params w !! "code") eqn:Hcode; [|done].
    destruct Hnot. by split.
  - intros [-> [code ->]]. unfold try_except.
    destruct (oauth_callback_try E config code _ w) as [r w1] eqn:Hrun.
    destruct (oauth_callback_try_stops_or_fails _ _ _ _ _ _ _ Hrun)
      as [[-> Hq] | (e & -> & [He | He] & Hw)].
    + by left.
    + right. exists e.
      assert (oauth_callback_except e = None) as ->
        by by destruct He as [-> | [-> | [k ->]]].
      by repeat split.
    + left. destruct e; try done.
Qed.

Lemma oauth_callback_outcomes_witness :
  oauth_callback dm_refused two_users empty_world = (Ok tt, empty_world)
  ∧ ((oauth_callback dm_refused two_users returning_visitor).1
       = Raise StopException
     ∧ query_params (oauth_callback dm_refused two_users returning_visitor).2
       = ∅
     ∨ ∃ e, (oauth_callback dm_refused two_users returning_visitor).1 = Raise e
            ∧ plain_error e
            ∧ only_requests returning_visitor
                (oauth_callback dm_refused two_users returning_visitor).2).
Proof.
  split.
  - apply (oauth_callback_outcomes dm_refused two_users empty_world).
    intros [_ [code Hcode]]. done.
  - apply (oauth_callback_outcomes dm_refused two_users returning_visitor).
    split; [reflexivity | by eexists].
Defined.

Lemma checked_call_json E req w body :
  answers_json E (net_log w) req body →
  (resp ← http E req; _ ← lift (raise_for_status resp); lift (resp_json resp)) w
  = (Ok body, logged req w).
Proof.
  intros (resp & Hremote & Hstatus & Hbody).
  rewrite (checked_call _ _ _ _ Hremote), (raise_for_status_pass _ Hstatus).
  unfold resp_json. by rewrite Hbody.
Qed.

Lemma display_name_dict (u : dict) dflt :
  display_name (VDict u) dflt
  = Ok (py_or (dict_get u "global_name" VNone)
              (dict_get u "username" (VStr dflt))).
Proof.
  unfold display_name, py_or. simpl.
  by destruct (truthy (dict_get u "global_name" VNone)).
Qed.

(** X16: the callback handler when every call is answered.  The code of
    the address is exchanged; the access token of the answer is used to
    ask who the user is; a DM channel is opened for the user's id with
    the bot token; the record made of the three answers (the display
    name falls back on the user name) is added to the settings, with the
    [guild_id] of the address when it has a non-empty one; the settings
    are saved, the query parameters cleared, the confirmation drawn, and
    the run ends in [st.stop()].  Three requests, in this order. *)
Theorem oauth_callback_connects E config w code token_data access_token
    (user : dict) uid dm_channel dm_id config' :
  let req1 := token_call code (CLIENT_ID E) (CLIENT_SECRET E) (REDIRECT_URI E) in
  let req2 := identity_call access_token in
  let req3 := dm_call (BOT_TOKEN E) uid in
  let record := connection_record E user uid dm_id in
  let guild := default "" (query_params w !! "guild_id") in
  OAUTH2_AVAILABLE E = true →
  query_params w !! "code" = Some code →
  answers_json E (net_log w) req1 token_data →
  getitem token_data "access_token" = Ok access_token →
  answers_json E (net_log w ++ [req1]) req2 (VDict user) →
  user !! "id" = Some uid →
  answers_json E ((net_log w ++ [req1]) ++ [req2]) req3 dm_channel →
  getitem dm_channel "id" = Ok dm_id →
  add_authorized_user config record = Ok config' →
  oauth_callback E config w
  = (Raise StopException,
     {| config_file :=
          Some (if String.eqb guild "" then config'
                else <["guild_id" := VStr guild]> config');
        query_params := ∅;
        session_state := session_state w;
        page := page w ++ connected_view record;
        net_log := net_log w ++ [req1; req2; req3] |}).
Proof.
  intros req1 req2 req3 record guild Havail Hcode H1 Htoken H2 Huid H3 Hdm Hadd.
  unfold oauth_callback. rewrite Havail, Hcode. fold guild.
  unfold try_except, oauth_callback_try.
  erewrite bind_ok; [|by apply (checked_call_json E req1)].
  erewrite bind_ok; [|unfold lift; by rewrite Htoken].
  erewrite bind_ok; [|by apply (checked_call_json E req2)].
  erewrite bind_ok;
    [|unfold lift, getitem; by rewrite Huid].
  erewrite bind_ok; [|by apply (checked_call_json E req3)].
  erewrite bind_ok.
  2:{ unfold lift. rewrite display_name_dict, Hdm.
      unfold getitem, get. rewrite Huid. reflexivity. }
  fold (connection_record E user uid dm_id). fold record.
  erewrite bind_ok; [|unfold lift; by rewrite Hadd].
  assert (dict_get record "global_name" VNone
          = py_or (dict_get user "global_name" VNone)
              (dict_get user "username" (VStr ""))) as Hname by reflexivity.
  assert (dict_get record "username" VNone
          = dict_get user "username" (VStr "")) as Huser by reflexivity.
  unfold connected_view.
  generalize dependent record. intros record _ -> ->.
  cbv beta iota zeta delta [mbind M_bind save_config clear_query_params draw
                            st_stop raise truthy negb].
  destruct (String.eqb guild "");
    cbv beta iota zeta delta [negb logged set_page set_config_file
                              set_query_params set_net_log config_file
                              query_params session_state page net_log];
    f_equal; f_equal; by rewrite <-?app_assoc.
Qed.

Lemma oauth_callback_connects_witness :
  oauth_callback all_granted two_users returning_visitor
  = (Raise StopException,
     {| config_file :=
          Some (<["guild_id" := VStr "5"]>
                  (<["authorized_users" :=
                       VList [VDict alice_connected; VDict bob]]> two_users));
        query_params := ∅;
        session_state := ∅;
        page := connected_view alice_connected;
        net_log := [token_call "abc" "1234" "secret" "http://localhost:8501";
                    identity_call (VStr "at-1");
                    dm_call "bot-token" (VStr "1")] |}).
Proof.
  etrans.
  - apply (oauth_callback_connects all_granted two_users returning_visitor "abc"
             (VDict {[ "access_token" := VStr "at-1" ]}) (VStr "at-1")
             {[ "id" := VStr "1"; "username" := VStr "alice" ]} (VStr "1")
             (VDict {[ "id" := VStr "90" ]}) (VStr "90")
             (<["authorized_users" :=
                  VList [VDict alice_connected; VDict bob]]> two_users)).
    + reflexivity.
    + reflexivity.
    + exists token_granted. repeat split. simpl. lia.
    + reflexivity.
    + exists identity_alice. repeat split. simpl. lia.
    + reflexivity.
    + exists dm_opened. repeat split. simpl. lia.
    + reflexivity.
    + reflexivity.
  - reflexivity.
Defined.

(** X17: an answer to the exchange that has no [access_token] (the
    remote side answered with a status below 400 and a JSON object that
    lacks the key) makes the handler fail with [KeyError]: no clause
    catches it, one request has been made, and the rest is as it was;
    in particular the [code] stays in the address. *)
Theorem oauth_callback_no_access_token E config w code (token_data : dict) :
  let req := token_call code (CLIENT_ID E) (CLIENT_SECRET E) (REDIRECT_URI E) in
  OAUTH2_AVAILABLE E = true →
  query_params w !! "code" = Some code →
  answers_json E (net_log w) req (VDict token_data) →
  token_data !! "access_token" = None →
  oauth_callback E config w = (Raise (KeyError "access_token"), logged req w).
Proof.
  intros req Havail Hcode Hanswer Hmissing.
  unfold oauth_callback. rewrite Havail, Hcode.
  unfold try_except, oauth_callback_try.
  erewrite bind_ok; [|by apply (checked_call_json E req)].
  unfold mbind at 1. unfold M_bind at 1. unfold lift, getitem.
  by rewrite Hmissing.
Qed.

Lemma oauth_callback_no_access_token_witness :
  oauth_callback (sample_env (λ _, Answer token_withheld)) two_users
    returning_visitor
  = (Raise (KeyError "access_token"),
     logged (token_call "abc" "1234" "secret" "http://localhost:8501")
       returning_visitor).
Proof.
  etrans.
  - apply (oauth_callback_no_access_token
             (sample_env (λ _, Answer token_withheld)) two_users
             returning_visitor "abc" {[ "error" := VStr "invalid_grant" ]}).
    + reflexivity.
    + reflexivity.
    + exists token_withheld. repeat split. simpl. lia.
    + reflexivity.
  - reflexivity.
Defined.

(** ** The wizard *)


(** The wizard branch of [show_onboarding]: the step is looked up (and
    stored, in a fresh session), then the view of the step is drawn in
    the frame. *)
Lemma show_onboarding_wizard E dm ch (config : dict) w :
  dict_get config "authorized_users" (VList []) = VList [] →
  truthy (dict_get config "channel_id" VNone) = false →
  show_onboarding E dm ch config w
  = (_ ← draw (StTitle [Lit "Gopf Intel"]);
     _ ← (if py_eq (current_step w) (VStr "choose") then
            _ ← draw (StSubheader [Lit "Trading Signals on Discord"]);
            _ ← draw (StWrite [Lit "How would you like to receive your signals?"]);
            _ ← within (StColumn 0) (
                  _ ← draw (StMarkdown [Lit "**Direct Message** (Recommended)"]);
                  _ ← draw (StCaption [Lit "Private, personalized to you."]);
                  clicked ← st_button E "Direct Message" "Direct Message" true true;
                  if clicked : bool then
                    _ ← set_step "dm"; st_rerun
                  else mret tt);
            within (StColumn 1) (
              _ ← draw (StMarkdown [Lit "**Channel**"]);
              _ ← draw (StCaption [Lit "Shared with everyone in the channel."]);
              clicked ← st_button E "Channel" "Channel" false true;
              if clicked : bool then
                _ ← set_step "channel"; st_rerun
              else mret tt)
          else if py_eq (current_step w) (VStr "dm") then dm config
          else if py_eq (current_step w) (VStr "channel") then ch config
          else mret tt);
     _ ← draw StDivider;
     draw (StCaption [Lit "[Admin Dashboard](?admin)"]))
    (at_step (current_step w) w).
Proof.
  intros Husers Hchannel.
  unfold show_onboarding. rewrite Husers, Hchannel. cbv zeta.
  change (truthy (VList []) || false) with false. cbv iota.
  unfold current_step, at_step.
  destruct (session_state w !! "onboarding_step") as [step|] eqn:Hstep.
  - erewrite bind_ok; cycle 1.
    { rewrite bool_decide_eq_true_2 by by eexists. reflexivity. }
    erewrite bind_ok; cycle 1.
    { unfold getitem. rewrite Hstep. reflexivity. }
    simpl default. rewrite insert_id by done.
    by destruct w.
  - erewrite bind_ok; cycle 1.
    { rewrite bool_decide_eq_false_2 by (rewrite Hstep; by intros [? ?]).
      reflexivity. }
    erewrite bind_ok; cycle 1.
    { unfold getitem. cbn [session_state set_session_state].
      rewrite lookup_insert_eq. reflexivity. }
    reflexivity.
Qed.

(** X18: the two buttons of the first view.  In a new setup (no user, no
    channel) at the step [choose] (stored, or a fresh session), the run
    started by a press of "Direct Message" stores the step [dm] and ends
    in [st.rerun()] inside the first column: the second column, the
    divider and the link to the admin page are not drawn.  The run
    started by a press of "Channel" draws both columns, stores the step
    [channel] and ends in [st.rerun()].  Nothing else changes, and
    neither step view is run. *)
Theorem show_onboarding_choice E dm ch (config : dict) w :
  dict_get config "authorized_users" (VList []) = VList [] →
  truthy (dict_get config "channel_id" VNone) = false →
  current_step w = VStr "choose" →
  (pressed E = Some "Direct Message" →
   show_onboarding E dm ch config w
   = (Raise RerunException,
      set_page (page w ++ take 4 choose_view) (at_step (VStr "dm") w)))
  ∧ (pressed E = Some "Channel" →
     show_onboarding E dm ch config w
     = (Raise RerunException,
        set_page (page w ++ take 5 choose_view) (at_step (VStr "channel") w))).
Proof.
  intros Husers Hchannel Hstep.
  rewrite (show_onboarding_wizard _ _ _ _ _ Husers Hchannel), Hstep.
  change (py_eq (VStr "choose") (VStr "choose")) with true. cbv iota.
  unfold st_button, at_step.
  split; intros ->.
  - rewrite (bool_decide_eq_true_2 (Some "Direct Message" = Some "Direct Message"))
      by done.
    destruct w as [file params session drawn_so_far log].
    cbv beta iota zeta delta [within draw mbind M_bind mret M_ret set_page page
                              config_file query_params session_state net_log
                              set_session_state set_step st_rerun raise
                              choose_view take].
    rewrite insert_insert_eq. by rewrite <-!app_assoc.
  - rewrite (bool_decide_eq_false_2 (Some "Channel" = Some "Direct Message"))
      by done.
    rewrite (bool_decide_eq_true_2 (Some "Channel" = Some "Channel")) by done.
    destruct w as [file params session drawn_so_far log].
    cbv beta iota zeta delta [within draw mbind M_bind mret M_ret set_page page
                              config_file query_params session_state net_log
                              set_session_state set_step st_rerun raise
                              choose_view take].
    rewrite insert_insert_eq. by rewrite <-!app_assoc.
Qed.

Lemma show_onboarding_choice_witness :
  show_onboarding (pressing "Direct Message" offline) (λ _, mret tt)
    (λ _, mret tt) ∅ empty_world
  = (Raise RerunException,
     set_page (take 4 choose_view) (at_step (VStr "dm") empty_world))
  ∧ show_onboarding (pressing "Channel" offline) (λ _, mret tt)
      (λ _, mret tt) ∅ empty_world
    = (Raise RerunException,
       set_page (take 5 choose_view) (at_step (VStr "channel") empty_world)).
Proof.
  split.
  - by apply (show_onboarding_choice (pressing "Direct Message" offline)
                (λ _, mret tt) (λ _, mret tt) ∅ empty_world).
  - by apply (show_onboarding_choice (pressing "Channel" offline)
                (λ _, mret tt) (λ _, mret tt) ∅ empty_world).
Defined.

(** X19: which view the wizard shows.  In a new setup, with the step
    stored in the session: at [dm] the view [_onboarding_dm] is run in
    the frame (title above, divider and admin link below), at [channel]
    the view [_onboarding_channel]; and at a step that is none of
    [choose], [dm], [channel] the frame is drawn with nothing in it, no
    view is run, and the stored step stays. *)
Theorem show_onboarding_dispatch E dm ch (config : dict) w step :
  dict_get config "authorized_users" (VList []) = VList [] →
  truthy (dict_get config "channel_id" VNone) = false →
  session_state w !! "onboarding_step" = Some (VStr step) →
  (step = "dm" →
   show_onboarding E dm ch config w = wizard_frame (dm config) w)
  ∧ (step = "channel" →
     show_onboarding E dm ch config w = wizard_frame (ch config) w)
  ∧ (step ≠ "choose" → step ≠ "dm" → step ≠ "channel" →
     show_onboarding E dm ch config w
     = (Ok tt,
        set_page (page w ++ [StTitle [Lit "Gopf Intel"]; StDivider;
                             StCaption [Lit "[Admin Dashboard](?admin)"]]) w)).
Proof.
  intros Husers Hchannel Hstep.
  rewrite (show_onboarding_wizard _ _ _ _ _ Husers Hchannel).
  assert (current_step w = VStr step) as -> by (unfold current_step; by rewrite Hstep).
  assert (at_step (VStr step) w = w) as ->.
  { unfold at_step. rewrite insert_id by done. by destruct w. }
  repeat split.
  - by intros ->.
  - by intros ->.
  - intros H1 H2 H3.
    assert (∀ s, step ≠ s → py_eq (VStr step) (VStr s) = false) as Hne.
    { intros s Hs. unfold py_eq. simpl. by apply bool_decide_eq_false_2; intros [=]. }
    rewrite !Hne by done.
    destruct w as [file params session drawn_so_far log].
    cbv beta iota zeta delta [draw mbind M_bind mret M_ret set_page page
                              config_file query_params session_state net_log].
    by rewrite <-!app_assoc.
Qed.

Lemma show_onboarding_dispatch_witness :
  show_onboarding offline (_onboarding_dm offline) (λ _, mret tt) ∅ at_dm
  = wizard_frame (_onboarding_dm offline ∅) at_dm.
Proof.
  by apply (show_onboarding_dispatch offline (_onboarding_dm offline)
              (λ _, mret tt) ∅ at_dm "dm").
Defined.

(** X20: the view of the step [dm].  What it draws depends on the
    settings and the configuration only.  Without OAuth2 it offers no
    link at all; with OAuth2 exactly one, the link of [connect_link].
    In the run started by a press of "← Back" it stores the step
    [choose] and ends in [st.rerun()]; in any other run it returns and
    the session is as before.  It makes no request and does not touch
    the settings file or the query parameters. *)
Theorem onboarding_dm_view E (config : dict) :
  ∃ view,
    List.filter is_link view
    = (if OAUTH2_AVAILABLE E then [connect_link E config true true] else [])
    ∧ ∀ w,
        (pressed E = Some "← Back" →
         _onboarding_dm E config w
         = (Raise RerunException,
            set_page (page w ++ view) (at_step (VStr "choose") w)))
        ∧ (pressed E ≠ Some "← Back" →
           _onboarding_dm E config w = (Ok tt, set_page (page w ++ view) w)).
Proof.
  unfold _onboarding_dm, st_button, at_step.
  destruct (OAUTH2_AVAILABLE E) eqn:Havail; cbv beta iota zeta delta [negb].
  - assert (∃ caption, connect_link E config true true :: caption
              = (if truthy (dict_get config "guild_id" VNone)
                 then [connect_link E config true true]
                 else [connect_link E config true true;
                       StCaption [Lit "This will also add the bot to your server."]])
              ∧ List.filter is_link caption = []) as (caption & Hlinks & Hnone).
    { destruct (truthy (dict_get config "guild_id" VNone));
        eexists; split; reflexivity. }
    assert (is_link (connect_link E config true true) = true) as Hlink.
    { unfold connect_link. by destruct (truthy _). }
    exists ([StSubheader [Lit "Step 1 of 2: Connect your Discord account"];
             StWrite [Lit "Click the button below to authorize. The bot will be able to send you private messages with your personalized signals."]]
            ++ (connect_link E config true true :: caption)
            ++ [StButton "← Back" false false]).
    split.
    { rewrite !List.filter_app. simpl List.filter at 1.
      change (List.filter is_link (?x :: ?l))
        with (if is_link x then x :: List.filter is_link l
              else List.filter is_link l).
      by rewrite Hlink, Hnone. }
    rewrite Hlinks. clear Hlinks Hnone Hlink caption.
    intros [file params session drawn_so_far log]. split.
    + intros ->. rewrite bool_decide_eq_true_2 by done.
      destruct (truthy (dict_get config "guild_id" VNone));
        cbv beta iota zeta delta [within draw mbind M_bind mret M_ret set_page
                                  page config_file query_params session_state
                                  net_log set_session_state set_step st_rerun
                                  raise];
        by rewrite <-!app_assoc.
    + intros Hback. rewrite bool_decide_eq_false_2 by done.
      destruct (truthy (dict_get config "guild_id" VNone));
        cbv beta iota zeta delta [within draw mbind M_bind mret M_ret set_page
                                  page config_file query_params session_state
                                  net_log set_session_state set_step st_rerun
                                  raise];
        by rewrite <-!app_assoc.
  - exists [StSubheader [Lit "Step 1 of 2: Connect your Discord account"];
            StWrite [Lit "Click the button below to authorize. The bot will be able to send you private messages with your personalized signals."];
            StError [Lit "OAuth2 is not configured — DM connections require it."];
            StExpander [Lit "Setup instructions for administrators"]
              [StMarkdown [Lit oauth_setup_instructions]];
            StButton "← Back" false false].
    split; [reflexivity |].
    intros [file params session drawn_so_far log]. split.
    + intros ->. rewrite bool_decide_eq_true_2 by done.
      cbv beta iota zeta delta [within draw mbind M_bind mret M_ret set_page
                                page config_file query_params session_state
                                net_log set_session_state set_step st_rerun
                                raise].
      by rewrite <-!app_assoc.
    + intros Hback. rewrite bool_decide_eq_false_2 by done.
      cbv beta iota zeta delta [within draw mbind M_bind mret M_ret set_page
                                page config_file query_params session_state
                                net_log set_session_state set_step st_rerun
                                raise].
      by rewrite <-!app_assoc.
Qed.

Lemma onboarding_dm_view_witness :
  ∃ view,
    List.filter is_link view = []
    ∧ _onboarding_dm (pressing "← Back" (no_oauth offline)) ∅ at_dm
      = (Raise RerunException,
         set_page (page at_dm ++ view) (at_step (VStr "choose") at_dm)).
Proof.
  destruct (onboarding_dm_view (pressing "← Back" (no_oauth offline)) ∅)
    as (view & Hlinks & Hrun).
  exists view. split; [exact Hlinks |].
  by apply (Hrun at_dm).
Defined.

(** ** The message feeds and the channel loader *)

Lemma get_messages_logged E token channel_id limit w :
  ∃ r, get_messages E token channel_id limit w
       = (r, logged (messages_call token channel_id limit) w).
Proof.
  destruct (get_messages E token channel_id limit w) as [r w'] eqn:Hrun.
  exists r. f_equal. by apply (checked_call_logged _ _ _ _ _ Hrun).
Qed.

Lemma bind_raise {A B} (m : M A) (k : A → M B) w e w' :
  m w = (Raise e, w') → (m ≫= k) w = (Raise e, w').
Proof. intros H. unfold mbind, M_bind. by rewrite H. Qed.

(** X21: one run of a message feed ([_dm_message_feed],
    [_ch_message_feed]).  It makes one request, for the 25 latest
    messages of the channel, and then only draws.  No exception of the
    request library leaves it: a failure of the network layer is
    reported as a network error, an error status (400 to 599) with the
    feed's own notice for 403 and the generic notice otherwise, and in
    these cases nothing else is drawn.  What may leave it is a plain
    error raised while the messages are drawn. *)
Theorem message_feed_contained E channel_id bot_id forbidden_notice w :
  let req := messages_call (BOT_TOKEN E) channel_id 25 in
  let run := message_feed E channel_id bot_id forbidden_notice w in
  (∃ view, run.2 = set_page (page w ++ view) (logged req w))
  ∧ (∀ e, run.1 = Raise e → is_request_exception e = false)
  ∧ (∀ msg, remote E (net_log w) req = NetFail msg →
       run = (Ok tt,
              drawn (StError [Lit "Network error: ";
                              FmtExc (RequestException msg)]) (logged req w)))
  ∧ (∀ resp, remote E (net_log w) req = Answer resp →
       (400 ≤ status_code resp < 600)%Z →
       run = (Ok tt,
              drawn (if (status_code resp =? 403)%Z
                     then StError [Lit forbidden_notice]
                     else api_error_notice resp) (logged req w))).
Proof.
  intros req run. subst run.
  assert (∀ exc,
            let handler :=
              match exc with
              | HTTPError r =>
                  Some (if (status_code r =? 403)%Z
                        then draw (StError [Lit forbidden_notice])
                        else draw (StError [Lit "Discord API error (";
                                            Fmt (VInt (status_code r));
                                            Lit "): "; Fmt (VStr (text r))]))
              | _ =>
                  if is_request_exception exc then
                    Some (draw (StError [Lit "Network error: "; FmtExc exc]))
                  else None
              end in
            (∃ notice, handler = Some (draw notice))
            ∨ (handler = None ∧ is_request_exception exc = false)) as Hhandled.
  { intros exc. destruct exc; cbv zeta; try (by right); try (left; by eexists).
    left. destruct (status_code r =? 403)%Z; by eexists. }
  cbv zeta in Hhandled.
  split; [|split; [|split]].
  - unfold message_feed, try_except. cbv zeta.
    unfold mbind at 1. unfold M_bind at 1.
    destruct (get_messages_logged E (BOT_TOKEN E) channel_id 25 w) as [r ->].
    fold req. destruct r as [msgs | e].
    + destruct (display_messages E msgs bot_id (logged req w))
        as [[[] | e] w1] eqn:Hdraw;
        destruct (draws_only_display_messages E msgs bot_id _ _ _ Hdraw)
        as [lines ->].
      * by exists lines.
      * destruct (Hhandled e) as [[notice ->] | [-> He]].
        -- exists (lines ++ [notice]). unfold draw. simpl.
           rewrite set_page_set_page. by rewrite app_assoc.
        -- by exists lines.
    + destruct (Hhandled e) as [[notice ->] | [-> He]].
      * by exists [notice].
      * exists []. rewrite app_nil_r. by destruct w.
  - intros e. unfold message_feed, try_except. cbv zeta.
    destruct ((get_messages E (BOT_TOKEN E) channel_id 25
               ≫= λ msgs, display_messages E msgs bot_id) w)
      as [[[] | e1] w1]; [done |].
    destruct (Hhandled e1) as [[notice ->] | [-> He]]; [done |].
    by intros [= <-].
  - intros msg Hremote.
    assert (get_messages E (BOT_TOKEN E) channel_id 25 w
            = (Raise (RequestException msg), logged req w)) as Hget.
    { unfold get_messages, discord_request.
      change (discord_call "GET"
                ("/channels/" +:+ channel_id +:+ "/messages?limit=" +:+
                 str_of_int 25) (BOT_TOKEN E) NoBody) with req.
      unfold mbind, M_bind. by rewrite (http_fail _ _ _ _ Hremote). }
    unfold message_feed, try_except. unfold mbind at 1. unfold M_bind at 1.
    by rewrite Hget.
  - intros resp Hremote Hstatus.
    assert (get_messages E (BOT_TOKEN E) channel_id 25 w
            = (Raise (HTTPError resp), logged req w)) as Hget.
    { unfold get_messages, discord_request.
      change (discord_call "GET"
                ("/channels/" +:+ channel_id +:+ "/messages?limit=" +:+
                 str_of_int 25) (BOT_TOKEN E) NoBody) with req.
      by rewrite (checked_call _ _ _ _ Hremote),
        (raise_for_status_error _ Hstatus). }
    unfold message_feed, try_except. unfold mbind at 1. unfold M_bind at 1.
    rewrite Hget. cbv zeta. by destruct (status_code resp =? 403)%Z.
Qed.

Lemma message_feed_contained_witness :
  _ch_message_feed (sample_env (λ _, Answer forbidden)) "42" "900" empty_world
  = (Ok tt,
     drawn (StError [Lit "Bot lacks permission to read message history."])
       (logged (messages_call "bot-token" "42" 25) empty_world)).
Proof.
  destruct (message_feed_contained (sample_env (λ _, Answer forbidden))
              "42" "900" "Bot lacks permission to read message history."
              empty_world) as (_ & _ & _ & Hstatus).
  apply (Hstatus forbidden); [reflexivity | simpl; lia].
Defined.

(** X22: the loader of the channels ("Load Channels" in the wizard and
    in the admin page) and the cache in the session state.  When
    [get_guild_channels] returns, the cache holds what it returned, and a
    warning is drawn if that is empty.  When it raises an exception of
    the request library, the cache is emptied and one error is drawn.
    When it raises a plain error (an entry without [type], say), the
    error leaves the loader and the cache holds what it held. *)
Theorem load_channels_cache E cache guild_id no_access not_found w :
  let req := channels_call (BOT_TOKEN E) guild_id in
  let fetch := get_guild_channels E (BOT_TOKEN E) guild_id w in
  let run := load_channels E cache guild_id no_access not_found w in
  (∀ channels,
     fetch.1 = Ok channels →
     run = (Ok tt,
            set_page (page w ++
                      if bool_decide (channels = []) then
                        [StWarning [Lit "No text channels found. Is the bot in this server?"]]
                      else [])
              (set_session_state (<[cache := VList channels]> (session_state w))
                 (logged req w))))
  ∧ (∀ e,
       fetch.1 = Raise e → is_request_exception e = true →
       ∃ notice,
         run = (Ok tt,
                drawn (StError notice)
                  (set_session_state (<[cache := VList []]> (session_state w))
                     (logged req w))))
  ∧ (∀ e,
       fetch.1 = Raise e → is_request_exception e = false →
       run = (Raise e, logged req w)).
Proof.
  intros req fetch run. subst fetch run.
  destruct (get_guild_channels E (BOT_TOKEN E) guild_id w) as [r w1] eqn:Hfetch.
  assert (w1 = logged req w) as ->
    by by apply (get_guild_channels_logged _ _ _ _ _ _ Hfetch).
  unfold load_channels, try_except. simpl fst.
  split; [|split].
  - intros channels ->. rewrite (bind_ok _ _ _ _ _ Hfetch).
    destruct w as [file params session drawn_so_far log].
    unfold mbind at 1. unfold M_bind at 1. unfold set_cache.
    cbv beta iota zeta delta [truthy]. destruct (bool_decide (channels = []));
      cbv beta iota zeta delta [negb draw mret M_ret set_page page logged
                                set_session_state set_net_log config_file
                                query_params session_state net_log];
      by rewrite ?app_nil_r.
  - intros e -> He. rewrite (bind_raise _ _ _ _ _ Hfetch).
    destruct e; try done; cbv zeta; try by eexists.
    repeat match goal with
           | |- context [if ?b then _ else _] => destruct b
           end; by eexists.
  - intros e -> He. rewrite (bind_raise _ _ _ _ _ Hfetch). by destruct e.
Qed.

Lemma load_channels_cache_witness :
  (∃ notice,
     load_channels_admin offline "5" cached_channels
     = (Ok tt,
        drawn (StError notice)
          (set_session_state
             (<["channels" := VList []]> (session_state cached_channels))
             (logged (channels_call "bot-token" "5") cached_channels))))
  ∧ load_channels_admin (sample_env (λ _, Answer untyped_channels)) "5"
      cached_channels
    = (Raise (KeyError "type"),
       logged (channels_call "bot-token" "5") cached_channels).
Proof.
  split.
  - destruct (load_channels_cache offline "channels" "5"
                "Bot doesn't have access to this server." "Server not found."
                cached_channels) as (_ & Hrequest & _).
    apply (Hrequest (RequestException "connection refused")); reflexivity.
  - destruct (load_channels_cache (sample_env (λ _, Answer untyped_channels))
                "channels" "5" "Bot doesn't have access to this server."
                "Server not found." cached_channels) as (_ & _ & Hplain).
    apply (Hplain (KeyError "type")); reflexivity.
Defined.

(** ** The start of the script *)

(** X23: the check of the settings and of the bot token.  With the bot
    token or the client id empty, the script draws the setup
    instructions and stops without a request.  Otherwise it makes one
    request, for the bot's own account, and stops with a notice when the
    network layer fails, when the status is 401, and when the status is
    any other than 200.  On status 200 it goes on with the body and the
    [id] in it; a body that is not JSON raises the decode error, outside
    of any [try].  It returns only on status 200. *)
Theorem verify_bot_token_outcomes E w :
  let req := me_call (BOT_TOKEN E) in
  let run := verify_bot_token E w in
  (BOT_TOKEN E = "" ∨ CLIENT_ID E = "" →
   run = (Raise StopException, set_page (page w ++ missing_settings_view) w))
  ∧ (BOT_TOKEN E ≠ "" → CLIENT_ID E ≠ "" →
     (∀ msg, remote E (net_log w) req = NetFail msg →
        run = (Raise StopException,
               drawn (StError [Lit "Could not connect to Discord API: ";
                               FmtExc (RequestException msg)]) (logged req w)))
     ∧ (∀ resp, remote E (net_log w) req = Answer resp →
          (status_code resp = 401%Z →
           run = (Raise StopException,
                  drawn (StError [Lit "Invalid bot token. Please check `DISCORD_BOT_TOKEN` in your `.env` file."])
                    (logged req w)))
          ∧ (status_code resp ≠ 401%Z → status_code resp ≠ 200%Z →
             run = (Raise StopException,
                    drawn (api_error_notice resp) (logged req w)))
          ∧ (status_code resp = 200%Z →
             (∀ info id,
                json_body resp = Some info → getitem info "id" = Ok id →
                run = (Ok (info, id), logged req w))
             ∧ (json_body resp = None →
                run = (Raise JSONDecodeError, logged req w)))))
  ∧ (∀ info id,
       run.1 = Ok (info, id) →
       ∃ resp, remote E (net_log w) req = Answer resp
               ∧ status_code resp = 200%Z
               ∧ json_body resp = Some info
               ∧ getitem info "id" = Ok id).
Proof.
  intros req run. subst run.
  assert (∀ s, truthy (VStr s) = false ↔ s = "") as Hempty.
  { intros s. simpl. rewrite negb_false_iff. apply String.eqb_eq. }
  unfold verify_bot_token, discord_request. fold (me_call (BOT_TOKEN E)).
  fold req. unfold try_except, http.
  destruct w as [file params session drawn_so_far log].
  destruct (truthy (VStr (BOT_TOKEN E))) eqn:Htoken;
    [destruct (truthy (VStr (CLIENT_ID E))) eqn:Hclient |].
  - assert (BOT_TOKEN E ≠ "") as Ht by (rewrite <-Hempty; congruence).
    assert (CLIENT_ID E ≠ "") as Hc by (rewrite <-Hempty; congruence).
    cbv beta iota zeta delta [negb orb mbind M_bind mret M_ret net_log
                              set_net_log config_file query_params
                              session_state page].
    destruct (remote E log req) as [resp | msg] eqn:Hremote.
    + cbv beta iota.
      unfold api_error_notice, drawn, logged.
      destruct (status_code resp =? 401)%Z eqn:H401;
        [|destruct (status_code resp =? 200)%Z eqn:H200];
        cbv beta iota zeta delta [negb draw st_stop raise lift set_page page
                                  net_log set_net_log config_file query_params
                                  session_state].
      * apply Z.eqb_eq in H401.
        split; [intros [? | ?]; congruence |]. split; [|by intros info id].
        intros _ _. split; [done |]. intros resp' [= <-].
        split; [done |]. split; [by intros ? |]. intros Hs. lia.
      * apply Z.eqb_eq in H200. apply Z.eqb_neq in H401.
        unfold resp_json.
        split; [intros [? | ?]; congruence |]. split.
        -- intros _ _. split; [done |]. intros resp' [= <-].
           split; [by intros ? |]. split; [by intros ? ? |].
           intros _. split.
           ++ intros info id -> Hid. by rewrite Hid.
           ++ by intros ->.
        -- intros info id.
           destruct (json_body resp) as [body|] eqn:Hbody; [|done].
           destruct (getitem body "id") as [v|] eqn:Hid; [|done].
           simpl. intros [= <- <-]. exists resp. by repeat split.
      * apply Z.eqb_neq in H200. apply Z.eqb_neq in H401.
        split; [intros [? | ?]; congruence |]. split; [|by intros info id].
        intros _ _. split; [done |]. intros resp' [= <-].
        split; [by intros ? |]. split; [done |]. by intros ?.
    + unfold drawn, logged.
      cbv beta iota zeta delta [is_request_exception draw st_stop raise
                                set_page page net_log set_net_log config_file
                                query_params session_state].
      split; [intros [? | ?]; congruence |]. split; [|by intros info id].
      intros _ _. split; [by intros msg' [= <-] | done].
  - apply Hempty in Hclient.
    split; [|split; [done | by intros info id]].
    intros _.
    cbv beta iota zeta delta [negb orb mbind M_bind mret M_ret draw within
                              st_stop raise set_page page net_log config_file
                              query_params session_state missing_settings_view].
    by rewrite <-!app_assoc.
  - apply Hempty in Htoken.
    split; [|split; [done | by intros info id]].
    intros _.
    cbv beta iota zeta delta [negb orb mbind M_bind mret M_ret draw within
                              st_stop raise set_page page net_log config_file
                              query_params session_state missing_settings_view].
    by rewrite <-!app_assoc.
Qed.

Lemma verify_bot_token_outcomes_witness :
  verify_bot_token (no_token offline) empty_world
  = (Raise StopException,
     set_page (page empty_world ++ missing_settings_view) empty_world)
  ∧ verify_bot_token (sample_env (λ _, Answer unauthorized)) empty_world
    = (Raise StopException,
       drawn (StError [Lit "Invalid bot token. Please check `DISCORD_BOT_TOKEN` in your `.env` file."])
         (logged (me_call "bot-token") empty_world))
  ∧ verify_bot_token (sample_env (λ _, Answer bot_identity)) empty_world
    = (Ok (VDict {[ "id" := VStr "900"; "username" := VStr "gopf" ]},
           VStr "900"),
       logged (me_call "bot-token") empty_world).
Proof.
  split; [|split].
  - apply (verify_bot_token_outcomes (no_token offline) empty_world). by left.
  - destruct (verify_bot_token_outcomes (sample_env (λ _, Answer unauthorized))
                empty_world) as (_ & Hset & _).
    destruct Hset as [_ Hanswer]; [done | done |].
    by apply (Hanswer unauthorized).
  - destruct (verify_bot_token_outcomes (sample_env (λ _, Answer bot_identity))
                empty_world) as (_ & Hset & _).
    destruct Hset as [_ Hanswer]; [done | done |].
    destruct (Hanswer bot_identity eq_refl) as (_ & _ & Hok).
    destruct (Hok eq_refl) as [Hbody _].
    by apply Hbody.
Defined.

Lemma keeps_query_bind {A B} (m : M A) (k : A → M B) :
  keeps_query m → (∀ a, keeps_query (k a)) → keeps_query (m ≫= k).
Proof.
  intros Hm Hk w r w'. unfold mbind, M_bind.
  destruct (m w) as [[a | e] w1] eqn:Hrun.
  - intros Hrest. rewrite (Hk _ _ _ _ Hrest). by apply (Hm _ _ _ Hrun).
  - intros [= _ <-]. by apply (Hm _ _ _ Hrun).
Qed.

Lemma keeps_query_lift {A} (o : outcome A) : keeps_query (lift o).
Proof. by intros w r w' [= _ <-]. Qed.

Lemma keeps_query_ret {A} (a : A) : keeps_query (mret a).
Proof. by intros w r w' [= _ <-]. Qed.

Lemma keeps_query_raise {A} e : keeps_query (@raise A e).
Proof. by intros w r w' [= _ <-]. Qed.

Lemma keeps_query_draw x : keeps_query (draw x).
Proof. by intros w r w' [= _ <-]. Qed.

Lemma keeps_query_http E req : keeps_query (http E req).
Proof.
  intros w r w'. unfold http.
  destruct (remote E (net_log w) req); by intros [= _ <-].
Qed.

Lemma keeps_query_within {A} container (m : M A) :
  keeps_query m → keeps_query (within container m).
Proof.
  intros Hm w r w'. unfold within.
  destruct (m (set_page [] w)) as [r1 w1] eqn:Hrun.
  intros [= _ <-]. by apply (Hm _ _ _ Hrun).
Qed.

Lemma keeps_query_try_except {A} (m : M A) h :
  keeps_query m → (∀ e k, h e = Some k → keeps_query k) →
  keeps_query (try_except m h).
Proof.
  intros Hm Hh w r w'. unfold try_except.
  destruct (m w) as [[a | e] w1] eqn:Hrun.
  - intros [= _ <-]. by apply (Hm _ _ _ Hrun).
  - destruct (h e) as [k|] eqn:Hk.
    + intros Hrest. rewrite (Hh _ _ Hk _ _ _ Hrest). by apply (Hm _ _ _ Hrun).
    + intros [= _ <-]. by apply (Hm _ _ _ Hrun).
Qed.

Lemma verify_bot_token_keeps_query E : keeps_query (verify_bot_token E).
Proof.
  unfold verify_bot_token.
  apply keeps_query_bind.
  { destruct (_ || _); [|apply keeps_query_ret].
    apply keeps_query_bind; [apply keeps_query_draw | intros _].
    apply keeps_query_bind;
      [apply keeps_query_within, keeps_query_draw | intros _].
    apply keeps_query_raise. }
  intros _. apply keeps_query_bind.
  { apply keeps_query_try_except; [apply keeps_query_http |].
    intros e k. destruct (is_request_exception e); [|done]. intros [= <-].
    apply keeps_query_bind; [apply keeps_query_draw | intros _].
    apply keeps_query_raise. }
  intros me_resp. apply keeps_query_bind.
  { destruct (status_code me_resp =? 401)%Z;
      [|destruct (negb _); [|apply keeps_query_ret]];
      (apply keeps_query_bind; [apply keeps_query_draw | intros _]);
      apply keeps_query_raise. }
  intros _. apply keeps_query_bind; [apply keeps_query_lift | intros info].
  apply keeps_query_bind; [apply keeps_query_lift | intros id].
  apply keeps_query_ret.
Qed.

Lemma migrate_config_keeps_query E config : keeps_query (migrate_config E config).
Proof.
  intros w r w' Hrun.
  destruct (migrate_config_cases E config w) as [H | (config' & H & _)];
    rewrite H in Hrun; by injection Hrun as _ <-.
Qed.

Lemma oauth_callback_returned E config w a w' :
  oauth_callback E config w = (Ok a, w') → ¬ triggered E w ∧ w' = w.
Proof.
  unfold oauth_callback, triggered.
  destruct (OAUTH2_AVAILABLE E); [|intros [= _ <-]; split; [by intros [? ?] | done]].
  destruct (query_params w !! "code") as [code|] eqn:Hcode;
    [|intros [= _ <-]; split; [by intros [_ [? ?]] | done]].
  unfold try_except.
  destruct (oauth_callback_try E config code _ w) as [r w1] eqn:Hrun.
  destruct (oauth_callback_try_stops_or_fails _ _ _ _ _ _ _ Hrun)
    as [[-> _] | (e & -> & _ & _)]; [done |].
  destruct e; try done.
Qed.

(** X24: when the admin page is reached.  If the address has no [admin]
    parameter, or if the callback handler runs (OAuth2 is set up and the
    address has a [code], with or without [admin]), the script ends in
    an exception ([st.stop()] in the regular cases) before the admin
    page: the run is the same whatever the admin page would do. *)
Theorem script_before_admin_page E _onboarding_channel w :
  query_params w !! "admin" = None ∨ triggered E w →
  ∃ e w', ∀ admin_page,
    script E _onboarding_channel admin_page w = (Raise e, w').
Proof.
  intros Hgate. unfold script.
  destruct (verify_bot_token E w) as [[bot | e] w1] eqn:Hverify;
    [|exists e, w1; intros admin_page; by rewrite (bind_raise _ _ _ _ _ Hverify)].
  pose proof (verify_bot_token_keeps_query E _ _ _ Hverify) as Hq1.
  set (config := default ∅ (config_file w1)).
  assert (load_config w1 = (Ok config, w1)) as Hload by done.
  destruct (migrate_config E config w1) as [[config' | e] w2] eqn:Hmigrate;
    [|exists e, w2; intros admin_page;
      by rewrite (bind_ok _ _ _ _ _ Hverify), (bind_ok _ _ _ _ _ Hload),
        (bind_raise _ _ _ _ _ Hmigrate)].
  pose proof (migrate_config_keeps_query E _ _ _ _ Hmigrate) as Hq2.
  destruct (oauth_callback E config' w2) as [[[] | e] w3] eqn:Hcallback;
    [|exists e, w3; intros admin_page;
      by rewrite (bind_ok _ _ _ _ _ Hverify), (bind_ok _ _ _ _ _ Hload),
        (bind_ok _ _ _ _ _ Hmigrate), (bind_raise _ _ _ _ _ Hcallback)].
  destruct (oauth_callback_returned _ _ _ _ _ Hcallback) as [Hidle ->].
  assert (query_params w2 !! "admin" = None) as Hadmin.
  { destruct Hgate as [Hadmin | [Havail Hcode]].
    - by rewrite Hq2, Hq1.
    - destruct Hidle. split; [done |]. by rewrite Hq2, Hq1. }
  destruct (show_onboarding E (_onboarding_dm E) _onboarding_channel config' w2)
    as [[[] | e] w4] eqn:Hshow.
  - exists StopException, w4. intros admin_page.
    rewrite (bind_ok _ _ _ _ _ Hverify), (bind_ok _ _ _ _ _ Hload),
      (bind_ok _ _ _ _ _ Hmigrate), (bind_ok _ _ _ _ _ Hcallback).
    unfold mbind at 1. unfold M_bind at 1. rewrite Hadmin.
    rewrite bool_decide_eq_false_2 by by intros [? ?].
    cbv beta iota zeta delta [negb]. by rewrite (bind_ok _ _ _ _ _ Hshow).
  - exists e, w4. intros admin_page.
    rewrite (bind_ok _ _ _ _ _ Hverify), (bind_ok _ _ _ _ _ Hload),
      (bind_ok _ _ _ _ _ Hmigrate), (bind_ok _ _ _ _ _ Hcallback).
    unfold mbind at 1. unfold M_bind at 1. rewrite Hadmin.
    rewrite bool_decide_eq_false_2 by by intros [? ?].
    cbv beta iota zeta delta [negb]. by rewrite (bind_raise _ _ _ _ _ Hshow).
Qed.

Lemma script_before_admin_page_witness :
  ∃ e w', ∀ admin_page,
    script (sample_env (λ _, Answer bot_identity)) (λ _, mret tt) admin_page
      returning_admin
    = (Raise e, w').
Proof.
  apply (script_before_admin_page (sample_env (λ _, Answer bot_identity))
           (λ _, mret tt) returning_admin).
  right. split; [reflexivity | by eexists].
Defined.
